(** * Calendar assistant: the conversational agent and the menu client

    A shallow embedding of [ai-agent.py] and [traditional.py].  Both scripts
    share a credential routine ([get_calendar_service]) and a whitelist-gated
    gateway ([calendar_api_call]); the first adds a dispatcher and a
    tool-calling loop, the second a menu of validated prompts.

    Conventions of the embedding:
    - a Python [str] is a [string]; every character is read as a code point
      below 256 (the pictographs of the log messages are kept as their bytes
      and never inspected);
    - a Python value that may come out of [json.loads] or out of the remote
      service is a [pyval]; a [dict] is an association list in insertion order;
    - a statement sequence is a computation [M A] over a [world] that holds
      the token file, the lines waiting on standard input, the conversation
      history and the trace of every effect performed so far;
    - a call that leaves the program (OAuth, the calendar service, the
      language model, the file system) is answered by an [env], which sees
      the whole world at the time of the call;
    - a loop or a recursion of the scripts is a [Fixpoint] on a budget, and
      [OutOfFuel] marks a budget used up: the menu is shown never to get
      there, the tool-calling loop is given as many rounds as a statement
      needs, and the session of the agent runs short only when that loop
      does. *)

From Stdlib Require Import ZArith List String Ascii Bool Lia.
Import ListNotations.
Local Open Scope string_scope.
Local Open Scope Z_scope.
Set Warnings "-register-all".

(** ** Python values *)

Module Py.

(** The values of JSON, as Python reads them.  A number with a fraction is
    not represented: neither script looks inside a number. *)
Inductive pyval : Type :=
| PNone
| PBool (b : bool)
| PInt (z : Z)
| PStr (s : string)
| PList (l : list pyval)
| PDict (d : list (string * pyval)).

Definition kwargs := list (string * pyval).

(** [bool(v)] *)
Definition truthy (v : pyval) : bool :=
  match v with
  | PNone => false
  | PBool b => b
  | PInt z => negb (z =? 0)
  | PStr s => negb (s =? "")%string
  | PList l => match l with [] => false | _ => true end
  | PDict d => match d with [] => false | _ => true end
  end.

(** [d.get(k)] on the association list: the first binding of [k]. *)
Fixpoint lookup (k : string) (d : kwargs) : option pyval :=
  match d with
  | [] => None
  | (k', v) :: rest => if (k =? k')%string then Some v else lookup k rest
  end.

Definition has_key (k : string) (d : kwargs) : bool :=
  match lookup k d with Some _ => true | None => false end.

(** [type(v).__name__] *)
Definition type_name (v : pyval) : string :=
  match v with
  | PNone => "NoneType"
  | PBool _ => "bool"
  | PInt _ => "int"
  | PStr _ => "str"
  | PList _ => "list"
  | PDict _ => "dict"
  end.

(** *** Exceptions

    [LibraryError] stands for the exception classes of the SDKs (HttpError,
    RefreshError, AccessDeniedError, ConnectionError, ...), all of which derive
    from [Exception].  [KeyboardInterrupt] and [SystemExit] derive from
    [BaseException] only. *)

Inductive exc_class : Type :=
| TypeError
| ValueError
| OverflowError
| IndexError
| KeyError
| AttributeError
| EOFError
| OSError
| JSONDecodeError
| LibraryError (name : string)
| KeyboardInterrupt
| SystemExit.

Record exn : Type := mkExn { exn_class : exc_class; exn_str : string (* str(e) *) }.

(** [isinstance(e, Exception)] *)
Definition is_Exception (e : exn) : bool :=
  match exn_class e with
  | KeyboardInterrupt | SystemExit => false
  | _ => true
  end.

(** [isinstance(e, ValueError)]: [json.JSONDecodeError] derives from
    [ValueError]. *)
Definition is_ValueError (e : exn) : bool :=
  match exn_class e with
  | ValueError | JSONDecodeError => true
  | _ => false
  end.

(** [isinstance(e, KeyboardInterrupt)] *)
Definition is_KeyboardInterrupt (e : exn) : bool :=
  match exn_class e with
  | KeyboardInterrupt => true
  | _ => false
  end.

(** The outcome of running a piece of code: a value, a raised exception, or
    the exhaustion of the budget of a bounded loop of the model. *)
Inductive result (A : Type) : Type :=
| Ok (a : A)
| Raise (e : exn)
| OutOfFuel.
Arguments Ok {A} a.
Arguments Raise {A} e.
Arguments OutOfFuel {A}.

(** *** Sets of strings

    [v in S] for a set [S] of strings: hashes [v] first, so an unhashable
    operand raises; a hashable operand of another type is simply absent. *)
Definition str_in (s : string) (S : list string) : bool :=
  existsb (String.eqb s) S.

Definition py_in (v : pyval) (S : list string) : result bool :=
  match v with
  | PStr s => Ok (str_in s S)
  | PList _ | PDict _ =>
      Raise (mkExn TypeError ("unhashable type: '" ++ type_name v ++ "'"))
  | _ => Ok false
  end.

Definition quoted (s : string) : string := "'" ++ s ++ "'".

(** [v[k]] for a string [k] *)
Definition subscript (v : pyval) (k : string) : result pyval :=
  match v with
  | PDict d =>
      match lookup k d with
      | Some x => Ok x
      | None => Raise (mkExn KeyError (quoted k))
      end
  | PList _ =>
      Raise (mkExn TypeError "list indices must be integers or slices, not str")
  | PStr _ => Raise (mkExn TypeError "string indices must be integers, not 'str'")
  | _ => Raise (mkExn TypeError (quoted (type_name v) ++ " object is not subscriptable"))
  end.

(** [v.get(k, default)] *)
Definition get (v : pyval) (k : string) (default : pyval) : result pyval :=
  match v with
  | PDict d => Ok (match lookup k d with Some x => x | None => default end)
  | _ =>
      Raise (mkExn AttributeError
               (quoted (type_name v) ++ " object has no attribute 'get'"))
  end.

Fixpoint chars (s : string) : list pyval :=
  match s with
  | EmptyString => []
  | String c rest => PStr (String c EmptyString) :: chars rest
  end.

(** The elements a [for] loop over [v] visits. *)
Definition iterate (v : pyval) : result (list pyval) :=
  match v with
  | PList l => Ok l
  | PDict d => Ok (map (fun kv => PStr (fst kv)) d)
  | PStr s => Ok (chars s)
  | _ => Raise (mkExn TypeError (quoted (type_name v) ++ " object is not iterable"))
  end.

Definition error_dict (msg : string) : pyval := PDict [("error", PStr msg)].

End Py.
Export Py.

(** ** Strings *)

Module Str.

(** [c.isspace()] for a code point below 256. *)
Definition is_space (c : ascii) : bool :=
  let n := nat_of_ascii c in
  ((9 <=? n) && (n <=? 13) || (28 <=? n) && (n <=? 32)
   || (n =? 133) || (n =? 160))%nat.

Fixpoint lstrip (s : string) : string :=
  match s with
  | String c rest => if is_space c then lstrip rest else s
  | EmptyString => EmptyString
  end.

(** Drops the trailing white space: a character is kept when it is not a
    space or when something is kept after it. *)
Fixpoint rstrip (s : string) : string :=
  match s with
  | EmptyString => EmptyString
  | String c rest =>
      match rstrip rest with
      | EmptyString => if is_space c then EmptyString else String c EmptyString
      | kept => String c kept
      end
  end.

(** [s.strip()] *)
Definition strip (s : string) : string := rstrip (lstrip s).

(** [s.split(sep)] for a one-character separator: never the empty list. *)
Fixpoint split (sep : ascii) (s : string) : list string :=
  match s with
  | EmptyString => [EmptyString]
  | String c rest =>
      if Ascii.eqb c sep then EmptyString :: split sep rest
      else match split sep rest with
           | [] => [String c EmptyString]
           | w :: ws => String c w :: ws
           end
  end.

(** [c.lower()] for a code point below 256. *)
Definition lower_char (c : ascii) : ascii :=
  let n := nat_of_ascii c in
  if ((65 <=? n) && (n <=? 90)
      || (192 <=? n) && (n <=? 222) && negb (n =? 215))%nat
  then ascii_of_nat (n + 32) else c.

Fixpoint lower (s : string) : string :=
  match s with
  | EmptyString => EmptyString
  | String c rest => String (lower_char c) (lower rest)
  end.

Definition is_digit (c : ascii) : bool :=
  let n := nat_of_ascii c in ((48 <=? n) && (n <=? 57))%nat.

Definition digit_val (c : ascii) : Z := Z.of_nat (nat_of_ascii c) - 48.

(** [int(s)] of a string of decimal digits. *)
Definition int_of_digits (s : string) : Z :=
  fold_left (fun acc c => 10 * acc + digit_val c) (list_ascii_of_string s) 0.

Definition digit_char (d : Z) : ascii := ascii_of_nat (Z.to_nat (48 + d mod 10)).

(** The last [width] decimal digits of [n], most significant first. *)
Fixpoint digits (width : nat) (n : Z) : string :=
  match width with
  | O => EmptyString
  | S w => digits w (n / 10) ++ String (digit_char n) EmptyString
  end.

(** ["%04d" % n], ["%02d" % n] and ["%06d" % n] for [0 <= n < 10 ^ width]. *)
Definition pad (width : nat) (n : Z) : string := digits width n.

(** [s or default] *)
Definition or_else (s default : string) : string :=
  if (s =? "")%string then default else s.

End Str.
Export Str.

(** ** Regular expressions

    The two patterns of the menu client use character classes, concatenation
    and bounded or unbounded repetition.  Matching is by derivatives. *)

Module Re.

Inductive regex : Type :=
| Void
| Eps
| Class (p : ascii -> bool)
| Cat (r1 r2 : regex)
| Alt (r1 r2 : regex)
| Star (r : regex).

Fixpoint nullable (r : regex) : bool :=
  match r with
  | Void => false
  | Eps => true
  | Class _ => false
  | Cat r1 r2 => nullable r1 && nullable r2
  | Alt r1 r2 => nullable r1 || nullable r2
  | Star _ => true
  end.

Fixpoint deriv (c : ascii) (r : regex) : regex :=
  match r with
  | Void => Void
  | Eps => Void
  | Class p => if p c then Eps else Void
  | Cat r1 r2 =>
      if nullable r1 then Alt (Cat (deriv c r1) r2) (deriv c r2)
      else Cat (deriv c r1) r2
  | Alt r1 r2 => Alt (deriv c r1) (deriv c r2)
  | Star r1 => Cat (deriv c r1) (Star r1)
  end.

(** The whole of [s] is a word of [r]. *)
Fixpoint fullmatch (r : regex) (s : string) : bool :=
  match s with
  | EmptyString => nullable r
  | String c rest => fullmatch (deriv c r) rest
  end.

(** [r+] and [r{n}] *)
Definition Plus (r : regex) : regex := Cat r (Star r).

Fixpoint Repeat (n : nat) (r : regex) : regex :=
  match n with
  | O => Eps
  | S k => Cat r (Repeat k r)
  end.

Definition Chr (c : ascii) : regex := Class (Ascii.eqb c).

Fixpoint chop_newline (s : string) : option string :=
  match s with
  | EmptyString => None
  | String c EmptyString => if Ascii.eqb c "010" then Some EmptyString else None
  | String c rest =>
      match chop_newline rest with
      | Some t => Some (String c t)
      | None => None
      end
  end.

(** [re.compile("^" r "$").match(s)] as a truth value: [^] is the start of
    the string, [$] its end or the position before a final line feed. *)
Definition re_match (r : regex) (s : string) : bool :=
  fullmatch r s
  || match chop_newline s with
     | Some t => fullmatch r t
     | None => false
     end.

(** The words of a regular expression, against which the matcher is
    checked below. *)
Inductive matches : regex -> string -> Prop :=
| MEps : matches Eps EmptyString
| MClass p c : p c = true -> matches (Class p) (String c EmptyString)
| MCat r1 r2 s1 s2 :
    matches r1 s1 -> matches r2 s2 -> matches (Cat r1 r2) (s1 ++ s2)
| MAltL r1 r2 s : matches r1 s -> matches (Alt r1 r2) s
| MAltR r1 r2 s : matches r2 s -> matches (Alt r1 r2) s
| MStarNil r : matches (Star r) EmptyString
| MStarApp r s1 s2 :
    matches r s1 -> matches (Star r) s2 -> matches (Star r) (s1 ++ s2).

End Re.
Export Re.

(** ** Dates and times

    The part of Python's [datetime] the menu client uses, after the
    library's reference implementation: a proleptic Gregorian calendar with
    day 1 = 0001-01-01 and a last day 9999-12-31.  A [timedelta] is its
    length in microseconds. *)

Module Datetime.

Definition MINYEAR : Z := 1.
Definition MAXYEAR : Z := 9999.
Definition MAXORDINAL : Z := 3652059.
Definition DI400Y : Z := 146097.
Definition DI100Y : Z := 36524.
Definition DI4Y : Z := 1461.
Definition US_PER_SECOND : Z := 1000000.
Definition US_PER_DAY : Z := 86400 * US_PER_SECOND.

Record datetime : Type := mkDatetime {
  year : Z; month : Z; day : Z;
  hour : Z; minute : Z; second : Z; microsecond : Z;
  utc : bool  (* tzinfo is timezone.utc; otherwise the value is naive *)
}.

Definition is_leap (y : Z) : bool :=
  (y mod 4 =? 0) && (negb (y mod 100 =? 0) || (y mod 400 =? 0)).

Definition days_in_month (y m : Z) : Z :=
  if m =? 2 then (if is_leap y then 29 else 28)
  else if (m =? 4) || (m =? 6) || (m =? 9) || (m =? 11) then 30
  else 31.

(** [_DAYS_BEFORE_MONTH[m]] *)
Definition DAYS_BEFORE_MONTH (m : Z) : Z :=
  nth (Z.to_nat m) [-1; 0; 31; 59; 90; 120; 151; 181; 212; 243; 273; 304; 334] 0.

Definition days_before_month (y m : Z) : Z :=
  DAYS_BEFORE_MONTH m + (if (2 <? m) && is_leap y then 1 else 0).

Definition days_before_year (y : Z) : Z :=
  let y1 := y - 1 in y1 * 365 + y1 / 4 - y1 / 100 + y1 / 400.

Definition ymd2ord (y m d : Z) : Z :=
  days_before_year y + days_before_month y m + d.

Definition ord2ymd (ordinal : Z) : Z * Z * Z :=
  let n := ordinal - 1 in
  let n400 := n / DI400Y in
  let n := n mod DI400Y in
  let n100 := n / DI100Y in
  let n := n mod DI100Y in
  let n4 := n / DI4Y in
  let n := n mod DI4Y in
  let n1 := n / 365 in
  let n := n mod 365 in
  let y := n400 * 400 + 1 + n100 * 100 + n4 * 4 + n1 in
  if (n1 =? 4) || (n100 =? 4) then (y - 1, 12, 31)
  else
    let leapyear := (n1 =? 3) && (negb (n4 =? 24) || (n100 =? 3)) in
    let m := Z.shiftr (n + 50) 5 in
    let preceding := DAYS_BEFORE_MONTH m + (if (2 <? m) && leapyear then 1 else 0) in
    if n <? preceding then
      let m' := m - 1 in
      let preceding' :=
        preceding - (nth (Z.to_nat m') [-1; 31; 28; 31; 30; 31; 30; 31; 31; 30; 31; 30; 31] 0
                     + (if (m' =? 2) && leapyear then 1 else 0)) in
      (y, m', n - preceding' + 1)
    else (y, m, n - preceding + 1).

Definition toordinal (d : datetime) : Z := ymd2ord (year d) (month d) (day d).

(** Microseconds since the midnight that starts day 0. *)
Definition to_micros (d : datetime) : Z :=
  (((toordinal d * 24 + hour d) * 60 + minute d) * 60 + second d) * US_PER_SECOND
  + microsecond d.

Definition timedelta_days (n : Z) : Z := n * US_PER_DAY.
Definition timedelta_hours (n : Z) : Z := n * 3600 * US_PER_SECOND.

(** [d + delta] *)
Definition add (d : datetime) (delta : Z) : result datetime :=
  let total := to_micros d + delta in
  let days := total / US_PER_DAY in
  let rest := total mod US_PER_DAY in
  if (0 <? days) && (days <=? MAXORDINAL) then
    let '(y, m, dd) := ord2ymd days in
    Ok {| year := y; month := m; day := dd;
          hour := rest / (3600 * US_PER_SECOND);
          minute := (rest / (60 * US_PER_SECOND)) mod 60;
          second := (rest / US_PER_SECOND) mod 60;
          microsecond := rest mod US_PER_SECOND;
          utc := utc d |}
  else Raise (mkExn OverflowError "date value out of range").

(** [d.replace(tzinfo=timezone.utc)] *)
Definition replace_tzinfo_utc (d : datetime) : datetime :=
  {| year := year d; month := month d; day := day d;
     hour := hour d; minute := minute d; second := second d;
     microsecond := microsecond d; utc := true |}.

(** [str(d.date())] *)
Definition date_str (d : datetime) : string :=
  pad 4 (year d) ++ "-" ++ pad 2 (month d) ++ "-" ++ pad 2 (day d).

(** [d.isoformat()] *)
Definition isoformat (d : datetime) : string :=
  date_str d ++ "T" ++ pad 2 (hour d) ++ ":" ++ pad 2 (minute d) ++ ":"
  ++ pad 2 (second d)
  ++ (if microsecond d =? 0 then "" else "." ++ pad 6 (microsecond d))
  ++ (if utc d then "+00:00" else "").

Definition date_shaped (s : string) : bool :=
  match list_ascii_of_string s with
  | [y1; y2; y3; y4; h1; m1; m2; h2; d1; d2] =>
      forallb is_digit [y1; y2; y3; y4; m1; m2; d1; d2]
      && Ascii.eqb h1 "-" && Ascii.eqb h2 "-"
  | _ => false
  end.

(** [datetime.fromisoformat(s)] on the strings the date prompt lets through,
    ten characters [dddd-dd-dd]: a naive midnight, or [ValueError] when the
    fields name no day of the calendar.  The other forms of the ISO syntax
    differ between Python versions and are left to the environment (see
    [fromisoformat_astimezone_utc] below). *)
Definition fromisoformat (s : string) : result datetime :=
  if date_shaped s then
    let y := int_of_digits (substring 0 4 s) in
    let m := int_of_digits (substring 5 2 s) in
    let d := int_of_digits (substring 8 2 s) in
    if (y <? MINYEAR) || (MAXYEAR <? y) then
      Raise (mkExn ValueError ("year " ++ pad 1 y ++ " is out of range"))
    else if (m <? 1) || (12 <? m) then
      Raise (mkExn ValueError "month must be in 1..12")
    else if (d <? 1) || (days_in_month y m <? d) then
      Raise (mkExn ValueError "day is out of range for month")
    else Ok (mkDatetime y m d 0 0 0 0 false)
  else Raise (mkExn ValueError ("Invalid isoformat string: '" ++ s ++ "'")).

(** The second half of [ord2ymd], from the day [n] of the year (counted from
    0) to the month and the day of the month, and the check that it is right:
    the days before the month and the day of the month add up to [n + 1]. *)
Definition month_day (leapyear : bool) (n : Z) : Z * Z :=
  let m := Z.shiftr (n + 50) 5 in
  let preceding := DAYS_BEFORE_MONTH m + (if (2 <? m) && leapyear then 1 else 0) in
  if n <? preceding then
    let m' := m - 1 in
    let preceding' :=
      preceding - (nth (Z.to_nat m') [-1; 31; 28; 31; 30; 31; 30; 31; 31; 30; 31; 30; 31] 0
                   + (if (m' =? 2) && leapyear then 1 else 0)) in
    (m', n - preceding' + 1)
  else (m, n - preceding + 1).

Definition month_day_ok (leapyear : bool) (n : Z) : bool :=
  let '(m, d) := month_day leapyear n in
  DAYS_BEFORE_MONTH m + (if (2 <? m) && leapyear then 1 else 0) + d =? n + 1.

Fixpoint all_from (n : nat) (start : Z) (p : Z -> bool) : bool :=
  match n with
  | O => true
  | S k => p start && all_from k (start + 1) p
  end.

End Datetime.
Export Datetime.

(** ** The world and the environment *)

Module World.

(** An entry of [tool_calls] in a reply of the language model. *)
Record tool_call : Type := mkToolCall {
  call_id : string;        (* call.id *)
  fn_name : string;        (* call.function.name *)
  fn_arguments : string    (* call.function.arguments *)
}.

(** The messages the agent appends to [input_messages]. *)
Inductive message : Type :=
| SystemMessage (content : string)
| UserMessage (content : string)
| AssistantToolCalls (content : string) (calls : list tool_call)
| ToolMessage (tool_name tool_call_id content : string).

(** [choice.message] of a chat completion. *)
Record reply : Type := mkReply {
  role : string;
  content : option string;
  tool_calls : option (list tool_call)
}.

Record response : Type := mkResponse { choices : list reply }.

Inductive level : Type := INFO | ERROR.

(** What the program does to the outside, in the order it does it. *)
Inductive effect : Type :=
| PathExists (path : string)              (* os.path.exists *)
| ReadToken (path : string)               (* Credentials.from_authorized_user_file *)
| RefreshToken                            (* creds.refresh(Request()) *)
| ConsentFlow (port : Z)                  (* InstalledAppFlow ... run_local_server *)
| WriteFile (path data : string)          (* open(path, "w") ... write *)
| BuildClient                             (* build("calendar", "v3", ...) *)
| Request (resource method : string) (params : pyval)   (* ....execute() *)
| ChatCompletion (messages : list message)   (* client.chat.completions.create *)
| Log (lvl : level) (msg : string)        (* logger.info, logger.error *)
| Input (prompt : string).                (* input(prompt) *)

Record world : Type := mkWorld {
  token_file : option string;      (* the contents of token.json, if it exists *)
  stdin : list string;             (* the lines not yet read *)
  input_messages : list message;   (* the agent's conversation history *)
  trace : list effect
}.

Record Credentials : Type := mkCredentials {
  valid : bool;
  expired : bool;
  refresh_token : option string;
  to_json : string
}.

(** The client returned by [build]. *)
Record service : Type := mkService { credentials : Credentials }.

(** What a call to the outside comes back with. *)
Inductive outcome (A : Type) : Type :=
| Returns (a : A)
| Raises (e : exn).
Arguments Returns {A} a.
Arguments Raises {A} e.

(** The collaborators of the two scripts.  Each answer may depend on the
    world at the time of the call, hence on everything that happened before. *)
Record env : Type := mkEnv {
  from_authorized_user_file : world -> string -> outcome Credentials;
  refresh : world -> Credentials -> outcome Credentials;
  run_local_server : world -> Z -> outcome Credentials;
  (* with open(path, "w") as f: f.write(data) *)
  open_write : world -> string -> string -> outcome unit;
  (* what the file holds once that block has failed: open(path, "w")
     truncates, so this is the old contents only when open itself failed,
     and else nothing or a part of the data *)
  left_by_failed_write : world -> string -> string -> option string;
  build : world -> Credentials -> outcome unit;
  (* getattr(getattr(service, resource)(), method) *)
  getattr_method : world -> service -> string -> string -> outcome unit;
  (* method_obj( **params ), which builds the request without sending it *)
  call_method : world -> string -> string -> pyval -> outcome unit;
  (* .execute(), which sends it *)
  execute : world -> string -> string -> pyval -> outcome pyval;
  chat_completions_create : world -> list message -> outcome response;
  json_loads : string -> outcome pyval;
  json_dumps : pyval -> string;
  (* str(v), as an f-string renders a value *)
  py_str : pyval -> string;
  (* datetime.fromisoformat(s).astimezone(timezone.utc): the reading of a
     date and time in the local zone of the machine, moved to UTC *)
  fromisoformat_astimezone_utc : string -> outcome datetime
}.

(** The requests sent to the calendar service, and the histories sent to the
    language model, in order. *)
Fixpoint requests (t : list effect) : list (string * string * pyval) :=
  match t with
  | [] => []
  | Request r m p :: rest => (r, m, p) :: requests rest
  | _ :: rest => requests rest
  end.

Fixpoint chats (t : list effect) : list (list message) :=
  match t with
  | [] => []
  | ChatCompletion ms :: rest => ms :: chats rest
  | _ :: rest => chats rest
  end.

(** The lines the logger prints, which is what the user reads. *)
Fixpoint logged (t : list effect) : list (level * string) :=
  match t with
  | [] => []
  | Log lvl msg :: rest => (lvl, msg) :: logged rest
  | _ :: rest => logged rest
  end.

(** Reading the credentials, asking for consent, refreshing or writing the
    token, building the client. *)
Definition credential_access (ev : effect) : bool :=
  match ev with
  | PathExists _ | ReadToken _ | RefreshToken | ConsentFlow _
  | WriteFile _ _ | BuildClient => true
  | _ => false
  end.

(** *** Computations *)

Definition M (A : Type) : Type := world -> result A * world.

Definition ret {A} (a : A) : M A := fun w => (Ok a, w).

Definition bind {A B} (c : M A) (k : A -> M B) : M B := fun w =>
  match c w with
  | (Ok a, w') => k a w'
  | (Raise e, w') => (Raise e, w')
  | (OutOfFuel, w') => (OutOfFuel, w')
  end.

Definition raise {A} (e : exn) : M A := fun w => (Raise e, w).

Definition out_of_fuel {A} : M A := fun w => (OutOfFuel, w).

(** [try: c except <catches> as e: h e] *)
Definition try_except {A} (c : M A) (catches : exn -> bool) (h : exn -> M A) : M A :=
  fun w =>
    match c w with
    | (Raise e, w') => if catches e then h e w' else (Raise e, w')
    | other => other
    end.

Definition of_outcome {A} (o : outcome A) : result A :=
  match o with
  | Returns a => Ok a
  | Raises e => Raise e
  end.

Definition of_result {A} (r : result A) : M A := fun w => (r, w).

Definition emit (ev : effect) (w : world) : world :=
  {| token_file := token_file w; stdin := stdin w;
     input_messages := input_messages w; trace := trace w ++ [ev] |}.

(** A call to the outside: the environment answers from the world as it is,
    and the call is recorded whatever the answer. *)
Definition external {A} (ask : world -> outcome A) (ev : effect) : M A :=
  fun w => (of_outcome (ask w), emit ev w).

(** A call into a library that touches nothing outside the process. *)
Definition library {A} (ask : world -> outcome A) : M A :=
  fun w => (of_outcome (ask w), w).

Definition log (lvl : level) (msg : string) : M unit :=
  fun w => (Ok tt, emit (Log lvl msg) w).

(** [input(prompt)]: the next line, or [EOFError] at the end of the input.
    An interrupt at the prompt is not part of the model. *)
Definition input (prompt : string) : M string := fun w =>
  match stdin w with
  | [] => (Raise (mkExn EOFError "EOF when reading a line"), emit (Input prompt) w)
  | line :: rest =>
      (Ok line,
       emit (Input prompt)
         {| token_file := token_file w; stdin := rest;
            input_messages := input_messages w; trace := trace w |})
  end.

End World.
Export World.

Declare Scope py_scope.
Delimit Scope py_scope with py.
Notation "x <- c ;; k" := (bind c (fun x => k))
  (at level 61, c at next level, right associativity) : py_scope.
Notation "c ;; k" := (bind c (fun _ => k))
  (at level 61, right associativity) : py_scope.
Local Open Scope py_scope.

(** ** The credential routine and the gateway

    [get_calendar_service] and [calendar_api_call] read the same in both
    scripts, up to the port and options of the consent flow and the set of
    allowed methods. *)

Module Gateway.
Section Gateway.

Variable E : env.
Variable ALLOWED_METHODS : list string.
Variable consent_port : Z.

Definition GOOGLE_TOKEN_FILE : string := "token.json".
Definition ALLOWED_RESOURCES : list string := ["events"].

Definition write_token (data : string) : M unit := fun w =>
  match open_write E w GOOGLE_TOKEN_FILE data with
  | Returns _ =>
      (Ok tt,
       emit (WriteFile GOOGLE_TOKEN_FILE data)
         {| token_file := Some data; stdin := stdin w;
            input_messages := input_messages w; trace := trace w |})
  | Raises e =>
      (Raise e,
       emit (WriteFile GOOGLE_TOKEN_FILE data)
         {| token_file := left_by_failed_write E w GOOGLE_TOKEN_FILE data;
            stdin := stdin w;
            input_messages := input_messages w; trace := trace w |})
  end.

Definition _save_credentials (creds : Credentials) : M unit :=
  write_token (to_json creds) ;;
  log INFO ("✅ Credentials saved to " ++ GOOGLE_TOKEN_FILE).

(** [os.path.exists(GOOGLE_TOKEN_FILE)] *)
Definition token_exists : M bool := fun w =>
  (Ok (match token_file w with Some _ => true | None => false end),
   emit (PathExists GOOGLE_TOKEN_FILE) w).

(** [Credentials.from_authorized_user_file(GOOGLE_TOKEN_FILE, GOOGLE_SCOPES)] *)
Definition load_token : M Credentials := fun w =>
  match token_file w with
  | Some data =>
      external (fun w' => from_authorized_user_file E w' data)
        (ReadToken GOOGLE_TOKEN_FILE) w
  | None =>
      (Raise (mkExn OSError "[Errno 2] No such file or directory: 'token.json'"),
       emit (ReadToken GOOGLE_TOKEN_FILE) w)
  end.

(** The [else] branch: the interactive authorization flow. *)
Definition interactive_flow : M Credentials :=
  creds <- external (fun w => run_local_server E w consent_port)
             (ConsentFlow consent_port) ;;
  log INFO "🔐 New credentials obtained." ;;
  _save_credentials creds ;;
  ret creds.

Definition refresh_flow (creds : Credentials) : M Credentials :=
  creds' <- external (fun w => refresh E w creds) RefreshToken ;;
  log INFO "🔄 Credentials refreshed." ;;
  _save_credentials creds' ;;
  ret creds'.

Definition has_refresh_token (creds : Credentials) : bool :=
  match refresh_token creds with
  | Some s => negb (s =? "")%string
  | None => false
  end.

(** The credentials on disk, if any. *)
Definition load_saved : M (option Credentials) :=
  present <- token_exists ;;
  if present then (c <- load_token ;; ret (Some c)) else ret None.

Definition get_calendar_service : M service :=
  saved <- load_saved ;;
  creds <- match saved with
           | Some c =>
               if valid c then ret c
               else if expired c && has_refresh_token c then refresh_flow c
               else interactive_flow
           | None => interactive_flow
           end ;;
  external (fun w => build E w creds) BuildClient ;;
  ret (mkService creds).

(** The body of the [try] block. *)
Definition api_request (resource method params : pyval) : M pyval :=
  svc <- get_calendar_service ;;
  match resource, method with
  | PStr r, PStr m =>
      library (fun w => getattr_method E w svc r m) ;;
      library (fun w => call_method E w r m params) ;;
      external (fun w => execute E w r m params) (Request r m params)
  | _, _ => raise (mkExn TypeError "attribute name must be string")
  end.

(** [resource not in ALLOWED_RESOURCES or method not in ALLOWED_METHODS],
    the right operand evaluated only when the left one is false. *)
Definition rejected (resource method : pyval) : M bool :=
  r_in <- of_result (py_in resource ALLOWED_RESOURCES) ;;
  if negb r_in then ret true
  else (m_in <- of_result (py_in method ALLOWED_METHODS) ;; ret (negb m_in)).

Definition calendar_api_call (resource method params : pyval) : M pyval :=
  no <- rejected resource method ;;
  if no then ret (error_dict "Method or resource not allowed.")
  else
    try_except (api_request resource method params) is_Exception
      (fun e =>
         log ERROR ("❌ Calendar API error: " ++ exn_str e) ;;
         ret (error_dict (exn_str e))).

End Gateway.
End Gateway.

(** ** ai-agent.py *)

Module Agent.
Section Agent.

Variable E : env.

Definition ALLOWED_RESOURCES : list string := Gateway.ALLOWED_RESOURCES.
Definition ALLOWED_METHODS : list string := ["list"; "insert"; "update"; "delete"].

Definition get_calendar_service : M service :=
  Gateway.get_calendar_service E 3001.

Definition calendar_api_call (resource method params : pyval) : M pyval :=
  Gateway.calendar_api_call E ALLOWED_METHODS 3001 resource method params.

(** *** Keyword expansion: [f( **args )] for [def f(resource, method, params)] *)

Definition missing_message (fname : string) (missing : list string) : string :=
  match missing with
  | [a] => fname ++ "() missing 1 required positional argument: " ++ quoted a
  | [a; b] =>
      fname ++ "() missing 2 required positional arguments: "
      ++ quoted a ++ " and " ++ quoted b
  | [a; b; c] =>
      fname ++ "() missing 3 required positional arguments: "
      ++ quoted a ++ ", " ++ quoted b ++ ", and " ++ quoted c
  | _ => fname ++ "() missing required positional arguments"
  end.

(** The first key of the mapping that names no parameter. *)
Definition unexpected (formals : list string) (args : kwargs) : option string :=
  match filter (fun kv => negb (str_in (fst kv) formals)) args with
  | (k, _) :: _ => Some k
  | [] => None
  end.

Definition missing (formals : list string) (args : kwargs) : list string :=
  filter (fun p => negb (has_key p args)) formals.

(** The mapping, once it fits the signature, or the [TypeError] of a call
    that does not. *)
Definition bind_keywords (fname : string) (formals : list string) (args : pyval)
  : result kwargs :=
  match args with
  | PDict d =>
      match unexpected formals d with
      | Some k =>
          Raise (mkExn TypeError
                   (fname ++ "() got an unexpected keyword argument " ++ quoted k))
      | None =>
          match missing formals d with
          | [] => Ok d
          | ms => Raise (mkExn TypeError (missing_message fname ms))
          end
      end
  | _ =>
      Raise (mkExn TypeError
               (fname ++ "() argument after ** must be a mapping, not "
                ++ type_name args))
  end.

(** The value a bound mapping gives to a parameter. *)
Definition argument (p : string) (d : kwargs) : pyval :=
  match lookup p d with
  | Some v => v
  | None => PNone
  end.

Definition call_function (name : string) (args : pyval) : M pyval :=
  if (name =? "calendar_api_call")%string then
    d <- of_result
           (bind_keywords "calendar_api_call" ["resource"; "method"; "params"] args) ;;
    calendar_api_call (argument "resource" d) (argument "method" d) (argument "params" d)
  else ret (error_dict ("Function '" ++ name ++ "' not implemented.")).

(** *** The tool-calling loop *)

Definition append_message (m : message) : M unit := fun w =>
  (Ok tt,
   {| token_file := token_file w; stdin := stdin w;
      input_messages := input_messages w ++ [m]; trace := trace w |}).

(** [client.chat.completions.create(model="gpt-4.1", messages=input_messages,
    tools=[calendar_function], tool_choice="auto")] *)
Definition create : M response := fun w =>
  external (fun w' => chat_completions_create E w' (input_messages w'))
    (ChatCompletion (input_messages w)) w.

(** The [for] loop over [response.choices]: the tool calls of the first choice
    whose message is the assistant's and carries some, with the first of them. *)
Fixpoint first_tool_request (cs : list reply) : option (list tool_call * tool_call) :=
  match cs with
  | [] => None
  | message :: rest =>
      if (role message =? "assistant")%string then
        match tool_calls message with
        | Some (call :: more) => Some (call :: more, call)
        | _ => first_tool_request rest
        end
      else first_tool_request rest
  end.

(** [depth] bounds the nesting of the recursive calls. *)
Fixpoint process_response (depth : nat) (resp : response) : M string :=
  match depth with
  | O => out_of_fuel
  | S depth' =>
      match first_tool_request (choices resp) with
      | Some (calls, call) =>
          let name := fn_name call in
          args <- of_result (of_outcome (json_loads E (or_else (fn_arguments call) "{}"))) ;;
          result <- call_function name args ;;
          append_message (AssistantToolCalls "" calls) ;;
          append_message (ToolMessage name (call_id call) (json_dumps E result)) ;;
          new_resp <- create ;;
          process_response depth' new_resp
      | None =>
          match choices resp with
          | first :: _ =>
              ret (match content first with Some text => text | None => "" end)
          | [] => raise (mkExn IndexError "list index out of range")
          end
      end
  end.

Definition chat_with_agent (depth : nat) (user_input : string) : M string :=
  append_message (UserMessage user_input) ;;
  resp <- create ;;
  process_response depth resp.

(** *** The session: the [__main__] block

    [turn] is the body of the [while True], inside its [try]: it reads one
    line and answers [false] where the script says [break].  A
    [KeyboardInterrupt] reaches the handler from a collaborator (the model,
    the calendar service, the consent flow); [input] itself ends here by a
    line or by [EOFError] only. *)

Definition turn (depth : nat) : M bool :=
  try_except
    (line <- input "You: " ;;
     let message := strip line in
     if str_in (lower message) ["exit"; "quit"] then
       log INFO "👋 Exiting session." ;;
       ret false
     else
       log INFO ("🧑 You: " ++ message) ;;
       response <- chat_with_agent depth message ;;
       log INFO ("🤖 Assistant: " ++ response) ;;
       ret true)
    is_KeyboardInterrupt
    (fun _ =>
       log INFO "🚪 Session interrupted by user (KeyboardInterrupt)." ;;
       ret false).

(** Every round that goes on has read a line. *)
Fixpoint session_loop (depth fuel : nat) : M unit :=
  match fuel with
  | O => out_of_fuel
  | S fuel' =>
      again <- turn depth ;;
      if again then session_loop depth fuel' else ret tt
  end.

Definition session (depth : nat) : M unit :=
  log INFO "👉 Starting calendar assistant session" ;;
  log INFO "🗓️  Asking: What is on my calendar tomorrow?" ;;
  initial_response <- chat_with_agent depth "What's on my calendar tomorrow?" ;;
  log INFO ("🤖 Assistant: " ++ initial_response) ;;
  log INFO (String "010" "Type your message below (or type 'exit' to quit):"
            ++ String "010" "") ;;
  (fun w => session_loop depth (S (List.length (stdin w))) w).

End Agent.
End Agent.

(** ** traditional.py *)

Module Menu.
Section Menu.

Variable E : env.

Definition ALLOWED_RESOURCES : list string := Gateway.ALLOWED_RESOURCES.
Definition ALLOWED_METHODS : list string := ["list"; "insert"].

Definition digit : regex := Class is_digit.
Definition not_at : regex := Class (fun c => negb (Ascii.eqb c "@")).

(** [^\d{4}-\d{2}-\d{2}$] *)
Definition DATE_REGEX : regex :=
  Cat (Repeat 4 digit) (Cat (Chr "-") (Cat (Repeat 2 digit) (Cat (Chr "-") (Repeat 2 digit)))).

(** [^[^@]+@[^@]+\.[^@]+$] *)
Definition EMAIL_REGEX : regex :=
  Cat (Plus not_at) (Cat (Chr "@") (Cat (Plus not_at) (Cat (Chr ".") (Plus not_at)))).

Definition get_calendar_service : M service :=
  Gateway.get_calendar_service E 0.

Definition calendar_api_call (resource method params : pyval) : M pyval :=
  Gateway.calendar_api_call E ALLOWED_METHODS 0 resource method params.

(** The [while True] of [prompt_date]; every round reads one line. *)
Fixpoint prompt_date_loop (fuel : nat) (prompt : string) : M datetime :=
  match fuel with
  | O => out_of_fuel
  | S fuel' =>
      line <- input (prompt ++ " (YYYY-MM-DD): ") ;;
      let s := strip line in
      if re_match DATE_REGEX s then
        try_except
          (d <- of_result (fromisoformat s) ;; ret (replace_tzinfo_utc d))
          is_ValueError
          (fun _ =>
             log ERROR "Invalid date (out of range). Try again." ;;
             prompt_date_loop fuel' prompt)
      else
        log ERROR "Wrong format. Please use YYYY-MM-DD." ;;
        prompt_date_loop fuel' prompt
  end.

(** A round ends the loop or consumes a line, so one round more than there
    are lines is enough. *)
Definition prompt_date (prompt : string) : M datetime := fun w =>
  prompt_date_loop (S (List.length (stdin w))) prompt w.

Definition attendee (e : string) : pyval := PDict [("email", PStr e)].

Fixpoint prompt_emails_loop (fuel : nat) : M (list pyval) :=
  match fuel with
  | O => out_of_fuel
  | S fuel' =>
      line <- input "Attendees emails (comma-separated, or leave blank): " ;;
      let raw := strip line in
      if (raw =? "")%string then ret []
      else
        let parts := map strip (split "," raw) in
        if forallb (re_match EMAIL_REGEX) parts then ret (map attendee parts)
        else
          log ERROR "One or more emails invalid. Please retry." ;;
          prompt_emails_loop fuel'
  end.

Definition prompt_emails : M (list pyval) := fun w =>
  prompt_emails_loop (S (List.length (stdin w))) w.

(** The body of the [for] loop that prints one event. *)
Definition print_event (ev : pyval) : M unit :=
  start <- of_result (subscript ev "start") ;;
  date <- of_result (get start "date" PNone) ;;
  st <- of_result (get start "dateTime" date) ;;
  summary <- of_result (get ev "summary" (PStr "(no title)")) ;;
  log INFO (" • " ++ py_str E st ++ " — " ++ py_str E summary).

Fixpoint for_each (items : list pyval) (body : pyval -> M unit) : M unit :=
  match items with
  | [] => ret tt
  | ev :: rest => body ev ;; for_each rest body
  end.

Definition list_params (start end_ : string) : pyval :=
  PDict [("calendarId", PStr "primary");
         ("timeMin", PStr start);
         ("timeMax", PStr end_);
         ("singleEvents", PBool true);
         ("orderBy", PStr "startTime")].

Definition fetch_events_for_date (date_dt : datetime) : M unit :=
  let start := isoformat date_dt in
  next <- of_result (add date_dt (timedelta_days 1)) ;;
  let end_ := isoformat next in
  result <- calendar_api_call (PStr "events") (PStr "list") (list_params start end_) ;;
  items <- of_result (get result "items" (PList [])) ;;
  if negb (truthy items) then
    log INFO ("No events found on " ++ date_str date_dt ++ ".")
  else
    log INFO ("Events on " ++ date_str date_dt ++ ":") ;;
    evs <- of_result (iterate items) ;;
    for_each evs print_event.

Definition event_body (title description tz : string) (dt_start dt_end : datetime)
    (attendees : list pyval) : pyval :=
  PDict [("summary", PStr title);
         ("description", PStr description);
         ("start", PDict [("dateTime", PStr (isoformat dt_start)); ("timeZone", PStr tz)]);
         ("end", PDict [("dateTime", PStr (isoformat dt_end)); ("timeZone", PStr tz)]);
         ("attendees", PList attendees)].

(** The [try] block of [insert_event]. *)
Definition build_times (date_str time_str : string) : M (datetime * datetime) :=
  dt_start <- of_result
                (of_outcome (fromisoformat_astimezone_utc E (date_str ++ "T" ++ time_str))) ;;
  dt_end <- of_result (add dt_start (timedelta_hours 1)) ;;
  ret (dt_start, dt_end).

Definition insert_event : M unit :=
  l1 <- input "Title: " ;;
  let title := or_else (strip l1) "No Title" in
  l2 <- input "Description (optional): " ;;
  let description := strip l2 in
  l3 <- input "Date (YYYY-MM-DD): " ;;
  let date_str := strip l3 in
  l4 <- input "Start time (HH:MM, 24h): " ;;
  let time_str := strip l4 in
  l5 <- input "Time zone (e.g. America/Los_Angeles): " ;;
  let tz := or_else (strip l5) "UTC" in
  times <- try_except
             (t <- build_times date_str time_str ;; ret (Some t))
             is_Exception
             (fun _ => log ERROR "Invalid date/time. Aborting insert." ;; ret None) ;;
  match times with
  | None => ret tt
  | Some (dt_start, dt_end) =>
      attendees <- prompt_emails ;;
      let body := event_body title description tz dt_start dt_end attendees in
      let params := PDict [("calendarId", PStr "primary"); ("body", body)] in
      resp <- calendar_api_call (PStr "events") (PStr "insert") params ;;
      id <- of_result (get resp "id" PNone) ;;
      if truthy id then
        link <- of_result (subscript resp "htmlLink") ;;
        log INFO ("✅ Event created: " ++ py_str E link)
      else log ERROR ("Failed to create event: " ++ py_str E resp)
  end.

(** The [while True] of [main]; every round reads at least one line. *)
Fixpoint main_loop (fuel : nat) : M unit :=
  match fuel with
  | O => out_of_fuel
  | S fuel' =>
      line <- input (String "010" "Choose action [fetch/insert/exit]: ") ;;
      let cmd := lower (strip line) in
      if (cmd =? "fetch")%string then
        date_dt <- prompt_date "Enter date to fetch" ;;
        fetch_events_for_date date_dt ;;
        main_loop fuel'
      else if (cmd =? "insert")%string then
        insert_event ;;
        main_loop fuel'
      else if str_in cmd ["exit"; "quit"] then log INFO "👋 Goodbye."
      else
        log ERROR "Unknown command. Choose fetch, insert, or exit." ;;
        main_loop fuel'
  end.

Definition main : M unit :=
  log INFO "=== Google Calendar CLI ===" ;;
  (fun w => main_loop (S (List.length (stdin w))) w).

End Menu.
End Menu.

(** ** Sample environments

    Concrete collaborators on which the statements below are exercised. *)

Module Sample.

Definition good_creds : Credentials :=
  mkCredentials true false (Some "r3fr3sh") "token-1".

Definition count_chats (t : list effect) : nat :=
  List.length (filter (fun ev => match ev with ChatCompletion _ => true | _ => false end) t).

Definition list_call : tool_call :=
  mkToolCall "call_1" "calendar_api_call" "ARGS-LIST".
Definition extra_call : tool_call :=
  mkToolCall "call_2" "calendar_api_call" "ARGS-DELETE".

Definition list_args : pyval :=
  PDict [("resource", PStr "events"); ("method", PStr "list");
         ("params", PDict [("calendarId", PStr "primary")])].

(** Reads [YYYY-MM-DDTHH:MM] on a machine whose local zone is UTC. *)
Definition read_local (s : string) : outcome datetime :=
  match fromisoformat (substring 0 10 s) with
  | Ok d =>
      match list_ascii_of_string (substring 10 6 s) with
      | [t; h1; h2; c; m1; m2] =>
          let h := 10 * digit_val h1 + digit_val h2 in
          let m := 10 * digit_val m1 + digit_val m2 in
          if Ascii.eqb t "T" && Ascii.eqb c ":" && forallb is_digit [h1; h2; m1; m2]
             && (h <? 24) && (m <? 60) && (String.length s =? 16)%nat
          then Returns (mkDatetime (year d) (month d) (day d) h m 0 0 true)
          else Raises (mkExn ValueError "Invalid isoformat string")
      | _ => Raises (mkExn ValueError "Invalid isoformat string")
      end
  | _ => Raises (mkExn ValueError "Invalid isoformat string")
  end.

Definition empty_calendar (method : string) : outcome pyval :=
  if (method =? "list")%string then Returns (PDict [("items", PList [])])
  else Returns (PDict [("id", PStr "evt1"); ("htmlLink", PStr "https://cal/evt1")]).

(** A machine whose consent flow ends as [consent] and whose calendar
    answers a request for [method] with [answer method]; the model asks for
    the day's events once and then answers in words. *)
Definition machine (consent : outcome Credentials) (answer : string -> outcome pyval)
  : env :=
  {| from_authorized_user_file := fun _ _ => Returns good_creds;
     refresh := fun _ c => Returns c;
     run_local_server := fun _ _ => consent;
     open_write := fun _ _ _ => Returns tt;
     left_by_failed_write := fun _ _ _ => Some "";
     build := fun _ _ => Returns tt;
     getattr_method := fun _ _ _ _ => Returns tt;
     call_method := fun _ _ _ _ => Returns tt;
     execute := fun _ _ m _ => answer m;
     chat_completions_create := fun w _ =>
       match count_chats (trace w) with
       | O => Returns (mkResponse
                         [mkReply "assistant" None (Some [list_call; extra_call])])
       | _ => Returns (mkResponse
                         [mkReply "assistant" (Some "Nothing tomorrow.") None])
       end;
     json_loads := fun s =>
       if (s =? "ARGS-LIST")%string then Returns list_args
       else Raises (mkExn JSONDecodeError "Expecting value: line 1 column 1 (char 0)");
     json_dumps := fun v =>
       match v with
       | PDict [("items", PList [])] => "{'items': []}"
       | _ => "{}"
       end;
     py_str := fun v => match v with PStr s => s | _ => "<value>" end;
     fromisoformat_astimezone_utc := read_local |}.

(** A valid token on disk and an empty calendar. *)
Definition calm : env := machine (Returns good_creds) empty_calendar.

(** The user presses Ctrl-C while the request is in flight. *)
Definition interrupted : env :=
  machine (Returns good_creds) (fun _ => Raises (mkExn KeyboardInterrupt "")).

(** The calendar service is unreachable. *)
Definition offline : env :=
  machine (Returns good_creds)
    (fun _ => Raises (mkExn (LibraryError "ServerNotFoundError")
                        "Unable to find the server at www.googleapis.com")).

(** The user refuses consent in the browser. *)
Definition denied : env :=
  machine (Raises (mkExn (LibraryError "AccessDeniedError") "(access_denied)"))
    empty_calendar.

Definition fresh (lines : list string) : world :=
  mkWorld (Some "token-1") lines [SystemMessage "policy"] [].

(** The same machine before its first authorization. *)
Definition first_run (lines : list string) : world :=
  mkWorld None lines [SystemMessage "policy"] [].

(** The window of a fetch on 2025-07-06. *)
Definition window : pyval :=
  Menu.list_params "2025-07-06T00:00:00+00:00" "2025-07-07T00:00:00+00:00".

(** [E] with another token store: what is read from the token file, and
    what a refresh gives. *)
Definition with_store (E : env) (stored renewed : Credentials) : env :=
  {| from_authorized_user_file := fun _ _ => Returns stored;
     refresh := fun _ _ => Returns renewed;
     run_local_server := run_local_server E;
     open_write := open_write E;
     left_by_failed_write := left_by_failed_write E;
     build := build E;
     getattr_method := getattr_method E;
     call_method := call_method E;
     execute := execute E;
     chat_completions_create := chat_completions_create E;
     json_loads := json_loads E;
     json_dumps := json_dumps E;
     py_str := py_str E;
     fromisoformat_astimezone_utc := fromisoformat_astimezone_utc E |}.

(** An expired token with a refresh token on disk. *)
Definition stale_creds : Credentials :=
  mkCredentials false true (Some "r3fr3sh") "token-0".
Definition renewed_creds : Credentials :=
  mkCredentials true false (Some "r3fr3sh") "token-2".
Definition stale : env := with_store calm stale_creds renewed_creds.

(** [E] with a token file that cannot be written: the block that writes it
    ends as [write] and leaves the file as [left]. *)
Definition with_disk (E : env) (write : outcome unit) (left : option string) : env :=
  {| from_authorized_user_file := from_authorized_user_file E;
     refresh := refresh E;
     run_local_server := run_local_server E;
     open_write := fun _ _ _ => write;
     left_by_failed_write := fun _ _ _ => left;
     build := build E;
     getattr_method := getattr_method E;
     call_method := call_method E;
     execute := execute E;
     chat_completions_create := chat_completions_create E;
     json_loads := json_loads E;
     json_dumps := json_dumps E;
     py_str := py_str E;
     fromisoformat_astimezone_utc := fromisoformat_astimezone_utc E |}.

(** The disk is full: the token file is opened, and so emptied, and the
    write fails. *)
Definition full_disk : env :=
  with_disk calm (Raises (mkExn OSError "[Errno 28] No space left on device")) (Some "").

(** [E] with another language model. *)
Definition with_model (E : env) (model : world -> list message -> outcome response) : env :=
  {| from_authorized_user_file := from_authorized_user_file E;
     refresh := refresh E;
     run_local_server := run_local_server E;
     open_write := open_write E;
     left_by_failed_write := left_by_failed_write E;
     build := build E;
     getattr_method := getattr_method E;
     call_method := call_method E;
     execute := execute E;
     chat_completions_create := model;
     json_loads := json_loads E;
     json_dumps := json_dumps E;
     py_str := py_str E;
     fromisoformat_astimezone_utc := fromisoformat_astimezone_utc E |}.

(** A model that answers with a message without content. *)
Definition mute : env :=
  with_model calm (fun _ _ => Returns (mkResponse [mkReply "assistant" None None])).

(** A model whose tool call carries arguments that are not JSON. *)
Definition garbled_call : tool_call := mkToolCall "call_9" "calendar_api_call" "{oops".
Definition garbled : env :=
  with_model calm
    (fun _ _ => Returns (mkResponse [mkReply "assistant" None (Some [garbled_call])])).

Definition standup : pyval :=
  PDict [("summary", PStr "Standup");
         ("start", PDict [("dateTime", PStr "2025-07-06T09:00:00+02:00")])].
Definition holiday : pyval := PDict [("start", PDict [("date", PStr "2025-07-06")])].
Definition ghost : pyval := PDict [("summary", PStr "Ghost")].

(** A calendar with a timed event and an untitled event of a whole day. *)
Definition busy : env :=
  machine (Returns good_creds)
    (fun _ => Returns (PDict [("items", PList [standup; holiday])])).

(** A calendar whose second event has no "start". *)
Definition broken : env :=
  machine (Returns good_creds)
    (fun _ => Returns (PDict [("items", PList [standup; ghost; holiday])])).

End Sample.


(** ** Predicates of the statements *)

Module Spec.

(** Footprints.

    [footprint P c w]: run from [w], the computation [c] leaves the
    conversation history alone, never calls the language model, and sends to
    the calendar service a list of requests that satisfies [P].  [settles c w]:
    it does not exhaust the budget of a loop, and leaves no more lines to
    read than there were. *)

Definition request : Type := string * string * pyval.

Definition footprint {A} (P : list request -> Prop) (c : M A) (w : world) : Prop :=
  input_messages (snd (c w)) = input_messages w
  /\ exists evs, trace (snd (c w)) = (trace w ++ evs)%list
                 /\ P (requests evs) /\ chats evs = [].

Abbreviation quiet := (footprint (eq [])).

Definition settles {A} (c : M A) (w : world) : Prop :=
  fst (c w) <> OutOfFuel
  /\ (List.length (stdin (snd (c w))) <= List.length (stdin w))%nat.

(** [reads_on c w]: [c] leaves no more lines to read than there were. *)
Definition reads_on {A} (c : M A) (w : world) : Prop :=
  (List.length (stdin (snd (c w))) <= List.length (stdin w))%nat.

(** What the gateway may send: nothing, or the one request it was asked for. *)
Definition at_most (resource method params : pyval) (l : list request) : Prop :=
  l = [] \/ exists r m, resource = PStr r /\ method = PStr m /\ l = [(r, m, params)].

(** The prompts, as they are written to the terminal. *)
Definition emails_prompt : string :=
  "Attendees emails (comma-separated, or leave blank): ".

(** The entries of a line of attendees, as [prompt_emails] cuts them. *)
Definition entries (line : string) : list string :=
  map strip (split "," (strip line)).

Definition date_prompt (prompt : string) : string := (prompt ++ " (YYYY-MM-DD): ")%string.

Definition insert_prompts : list effect :=
  [Input "Title: "; Input "Description (optional): "; Input "Date (YYYY-MM-DD): ";
   Input "Start time (HH:MM, 24h): "; Input "Time zone (e.g. America/Los_Angeles): "].

(** What [fetch_events_for_date] does with the answer of the gateway. *)
Definition report_events (E : env) (date_dt : datetime) (result : pyval) : M unit :=
  items <- of_result (get result "items" (PList [])) ;;
  if negb (truthy items) then
    log INFO ("No events found on " ++ date_str date_dt ++ ".")
  else
    log INFO ("Events on " ++ date_str date_dt ++ ":") ;;
    evs <- of_result (iterate items) ;;
    Menu.for_each evs (Menu.print_event E).


(** The [else] branch of the credential routine is the one taken: nothing
    usable is stored, and nothing can be refreshed. *)
Definition consent_needed (saved : option Credentials) : Prop :=
  match saved with
  | None => True
  | Some c => valid c = false /\ (expired c && Gateway.has_refresh_token c) = false
  end.

(** How [gateway], a [try] block [body] under [except Exception], treats the
    outcome of that block when run from [w]. *)
Definition catches_exceptions (gateway body : M pyval) (w : world) : Prop :=
  (forall e w1, body w = (Raise e, w1) -> is_Exception e = true ->
     gateway w = (Ok (error_dict (exn_str e)),
                  emit (Log ERROR ("❌ Calendar API error: " ++ exn_str e)) w1))
  /\ (forall e w1, body w = (Raise e, w1) -> is_Exception e = false ->
        gateway w = (Raise e, w1))
  /\ (forall v w1, body w = (Ok v, w1) -> gateway w = (Ok v, w1))
  /\ (forall e, fst (gateway w) = Raise e -> is_Exception e = false)
  /\ fst (gateway w) <> OutOfFuel.

(** A day of the calendar, at midnight. *)
Definition calendar_midnight (d : datetime) : Prop :=
  MINYEAR <= year d <= MAXYEAR /\ 1 <= month d <= 12
  /\ 1 <= day d <= days_in_month (year d) (month d)
  /\ hour d = 0 /\ minute d = 0 /\ second d = 0 /\ microsecond d = 0.

(** What the e-mail pattern asks of an entry: something without [@], an
    [@], something without [@], a dot, something without [@]. *)
Fixpoint all_chars (p : ascii -> bool) (s : string) : bool :=
  match s with
  | EmptyString => true
  | String c rest => p c && all_chars p rest
  end.

Definition no_at (s : string) : bool :=
  all_chars (fun c => negb (Ascii.eqb c "@")) s.

Definition email_shaped (e : string) : Prop :=
  exists l m r,
    e = (l ++ "@" ++ m ++ "." ++ r)%string
    /\ l <> ""%string /\ m <> ""%string /\ r <> ""%string
    /\ no_at l = true /\ no_at m = true /\ no_at r = true.

(** The line about to be read is blank. *)
Definition first_line_blank (w : world) : bool :=
  match stdin w with
  | l1 :: _ => (strip l1 =? "")%string
  | [] => false
  end.

(** The [events.insert] request of an insertion started in [w], from what
    is typed there.  Five lines are read.  The start [dt_start] is what the
    date of the third line and the time of the fourth are read as, and the end
    [dt_end] is [dt_start + timedelta(hours=1)], which is 3600 seconds later
    to the microsecond; both are sent in ISO format.  The title is the first
    line, stripped, or "No Title" when that is blank; the attendees are what
    the attendee prompt returns on the lines that follow. *)
Definition hour_long_insert (E : env) (w : world) (x : string * string * pyval) : Prop :=
  exists l1 l2 l3 l4 l5 rest title dt_start dt_end attendees,
    stdin w = l1 :: l2 :: l3 :: l4 :: l5 :: rest
    /\ title = or_else (strip l1) "No Title"
    /\ (first_line_blank w = true -> title = "No Title")
    /\ fromisoformat_astimezone_utc E (strip l3 ++ "T" ++ strip l4) = Returns dt_start
    /\ add dt_start (timedelta_hours 1) = Ok dt_end
    /\ to_micros dt_end = to_micros dt_start + 3600 * 1000000
    /\ fst (Menu.prompt_emails
              (mkWorld (token_file w) rest (input_messages w)
                 (trace w ++ insert_prompts)%list))
       = Ok attendees
    /\ x = ("events", "insert",
            PDict [("calendarId", PStr "primary");
                   ("body", Menu.event_body title (strip l2) (or_else (strip l5) "UTC")
                              dt_start dt_end attendees)]).

(** [only Q c w]: every request that [c], run from [w], sends to the
    calendar service satisfies [Q]. *)
Definition only {A} (Q : request -> Prop) (c : M A) (w : world) : Prop :=
  exists evs, trace (snd (c w)) = (trace w ++ evs)%list /\ Forall Q (requests evs).

(** A request on the one allowed resource, with one of the allowed methods. *)
Definition whitelisted (methods : list string) (x : request) : Prop :=
  fst (fst x) = "events" /\ In (snd (fst x)) methods.

(** What a gateway with the whitelist [methods] may send: nothing, or the
    one request it was asked for, which then is whitelisted. *)
Definition guarded (methods : list string) (resource method params : pyval)
    (l : list request) : Prop :=
  l = []
  \/ exists m, resource = PStr "events" /\ method = PStr m /\ In m methods
               /\ l = [("events", m, params)].

(** The messages a turn of the agent appends after the user's, round by
    round.  [w] is the world in which the model is called, with the history
    as it then stands.  A round there is the reply [resp] of the model to that
    history, the tool calls [calls] of its first assistant choice that has
    some, the first of them [call], its arguments as [json.loads] reads them
    and the result of the dispatcher on them; it appends the assistant
    message with empty content that carries all of [calls], then the tool
    message named and numbered after [call] with that result as JSON; and the
    next round, if any, starts from the world so reached. *)
Fixpoint rounds (E : env) (w : world) (added : list message) : Prop :=
  match added with
  | [] => True
  | a :: t :: rest =>
      exists resp calls call args result w2,
        chat_completions_create E w (input_messages w) = Returns resp
        /\ Agent.first_tool_request (choices resp) = Some (calls, call)
        /\ json_loads E (or_else (fn_arguments call) "{}") = Returns args
        /\ Agent.call_function E (fn_name call) args
             (emit (ChatCompletion (input_messages w)) w)
           = (Ok result, w2)
        /\ a = AssistantToolCalls "" calls
        /\ t = ToolMessage (fn_name call) (call_id call) (json_dumps E result)
        /\ rounds E
             (mkWorld (token_file w2) (stdin w2) (input_messages w ++ [a; t])%list
                (trace w2))
             rest
  | _ => False
  end.

(** The histories, one for each round, that grow out of [base] as [added]
    is appended two messages at a time. *)
Fixpoint histories (base added : list message) : list (list message) :=
  match added with
  | a :: t :: rest => (base ++ [a; t])%list :: histories (base ++ [a; t])%list rest
  | _ => []
  end.

(** The line [fetch_events_for_date] prints for an event that has a mapping
    under "start": its "dateTime", else its "date", else [None], then its
    "summary" or "(no title)". *)
Definition shown_start (start : kwargs) : pyval :=
  match lookup "dateTime" start with
  | Some v => v
  | None => match lookup "date" start with Some v => v | None => PNone end
  end.

Definition printed (E : env) (ev : pyval) : option string :=
  match ev with
  | PDict e =>
      match lookup "start" e with
      | Some (PDict start) =>
          Some (" • " ++ py_str E (shown_start start) ++ " — "
                ++ py_str E (match lookup "summary" e with
                             | Some v => v
                             | None => PStr "(no title)"
                             end))
      | _ => None
      end
  | _ => None
  end.

(** The attendees of a request went through the e-mail pattern. *)
Definition validated_attendees (l : list pyval) : Prop :=
  exists parts, l = map Menu.attendee parts /\ Forall email_shaped parts.

(** The two requests the menu sends: the events of one day of the calendar,
    from its midnight in UTC to the next, and the insertion of an event with
    validated attendees that starts at an instant [dt_start] which the
    environment read from a typed date and time, and ends at
    [dt_start + timedelta(hours=1)], 3600 seconds later. *)
Definition day_listing (x : request) : Prop :=
  exists d next,
    calendar_midnight d /\ utc d = true
    /\ add d (timedelta_days 1) = Ok next
    /\ x = ("events", "list", Menu.list_params (isoformat d) (isoformat next)).

Definition hour_insertion (E : env) (x : request) : Prop :=
  exists typed title description tz dt_start dt_end attendees,
    fromisoformat_astimezone_utc E typed = Returns dt_start
    /\ add dt_start (timedelta_hours 1) = Ok dt_end
    /\ to_micros dt_end = to_micros dt_start + 3600 * 1000000
    /\ validated_attendees attendees
    /\ x = ("events", "insert",
            PDict [("calendarId", PStr "primary");
                   ("body", Menu.event_body title description tz dt_start dt_end attendees)]).

Definition menu_request (E : env) (x : request) : Prop :=
  day_listing x \/ hour_insertion E x.

Definition menu_prompt : string := String "010" "Choose action [fetch/insert/exit]: ".

(** A line that names none of the commands of the menu, and what the menu
    does with it. *)
Definition unknown_command (line : string) : bool :=
  negb (str_in (lower (strip line)) ["fetch"; "insert"; "exit"; "quit"]).

Definition unknown_round : list effect :=
  [Input menu_prompt; Log ERROR "Unknown command. Choose fetch, insert, or exit."].

End Spec.
Export Spec.

(** * Properties *)

Local Open Scope list_scope.

(** ** The matcher *)

Lemma string_app_nil (s1 s2 : string) :
  (s1 ++ s2)%string = EmptyString -> s1 = EmptyString /\ s2 = EmptyString.
Proof. destruct s1; simpl; [auto | discriminate]. Qed.

Lemma string_app_assoc (a b c : string) :
  ((a ++ b) ++ c)%string = (a ++ (b ++ c))%string.
Proof. induction a as [|x a IH]; simpl; [reflexivity | now rewrite IH]. Qed.

Lemma nullable_matches r : nullable r = true <-> matches r EmptyString.
Proof.
  induction r as [| |p|r1 IH1 r2 IH2|r1 IH1 r2 IH2|r IH]; simpl.
  - split; [discriminate | intros H; inversion H].
  - split; [constructor | reflexivity].
  - split; [discriminate | intros H; inversion H].
  - rewrite andb_true_iff, IH1, IH2. split.
    + intros [H1 H2]. exact (MCat _ _ EmptyString EmptyString H1 H2).
    + intros H. inversion H as [| |a b s1 s2 H1 H2 Heq Hs| | | |]; subst.
      apply string_app_nil in Hs. destruct Hs; subst. auto.
  - rewrite orb_true_iff, IH1, IH2. split.
    + intros [H|H]; [now apply MAltL | now apply MAltR].
    + intros H. inversion H; subst; auto.
  - split; [constructor | reflexivity].
Qed.

(** A non-empty word of [r*] starts with a non-empty word of [r]. *)
Lemma star_cons r c s :
  matches (Star r) (String c s) ->
  exists s1 s2, s = (s1 ++ s2)%string /\ matches r (String c s1) /\ matches (Star r) s2.
Proof.
  intros H. remember (Star r) as rs eqn:Hr. remember (String c s) as cs eqn:Hs.
  revert s Hs.
  induction H as [| | | | | |r0 s1 s2 H1 _ H2 IH2]; try discriminate.
  injection Hr as ->. intros s Hs.
  destruct s1 as [|c1 s1]; simpl in Hs.
  - apply IH2; [reflexivity | exact Hs].
  - injection Hs as -> <-. exists s1, s2. auto.
Qed.

Lemma deriv_matches c r : forall s, matches (deriv c r) s <-> matches r (String c s).
Proof.
  induction r as [| |p|r1 IH1 r2 IH2|r1 IH1 r2 IH2|r IH]; intros s; simpl.
  - split; intros H; inversion H.
  - split; intros H; inversion H.
  - destruct (p c) eqn:Hp; split; intros H; inversion H; subst.
    + now constructor.
    + constructor.
    + congruence.
  - assert (Hcat : matches (Cat (deriv c r1) r2) s
                   <-> exists s1 s2, s = (s1 ++ s2)%string
                                     /\ matches r1 (String c s1) /\ matches r2 s2).
    { split.
      - intros H. inversion H; subst. do 2 eexists. rewrite <- IH1. eauto.
      - intros (s1 & s2 & -> & H1 & H2). constructor; [now apply IH1 | exact H2]. }
    assert (Hsplit : matches (Cat r1 r2) (String c s)
                     <-> (exists s1 s2, s = (s1 ++ s2)%string
                                        /\ matches r1 (String c s1) /\ matches r2 s2)
                         \/ (matches r1 EmptyString /\ matches r2 (String c s))).
    { split.
      - intros H. inversion H as [| |a b s1 s2 H1 H2 Heq Hs| | | |]; subst.
        destruct s1 as [|c1 s1]; simpl in Hs.
        + right. subst. auto.
        + injection Hs as -> <-. left. eauto.
      - intros [(s1 & s2 & -> & H1 & H2) | [H1 H2]].
        + exact (MCat _ _ (String c s1) s2 H1 H2).
        + exact (MCat _ _ EmptyString (String c s) H1 H2). }
    rewrite Hsplit. destruct (nullable r1) eqn:Hn.
    + apply nullable_matches in Hn. split.
      * intros H. inversion H; subst; [left; now apply Hcat | right; split; [exact Hn | now apply IH2]].
      * intros [H | [_ H]]; [apply MAltL; now apply Hcat | apply MAltR; now apply IH2].
    + rewrite Hcat. split; [auto|]. intros [H | [H _]]; [exact H|].
      apply nullable_matches in H. congruence.
  - split.
    + intros H. inversion H; subst; [apply MAltL; now apply IH1 | apply MAltR; now apply IH2].
    + intros H. inversion H; subst; [apply MAltL; now apply IH1 | apply MAltR; now apply IH2].
  - split.
    + intros H. inversion H as [| |a b s1 s2 H1 H2 Heq Hs| | | |]; subst.
      exact (MStarApp _ (String c s1) s2 (proj1 (IH s1) H1) H2).
    + intros H. destruct (star_cons _ _ _ H) as (s1 & s2 & -> & H1 & H2).
      constructor; [now apply IH | exact H2].
Qed.

(** The matcher decides membership. *)
Lemma fullmatch_matches : forall s r, fullmatch r s = true <-> matches r s.
Proof.
  induction s as [|c s IH]; intros r; simpl.
  - apply nullable_matches.
  - rewrite IH. apply deriv_matches.
Qed.

(** ** The e-mail pattern *)

Lemma all_chars_app p s1 s2 :
  all_chars p (s1 ++ s2)%string = all_chars p s1 && all_chars p s2.
Proof.
  induction s1 as [|c s1 IH]; simpl; [reflexivity|].
  now rewrite IH, andb_assoc.
Qed.

Lemma matches_class p s :
  matches (Class p) s <-> exists c, s = String c EmptyString /\ p c = true.
Proof.
  split.
  - intros H. inversion H; subst. eauto.
  - intros (c & -> & Hp). now constructor.
Qed.

Lemma matches_star_class p s :
  matches (Star (Class p)) s <-> all_chars p s = true.
Proof.
  split.
  - intros H. remember (Star (Class p)) as r eqn:Hr.
    induction H as [| | | | | |r0 s1 s2 H1 _ H2 IH2]; try discriminate; [reflexivity|].
    injection Hr as ->. apply matches_class in H1. destruct H1 as (c & -> & Hp).
    simpl. rewrite Hp. now apply IH2.
  - induction s as [|c s IH]; simpl; intros H; [constructor|].
    apply andb_true_iff in H. destruct H as [Hp Hs].
    exact (MStarApp _ (String c EmptyString) s (MClass p c Hp) (IH Hs)).
Qed.

Lemma matches_plus_class p s :
  matches (Plus (Class p)) s <-> s <> EmptyString /\ all_chars p s = true.
Proof.
  unfold Plus. split.
  - intros H. inversion H as [| |a b s1 s2 H1 H2 Heq Hs| | | |]; subst.
    apply matches_class in H1. destruct H1 as (c & -> & Hp).
    apply matches_star_class in H2. simpl. rewrite Hp, H2.
    split; [discriminate | reflexivity].
  - intros [Hne Hall]. destruct s as [|c s]; [congruence|].
    simpl in Hall. apply andb_true_iff in Hall. destruct Hall as [Hp Hs].
    exact (MCat _ _ (String c EmptyString) s (MClass p c Hp)
             (proj2 (matches_star_class p s) Hs)).
Qed.

Lemma matches_chr c s : matches (Chr c) s <-> s = String c EmptyString.
Proof.
  unfold Chr. rewrite matches_class. split.
  - intros (c' & -> & Heq). apply Ascii.eqb_eq in Heq. now subst.
  - intros ->. exists c. split; [reflexivity | apply Ascii.eqb_refl].
Qed.

Lemma matches_email e : matches Menu.EMAIL_REGEX e <-> email_shaped e.
Proof.
  unfold Menu.EMAIL_REGEX, Menu.not_at, email_shaped, no_at. split.
  - intros H.
    inversion H as [| |? ? l s1 Hl H1| | | |]; subst.
    inversion H1 as [| |? ? at_ s2 Hat H2| | | |]; subst.
    inversion H2 as [| |? ? m s3 Hm H3| | | |]; subst.
    inversion H3 as [| |? ? dot r Hdot Hr| | | |]; subst.
    apply matches_plus_class in Hl, Hm, Hr.
    apply matches_chr in Hat, Hdot. subst.
    exists l, m, r. tauto.
  - intros (l & m & r & -> & Hl & Hm & Hr & Al & Am & Ar).
    apply MCat; [now apply matches_plus_class|].
    apply (MCat _ _ "@"%string); [now apply matches_chr|].
    apply MCat; [now apply matches_plus_class|].
    apply (MCat _ _ "."%string); [now apply matches_chr|].
    now apply matches_plus_class.
Qed.

Lemma chop_newline_app s t :
  chop_newline s = Some t -> s = (t ++ String "010" EmptyString)%string.
Proof.
  revert t. induction s as [|c s IH]; simpl; intros t; [discriminate|].
  destruct s as [|c' s'].
  - destruct (Ascii.eqb c "010") eqn:Hc; [|discriminate].
    apply Ascii.eqb_eq in Hc. intros H. injection H as <-. now subst.
  - destruct (chop_newline (String c' s')) as [t'|]; [|discriminate].
    intros H. injection H as <-. simpl. f_equal. now apply IH.
Qed.

(** An entry that passes the e-mail test has the shape the pattern
    describes.  The line feed that [$] would let by changes nothing here,
    since the last class admits it. *)
Lemma email_pattern_sound e :
  re_match Menu.EMAIL_REGEX e = true -> email_shaped e.
Proof.
  unfold re_match. rewrite orb_true_iff, fullmatch_matches, matches_email.
  intros [H|H]; [exact H|].
  destruct (chop_newline e) as [t|] eqn:Hchop; [|discriminate].
  apply chop_newline_app in Hchop. subst e.
  apply fullmatch_matches, matches_email in H.
  destruct H as (l & m & r & -> & Hl & Hm & Hr & Al & Am & Ar).
  exists l, m, (r ++ String "010" EmptyString)%string.
  repeat split; auto.
  - now rewrite !string_app_assoc.
  - destruct r; discriminate.
  - unfold no_at in *. rewrite all_chars_app, Ar. reflexivity.
Qed.

(** X1.  The e-mail test of the menu, in words: an entry passes exactly
    when it reads local@domain.rest, where the three parts are not empty and
    hold no [@]. *)
Lemma email_regex_shape e :
  re_match Menu.EMAIL_REGEX e = true <-> email_shaped e.
Proof.
  split; [apply email_pattern_sound|].
  intros H. unfold re_match.
  rewrite orb_true_iff, fullmatch_matches, matches_email. now left.
Qed.

(** ** Calendar arithmetic *)

Lemma all_from_spec n : forall start p, all_from n start p = true ->
  forall k, (start <= k < start + Z.of_nat n)%Z -> p k = true.
Proof.
  induction n as [|n IH]; simpl; intros start p H k Hk; [lia|].
  apply andb_true_iff in H. destruct H as [H1 H2].
  destruct (Z.eq_dec k start) as [->|]; [exact H1|].
  apply (IH (start + 1)%Z); [exact H2 | lia].
Qed.

(** Every day of a common year and of a leap year falls in the right month. *)
Lemma month_day_checked :
  all_from 365 0 (month_day_ok false) && all_from 366 0 (month_day_ok true) = true.
Proof. vm_compute. reflexivity. Qed.

(** [ord2ymd] in two steps: the cycles of 400, 100, 4 and 1 years that name
    the year, then the month and day within it. *)
Lemma ord2ymd_phases ordinal :
  ord2ymd ordinal =
  let n0 := (ordinal - 1)%Z in
  let a := (n0 / 146097)%Z in
  let r := (n0 mod 146097)%Z in
  let b := (r / 36524)%Z in
  let r2 := (r mod 36524)%Z in
  let c := (r2 / 1461)%Z in
  let r3 := (r2 mod 1461)%Z in
  let e := (r3 / 365)%Z in
  let n := (r3 mod 365)%Z in
  let y := (a * 400 + 1 + b * 100 + c * 4 + e)%Z in
  if ((e =? 4) || (b =? 4))%Z then ((y - 1)%Z, 12%Z, 31%Z)
  else let '(m, d) := month_day ((e =? 3) && (negb (c =? 24) || (b =? 3)))%Z n in
       (y, m, d).
Proof.
  unfold ord2ymd, month_day, DI400Y, DI100Y, DI4Y. cbv zeta.
  destruct (_ || _)%bool; [reflexivity|].
  destruct (_ <? _)%Z; reflexivity.
Qed.

Lemma is_leap_spec y :
  is_leap y = true
  <-> (y mod 4 = 0 /\ (y mod 100 <> 0 \/ y mod 400 = 0))%Z.
Proof.
  unfold is_leap.
  rewrite andb_true_iff, orb_true_iff, negb_true_iff, !Z.eqb_eq, Z.eqb_neq.
  reflexivity.
Qed.

(** [date.fromordinal(n).toordinal() == n] *)
Lemma ymd2ord_ord2ymd n :
  let '(y, m, d) := ord2ymd n in ymd2ord y m d = n.
Proof.
  rewrite ord2ymd_phases. cbv zeta.
  set (n0 := (n - 1)%Z).
  set (a := (n0 / 146097)%Z). set (r := (n0 mod 146097)%Z).
  set (b := (r / 36524)%Z). set (r2 := (r mod 36524)%Z).
  set (c := (r2 / 1461)%Z). set (r3 := (r2 mod 1461)%Z).
  set (e := (r3 / 365)%Z). set (k := (r3 mod 365)%Z).
  assert (Hn0 : (n0 = 146097 * a + r /\ 0 <= r < 146097)%Z)
    by (subst a r; split; [apply Z.div_mod | apply Z.mod_pos_bound]; lia).
  assert (Hr : (r = 36524 * b + r2 /\ 0 <= r2 < 36524)%Z)
    by (subst b r2; split; [apply Z.div_mod | apply Z.mod_pos_bound]; lia).
  assert (Hr2 : (r2 = 1461 * c + r3 /\ 0 <= r3 < 1461)%Z)
    by (subst c r3; split; [apply Z.div_mod | apply Z.mod_pos_bound]; lia).
  assert (Hr3 : (r3 = 365 * e + k /\ 0 <= k < 365)%Z)
    by (subst e k; split; [apply Z.div_mod | apply Z.mod_pos_bound]; lia).
  clearbody a r b r2 c r3 e k.
  assert (Hb : (0 <= b <= 4)%Z) by lia.
  assert (Hc : (0 <= c <= 24)%Z) by lia.
  assert (He : (0 <= e <= 4)%Z) by lia.
  destruct ((e =? 4) || (b =? 4))%Z eqn:Hedge.
  - (* the day after four whole years or centuries: 31 December, leap year *)
    apply orb_true_iff in Hedge. rewrite !Z.eqb_eq in Hedge.
    unfold ymd2ord, days_before_month, days_before_year. cbv zeta.
    assert (Hleap : is_leap (a * 400 + 1 + b * 100 + c * 4 + e - 1) = true).
    { apply is_leap_spec. Z.div_mod_to_equations; lia. }
    rewrite Hleap. change (DAYS_BEFORE_MONTH 12) with 334%Z.
    change ((2 <? 12)%Z && true) with true. cbv iota.
    Z.div_mod_to_equations; lia.
  - apply orb_false_iff in Hedge. rewrite !Z.eqb_neq in Hedge.
    assert (Hleap : is_leap (a * 400 + 1 + b * 100 + c * 4 + e)
                    = ((e =? 3) && (negb (c =? 24) || (b =? 3)))%Z).
    { destruct ((e =? 3) && (negb (c =? 24) || (b =? 3)))%Z eqn:Hl.
      - apply is_leap_spec. apply andb_true_iff in Hl. destruct Hl as [H3 Hl].
        apply Z.eqb_eq in H3. apply orb_true_iff in Hl.
        rewrite negb_true_iff, Z.eqb_neq, Z.eqb_eq in Hl.
        Z.div_mod_to_equations; lia.
      - destruct (is_leap _) eqn:Hil; [|reflexivity]. exfalso.
        apply is_leap_spec in Hil.
        apply andb_false_iff in Hl.
        rewrite orb_false_iff, negb_false_iff, !Z.eqb_neq, Z.eqb_eq in Hl.
        Z.div_mod_to_equations; lia. }
    set (leap := ((e =? 3) && (negb (c =? 24) || (b =? 3)))%Z) in *.
    assert (Hmd : month_day_ok leap k = true).
    { pose proof month_day_checked as Hchk. apply andb_true_iff in Hchk.
      destruct Hchk as [Hf Ht].
      destruct leap; [apply (all_from_spec _ _ _ Ht) | apply (all_from_spec _ _ _ Hf)]; lia. }
    unfold month_day_ok in Hmd. destruct (month_day leap k) as [m d].
    apply Z.eqb_eq in Hmd.
    unfold ymd2ord, days_before_month, days_before_year. rewrite Hleap. cbv zeta.
    Z.div_mod_to_equations; lia.
Qed.

(** Adding a [timedelta] moves the instant by that many microseconds. *)
Lemma to_micros_add d delta d' :
  add d delta = Ok d' -> to_micros d' = (to_micros d + delta)%Z.
Proof.
  unfold add. set (total := (to_micros d + delta)%Z).
  destruct ((0 <? total / US_PER_DAY) && (total / US_PER_DAY <=? MAXORDINAL))%Z;
    [|discriminate].
  pose proof (ymd2ord_ord2ymd (total / US_PER_DAY)) as Hrt.
  destruct (ord2ymd (total / US_PER_DAY)) as [[y m] dd].
  intros H. injection H as <-. unfold to_micros, toordinal; simpl. rewrite Hrt.
  unfold US_PER_DAY, US_PER_SECOND in *.
  Z.div_mod_to_equations; lia.
Qed.

Lemma add_keeps_zone d delta d' : add d delta = Ok d' -> utc d' = utc d.
Proof.
  unfold add.
  destruct ((0 <? _) && _)%Z; [|discriminate].
  destruct (ord2ymd _) as [[y m] dd]. intros H. injection H as <-. reflexivity.
Qed.

(** A whole number of days added to a midnight gives a midnight. *)
Lemma add_days_midnight d n d' :
  hour d = 0%Z -> minute d = 0%Z -> second d = 0%Z -> microsecond d = 0%Z ->
  add d (timedelta_days n) = Ok d' ->
  hour d' = 0%Z /\ minute d' = 0%Z /\ second d' = 0%Z /\ microsecond d' = 0%Z
  /\ toordinal d' = (toordinal d + n)%Z.
Proof.
  intros Hh Hm Hs Hu. unfold add, to_micros, timedelta_days. rewrite Hh, Hm, Hs, Hu.
  replace ((((toordinal d * 24 + 0) * 60 + 0) * 60 + 0) * US_PER_SECOND + 0
           + n * US_PER_DAY)%Z
    with ((toordinal d + n) * US_PER_DAY)%Z by (unfold US_PER_DAY; lia).
  rewrite Z.div_mul, Z.mod_mul by (unfold US_PER_DAY, US_PER_SECOND; lia).
  destruct ((0 <? _) && _)%Z; [|discriminate].
  pose proof (ymd2ord_ord2ymd (toordinal d + n)) as Hrt.
  destruct (ord2ymd _) as [[y m] dd]. intros H. injection H as <-.
  unfold toordinal at 1. simpl. auto.
Qed.

(** ** Traces and footprints *)

Lemma requests_app (a b : list effect) : requests (a ++ b) = requests a ++ requests b.
Proof.
  induction a as [|ev a IH]; simpl; [reflexivity|].
  destruct ev; simpl; rewrite ?IH; reflexivity.
Qed.

Lemma chats_app (a b : list effect) : chats (a ++ b) = chats a ++ chats b.
Proof.
  induction a as [|ev a IH]; simpl; [reflexivity|].
  destruct ev; simpl; rewrite ?IH; reflexivity.
Qed.

Section Footprints.

Context {A B : Type}.

Lemma footprint_weaken (P Q : list request -> Prop) (c : M A) w :
  (forall l, P l -> Q l) -> footprint P c w -> footprint Q c w.
Proof.
  intros HPQ (Hm & evs & Ht & HP & Hc). split; [exact Hm|].
  exists evs. auto.
Qed.

Lemma quiet_ret (a : A) w : quiet (ret a) w.
Proof. split; [reflexivity|]. exists []. simpl. rewrite app_nil_r. auto. Qed.

Lemma quiet_raise (e : exn) w : quiet (@raise A e) w.
Proof. split; [reflexivity|]. exists []. simpl. rewrite app_nil_r. auto. Qed.

Lemma quiet_of_result (r : result A) w : quiet (of_result r) w.
Proof. split; [reflexivity|]. exists []. simpl. rewrite app_nil_r. auto. Qed.

Lemma quiet_library (ask : world -> outcome A) w : quiet (library ask) w.
Proof. split; [reflexivity|]. exists []. simpl. rewrite app_nil_r. auto. Qed.

Lemma footprint_external (ask : world -> outcome A) ev w :
  chats [ev] = [] -> footprint (eq (requests [ev])) (external ask ev) w.
Proof. intros Hc. split; [reflexivity|]. exists [ev]. simpl. auto. Qed.

(** A quiet prefix adds nothing to what the rest sends. *)
Lemma footprint_bind_quiet (P : list request -> Prop) (c : M A) (k : A -> M B) w :
  quiet c w -> P [] ->
  (forall a w1, c w = (Ok a, w1) -> footprint P (k a) w1) ->
  footprint P (bind c k) w.
Proof.
  intros (Hm & evs & Ht & HP & Hc) Hnil Hk. unfold footprint, bind.
  destruct (c w) as [[a|e|] w1] eqn:Hcw; simpl in *.
  - destruct (Hk a w1 eq_refl) as (Hm2 & evs2 & Ht2 & HP2 & Hc2).
    split; [congruence|]. exists (evs ++ evs2).
    rewrite Ht2, Ht, app_assoc, requests_app, chats_app, <- HP, Hc, Hc2. auto.
  - split; [exact Hm|]. exists evs. rewrite <- HP. auto.
  - split; [exact Hm|]. exists evs. rewrite <- HP. auto.
Qed.

(** A quiet continuation adds nothing to what the prefix sent. *)
Lemma footprint_then_quiet (P : list request -> Prop) (c : M A) (k : A -> M B) w :
  footprint P c w ->
  (forall a w1, c w = (Ok a, w1) -> quiet (k a) w1) ->
  footprint P (bind c k) w.
Proof.
  intros (Hm & evs & Ht & HP & Hc) Hk. unfold footprint, bind.
  destruct (c w) as [[a|e|] w1] eqn:Hcw; simpl in *.
  - destruct (Hk a w1 eq_refl) as (Hm2 & evs2 & Ht2 & HP2 & Hc2).
    split; [congruence|]. exists (evs ++ evs2).
    rewrite Ht2, Ht, app_assoc, requests_app, chats_app, <- HP2, Hc, Hc2, app_nil_r. auto.
  - split; [exact Hm|]. exists evs. auto.
  - split; [exact Hm|]. exists evs. auto.
Qed.

Lemma settles_bind (c : M A) (k : A -> M B) w :
  settles c w -> (forall a w1, c w = (Ok a, w1) -> settles (k a) w1) ->
  settles (bind c k) w.
Proof.
  unfold settles, bind. intros [Hc Hlen] Hk.
  destruct (c w) as [[a|e|] w1] eqn:Hcw; simpl in *.
  - destruct (Hk a w1 eq_refl) as [Hk1 Hk2]. split; [exact Hk1 | lia].
  - split; [discriminate | exact Hlen].
  - congruence.
Qed.

Lemma settles_ret (a : A) w : settles (ret a) w.
Proof. split; [discriminate | apply Nat.le_refl]. Qed.

Lemma settles_raise (e : exn) w : settles (@raise A e) w.
Proof. split; [discriminate | apply Nat.le_refl]. Qed.

Lemma settles_of_result (r : result A) w : r <> OutOfFuel -> settles (of_result r) w.
Proof. intros H. split; [exact H | apply Nat.le_refl]. Qed.

Lemma settles_external (ask : world -> outcome A) ev w : settles (external ask ev) w.
Proof.
  unfold settles, external. simpl. split; [|apply Nat.le_refl].
  destruct (ask w); discriminate.
Qed.

Lemma settles_library (ask : world -> outcome A) w : settles (library ask) w.
Proof.
  unfold settles, library. simpl. split; [|apply Nat.le_refl].
  destruct (ask w); discriminate.
Qed.

End Footprints.

Lemma quiet_log lvl msg w : quiet (log lvl msg) w.
Proof. split; [reflexivity|]. exists [Log lvl msg]. auto. Qed.

Lemma quiet_input prompt w : quiet (input prompt) w.
Proof.
  unfold input. split.
  - destruct (stdin w); reflexivity.
  - exists [Input prompt]. destruct (stdin w); auto.
Qed.

Lemma footprint_try {A} (P : list request -> Prop) (c : M A) catches h w :
  footprint P c w ->
  (forall e w1, c w = (Raise e, w1) -> quiet (h e) w1) ->
  footprint P (try_except c catches h) w.
Proof.
  intros (Hm & evs & Ht & HP & Hc) Hh. unfold footprint, try_except.
  destruct (c w) as [[a|e|] w1] eqn:Hcw; simpl in *.
  - split; [exact Hm|]. exists evs. auto.
  - destruct (catches e).
    + destruct (Hh e w1 eq_refl) as (Hm2 & evs2 & Ht2 & HP2 & Hc2).
      split; [congruence|]. exists (evs ++ evs2).
      rewrite Ht2, Ht, app_assoc, requests_app, chats_app, <- HP2, Hc, Hc2, app_nil_r. auto.
    + split; [exact Hm|]. exists evs. auto.
  - split; [exact Hm|]. exists evs. auto.
Qed.

Lemma settles_try {A} (c : M A) catches h w :
  settles c w -> (forall e w1, c w = (Raise e, w1) -> settles (h e) w1) ->
  settles (try_except c catches h) w.
Proof.
  unfold settles, try_except. intros [Hc Hlen] Hh.
  destruct (c w) as [[a|e|] w1] eqn:Hcw; simpl in *.
  - split; [discriminate | exact Hlen].
  - destruct (catches e); simpl; [|split; [discriminate | exact Hlen]].
    destruct (Hh e w1 eq_refl) as [H1 H2]. split; [exact H1 | lia].
  - congruence.
Qed.

Lemma settles_log lvl msg w : settles (log lvl msg) w.
Proof. split; [discriminate | apply Nat.le_refl]. Qed.

Lemma settles_input prompt w : settles (input prompt) w.
Proof.
  unfold settles, input.
  destruct (stdin w) eqn:Hst; simpl; rewrite ?Hst; split; try discriminate; simpl; lia.
Qed.

(** Discharges [quiet] for straight-line code built from quiet steps. *)
Ltac quiet_steps :=
  repeat first
    [ apply quiet_ret | apply quiet_raise | apply quiet_of_result
    | apply quiet_library | apply quiet_log | apply quiet_input
    | apply footprint_external; reflexivity
    | apply footprint_bind_quiet; [ | reflexivity | intros ? ? _ ]
    | match goal with
      | |- footprint _ (if ?b then _ else _) _ => destruct b
      | |- footprint _ (match ?x with _ => _ end) _ => destruct x
      end ].

(** Discharges [settles] for straight-line code built from settled steps;
    what is left are the library calls that have to be seen not to loop. *)
Ltac settles_steps :=
  repeat first
    [ apply settles_ret | apply settles_raise | apply settles_log
    | apply settles_input | apply settles_external | apply settles_library
    | apply settles_bind; [ | intros ? ? _ ]
    | match goal with
      | |- settles (if ?b then _ else _) _ => destruct b
      | |- settles (match ?x with _ => _ end) _ => destruct x
      end ].

(** One step of a sequence. *)
Lemma bind_ok {A B} (c : M A) (k : A -> M B) w a w1 :
  c w = (Ok a, w1) -> bind c k w = k a w1.
Proof. unfold bind. intros ->. reflexivity. Qed.

Lemma bind_raise {A B} (c : M A) (k : A -> M B) w e w1 :
  c w = (Raise e, w1) -> bind c k w = (Raise e, w1).
Proof. unfold bind. intros ->. reflexivity. Qed.

Section GatewayFacts.

Variable E : env.
Variable AM : list string.
Variable port : Z.

Lemma quiet_write_token data w : quiet (Gateway.write_token E data) w.
Proof.
  unfold Gateway.write_token. split.
  - destruct (open_write E w _ data); reflexivity.
  - exists [WriteFile Gateway.GOOGLE_TOKEN_FILE data].
    destruct (open_write E w _ data); auto.
Qed.

Lemma settles_write_token data w : settles (Gateway.write_token E data) w.
Proof.
  unfold settles, Gateway.write_token.
  destruct (open_write E w _ data); simpl; split; try discriminate; lia.
Qed.

Lemma quiet_token_exists w : quiet (Gateway.token_exists) w.
Proof. split; [reflexivity|]. exists [PathExists Gateway.GOOGLE_TOKEN_FILE]. auto. Qed.

Lemma quiet_load_token w : quiet (Gateway.load_token E) w.
Proof.
  unfold footprint, Gateway.load_token, external.
  destruct (token_file w); simpl;
    (split; [reflexivity | exists [ReadToken Gateway.GOOGLE_TOKEN_FILE]; auto]).
Qed.

Lemma settles_load_token w : settles (Gateway.load_token E) w.
Proof.
  unfold settles, Gateway.load_token, external.
  destruct (token_file w); simpl; [|split; [discriminate | lia]].
  destruct (from_authorized_user_file E w s); simpl; split; try discriminate; lia.
Qed.

Lemma settles_token_exists w : settles Gateway.token_exists w.
Proof. split; [discriminate | apply Nat.le_refl]. Qed.

Lemma quiet_save creds w : quiet (Gateway._save_credentials E creds) w.
Proof.
  unfold Gateway._save_credentials.
  apply footprint_bind_quiet; [apply quiet_write_token | reflexivity | intros ? ? _].
  apply quiet_log.
Qed.

Lemma quiet_service w : quiet (Gateway.get_calendar_service E port) w.
Proof.
  unfold Gateway.get_calendar_service, Gateway.load_saved, Gateway.refresh_flow,
    Gateway.interactive_flow.
  repeat first
    [ apply quiet_write_token | apply quiet_token_exists | apply quiet_load_token
    | progress quiet_steps ].
Qed.

End GatewayFacts.

Lemma str_in_In s S : str_in s S = true <-> In s S.
Proof.
  unfold str_in. rewrite existsb_exists. split.
  - intros (x & Hx & Heq). apply String.eqb_eq in Heq. now subst.
  - intros H. exists s. split; [exact H | apply String.eqb_refl].
Qed.

Lemma str_in_not_In s S : str_in s S = false <-> ~ In s S.
Proof.
  rewrite <- str_in_In. destruct (str_in s S); split; intros; congruence.
Qed.

Section GatewayBehaviour.

Variable E : env.
Variable AM : list string.
Variable port : Z.

Lemma py_in_settles v S : py_in v S <> OutOfFuel.
Proof. destruct v; discriminate. Qed.

Lemma settles_service w : settles (Gateway.get_calendar_service E port) w.
Proof.
  unfold Gateway.get_calendar_service, Gateway.load_saved, Gateway.refresh_flow,
    Gateway.interactive_flow, Gateway._save_credentials.
  repeat first
    [ apply settles_write_token | apply settles_load_token
    | apply settles_token_exists | progress settles_steps ].
Qed.

Lemma settles_api_request resource method params w :
  settles (Gateway.api_request E port resource method params) w.
Proof.
  unfold Gateway.api_request.
  apply settles_bind; [apply settles_service | intros svc w1 _].
  destruct resource, method; settles_steps.
Qed.

Lemma settles_gateway resource method params w :
  settles (Gateway.calendar_api_call E AM port resource method params) w.
Proof.
  unfold Gateway.calendar_api_call, Gateway.rejected.
  apply settles_bind.
  - apply settles_bind; [apply settles_of_result, py_in_settles | intros r_in w1 _].
    destruct (negb r_in); [apply settles_ret|].
    apply settles_bind; [apply settles_of_result, py_in_settles | intros; apply settles_ret].
  - intros no w1 _. destruct no; [apply settles_ret|].
    apply settles_try; [apply settles_api_request | intros; settles_steps].
Qed.

Lemma footprint_api_request resource method params w :
  footprint (at_most resource method params)
    (Gateway.api_request E port resource method params) w.
Proof.
  unfold Gateway.api_request.
  apply footprint_bind_quiet; [apply quiet_service | now left | intros svc w1 _].
  assert (Hq : forall w', quiet (@raise pyval (mkExn TypeError "attribute name must be string")) w')
    by (intros; apply quiet_raise).
  destruct resource, method;
    try (eapply footprint_weaken; [|apply Hq]; intros; subst; now left).
  apply footprint_bind_quiet; [apply quiet_library | now left | intros _ w2 _].
  apply footprint_bind_quiet; [apply quiet_library | now left | intros _ w3 _].
  eapply footprint_weaken; [|apply footprint_external; reflexivity].
  intros l <-. right. eauto.
Qed.

(** Past the whitelist the gateway is its [try] block under the handler. *)
Lemma gateway_allowed (r m : string) params :
  In r Gateway.ALLOWED_RESOURCES -> In m AM ->
  Gateway.calendar_api_call E AM port (PStr r) (PStr m) params =
  try_except (Gateway.api_request E port (PStr r) (PStr m) params) is_Exception
    (fun e =>
       log ERROR ("❌ Calendar API error: " ++ exn_str e) ;;
       ret (error_dict (exn_str e))).
Proof.
  intros Hr Hm. apply str_in_In in Hr. apply str_in_In in Hm.
  unfold Gateway.calendar_api_call, Gateway.rejected, bind, of_result, py_in, ret.
  rewrite Hr, Hm. reflexivity.
Qed.

Lemma gateway_rejects (r m : string) params w :
  ~ (In r Gateway.ALLOWED_RESOURCES /\ In m AM) ->
  Gateway.calendar_api_call E AM port (PStr r) (PStr m) params w =
  (Ok (error_dict "Method or resource not allowed."), w).
Proof.
  intros H. rewrite <- !str_in_In in H.
  unfold Gateway.calendar_api_call, Gateway.rejected, bind, of_result, py_in, ret.
  destruct (str_in r Gateway.ALLOWED_RESOURCES); simpl; [|reflexivity].
  destruct (str_in m AM); simpl; [|reflexivity].
  exfalso. auto.
Qed.

Lemma gateway_catches (r m : string) params w :
  In r Gateway.ALLOWED_RESOURCES -> In m AM ->
  Spec.catches_exceptions
    (Gateway.calendar_api_call E AM port (PStr r) (PStr m) params)
    (Gateway.api_request E port (PStr r) (PStr m) params) w.
Proof.
  intros Hr Hm. rewrite (gateway_allowed r m params Hr Hm).
  pose proof (proj1 (settles_api_request (PStr r) (PStr m) params w)) as Htot.
  unfold Spec.catches_exceptions, try_except, bind, log, ret in *.
  destruct (Gateway.api_request E port (PStr r) (PStr m) params w) as [[v|e|] w1];
    simpl in *.
  - repeat split; intros; try discriminate; congruence.
  - destruct (is_Exception e) eqn:He; simpl;
      repeat split; intros; try discriminate; try congruence.
  - congruence.
Qed.

End GatewayBehaviour.

(** What the gateway and the dispatcher leave behind. *)
Lemma quiet_rejected (AM : list string) resource method w :
  quiet (Gateway.rejected AM resource method) w.
Proof. unfold Gateway.rejected. quiet_steps. Qed.

Lemma footprint_gateway (E : env) (AM : list string) (port : Z) resource method params w :
  footprint (at_most resource method params)
    (Gateway.calendar_api_call E AM port resource method params) w.
Proof.
  unfold Gateway.calendar_api_call.
  apply footprint_bind_quiet; [apply quiet_rejected | now left | intros no w1 _].
  destruct no.
  - eapply footprint_weaken; [|apply quiet_ret]. intros l <-. now left.
  - apply footprint_try; [apply footprint_api_request | intros e w2 _].
    quiet_steps.
Qed.

Lemma footprint_call_function (E : env) name args w :
  footprint (fun _ => True) (Agent.call_function E name args) w.
Proof.
  unfold Agent.call_function.
  destruct (name =? "calendar_api_call")%string.
  - apply footprint_bind_quiet; [apply quiet_of_result | exact I | intros d w1 _].
    eapply footprint_weaken; [|apply footprint_gateway]. auto.
  - eapply footprint_weaken; [|apply quiet_ret]. auto.
Qed.

Lemma first_tool_request_head cs calls call :
  Agent.first_tool_request cs = Some (calls, call) -> hd_error calls = Some call.
Proof.
  induction cs as [|m rest IH]; simpl; [discriminate|].
  destruct (role m =? "assistant")%string; [|exact IH].
  destruct (tool_calls m) as [[|c more]|]; try exact IH.
  intros H. inversion H. reflexivity.
Qed.

(** ** The gateway: whitelist, handler, credentials *)

(** C1.  A pair (resource, method) outside the whitelist of a variant gets
    the fixed error value from that variant's [calendar_api_call], whatever
    the environment, and the world comes back as it was: the trace has grown
    by nothing, so the credentials were not touched and nothing was sent. *)
Theorem policy_rejection (E : env) (resource method : string) (params : pyval) (w : world) :
  (~ (In resource Agent.ALLOWED_RESOURCES /\ In method Agent.ALLOWED_METHODS) ->
   Agent.calendar_api_call E (PStr resource) (PStr method) params w
   = (Ok (PDict [("error", PStr "Method or resource not allowed.")]), w))
  /\ (~ (In resource Menu.ALLOWED_RESOURCES /\ In method Menu.ALLOWED_METHODS) ->
      Menu.calendar_api_call E (PStr resource) (PStr method) params w
      = (Ok (PDict [("error", PStr "Method or resource not allowed.")]), w)).
Proof.
  split; intros H; apply gateway_rejects; exact H.
Qed.

Lemma policy_rejection_witness :
  Agent.calendar_api_call Sample.calm (PStr "calendars") (PStr "list") (PDict [])
    (Sample.first_run [])
  = (Ok (PDict [("error", PStr "Method or resource not allowed.")]), Sample.first_run [])
  /\ Menu.calendar_api_call Sample.calm (PStr "events") (PStr "update") (PDict [])
       (Sample.first_run [])
     = (Ok (PDict [("error", PStr "Method or resource not allowed.")]), Sample.first_run []).
Proof.
  split.
  - apply (policy_rejection Sample.calm "calendars" "list").
    intros [[H|[]] _]. discriminate H.
  - apply (policy_rejection Sample.calm "events" "update").
    intros [_ [H|[H|[]]]]; discriminate H.
Defined.

(** C2, as the code has it.  For a whitelisted pair, an exception raised in
    the [try] block that is an instance of [Exception] is logged and comes
    back as the error value that carries its message; one that is not
    ([KeyboardInterrupt], [SystemExit]) goes through to the caller; a value
    comes back as it is.  So the gateway raises nothing but the latter. *)
Theorem gateway_catches_Exception (E : env) (resource method : string) (params : pyval)
    (w : world) :
  (In resource Agent.ALLOWED_RESOURCES -> In method Agent.ALLOWED_METHODS ->
   Spec.catches_exceptions
     (Agent.calendar_api_call E (PStr resource) (PStr method) params)
     (Gateway.api_request E 3001 (PStr resource) (PStr method) params) w)
  /\ (In resource Menu.ALLOWED_RESOURCES -> In method Menu.ALLOWED_METHODS ->
      Spec.catches_exceptions
        (Menu.calendar_api_call E (PStr resource) (PStr method) params)
        (Gateway.api_request E 0 (PStr resource) (PStr method) params) w).
Proof.
  split; intros Hr Hm; apply gateway_catches; assumption.
Qed.

Lemma gateway_catches_Exception_witness :
  Menu.calendar_api_call Sample.offline (PStr "events") (PStr "list") (PDict [])
    (Sample.fresh [])
  = (Ok (PDict [("error", PStr "Unable to find the server at www.googleapis.com")]),
     mkWorld (Some "token-1") [] [SystemMessage "policy"]
       [PathExists "token.json"; ReadToken "token.json"; BuildClient;
        Request "events" "list" (PDict []);
        Log ERROR "❌ Calendar API error: Unable to find the server at www.googleapis.com"]).
Proof.
  destruct (gateway_catches_Exception Sample.offline "events" "list" (PDict [])
              (Sample.fresh [])) as [_ HM].
  destruct HM as [Hcaught _]; [simpl; auto | simpl; auto |].
  apply (Hcaught (mkExn (LibraryError "ServerNotFoundError")
                    "Unable to find the server at www.googleapis.com")
           (mkWorld (Some "token-1") [] [SystemMessage "policy"]
              [PathExists "token.json"; ReadToken "token.json"; BuildClient;
               Request "events" "list" (PDict [])]));
    reflexivity.
Defined.

(** C2, as the claim words it, fails: with a whitelisted pair, a
    [KeyboardInterrupt] raised while the request runs leaves
    [calendar_api_call] as an exception. *)
Lemma interrupt_escapes_gateway :
  In "events" Agent.ALLOWED_RESOURCES /\ In "list" Agent.ALLOWED_METHODS
  /\ Agent.calendar_api_call Sample.interrupted (PStr "events") (PStr "list")
       (PDict [("calendarId", PStr "primary")]) (Sample.fresh [])
     = (Raise (mkExn KeyboardInterrupt ""),
        mkWorld (Some "token-1") [] [SystemMessage "policy"]
          [PathExists "token.json"; ReadToken "token.json"; BuildClient;
           Request "events" "list" (PDict [("calendarId", PStr "primary")])]).
Proof.
  split; [simpl; auto|]. split; [simpl; auto|]. reflexivity.
Qed.

Lemma load_saved_keeps_token (E : env) w saved w1 :
  Gateway.load_saved E w = (Ok saved, w1) -> token_file w1 = token_file w.
Proof.
  unfold Gateway.load_saved, Gateway.token_exists, Gateway.load_token, bind,
    external, ret.
  destruct (token_file w) eqn:Htf; simpl.
  - rewrite Htf. simpl.
    destruct (from_authorized_user_file E _ s); simpl; intros H;
      inversion H; subst; simpl; auto.
  - intros H; inversion H; subst; simpl; auto.
Qed.

Lemma consent_failure (E : env) (port : Z) w saved w1 e :
  Gateway.load_saved E w = (Ok saved, w1) ->
  Spec.consent_needed saved ->
  run_local_server E w1 port = Raises e ->
  Gateway.get_calendar_service E port w = (Raise e, emit (ConsentFlow port) w1).
Proof.
  intros Hload Hneed Hflow.
  unfold Gateway.get_calendar_service. unfold bind at 1. rewrite Hload.
  assert (Hi : Gateway.interactive_flow E port w1 = (Raise e, emit (ConsentFlow port) w1)).
  { unfold Gateway.interactive_flow, bind, external. rewrite Hflow. reflexivity. }
  unfold bind.
  destruct saved as [c|]; simpl in Hneed.
  - destruct Hneed as [Hv Hr]. rewrite Hv, Hr, Hi. reflexivity.
  - rewrite Hi. reflexivity.
Qed.

(** C3.  When the credential routine reaches the interactive flow and the
    flow fails with [e], whatever its class, [get_calendar_service] ends by
    raising [e] to its caller: it returns no client, has no handler of its own,
    and leaves the token file as it was.  (That caller is the [try] block of
    [calendar_api_call].) *)
Theorem consent_failure_propagates (E : env) (w w1 : world)
    (saved : option Credentials) (e : exn) :
  Gateway.load_saved E w = (Ok saved, w1) ->
  Spec.consent_needed saved ->
  (run_local_server E w1 3001 = Raises e ->
   Agent.get_calendar_service E w = (Raise e, emit (ConsentFlow 3001) w1)
   /\ token_file (emit (ConsentFlow 3001) w1) = token_file w)
  /\ (run_local_server E w1 0 = Raises e ->
      Menu.get_calendar_service E w = (Raise e, emit (ConsentFlow 0) w1)
      /\ token_file (emit (ConsentFlow 0) w1) = token_file w).
Proof.
  intros Hload Hneed.
  pose proof (load_saved_keeps_token E w saved w1 Hload) as Htf.
  split; intros Hflow; (split; [now apply consent_failure with saved | exact Htf]).
Qed.

Lemma consent_failure_propagates_witness :
  Menu.get_calendar_service Sample.denied (Sample.first_run [])
  = (Raise (mkExn (LibraryError "AccessDeniedError") "(access_denied)"),
     mkWorld None [] [SystemMessage "policy"] [PathExists "token.json"; ConsentFlow 0]).
Proof.
  destruct (consent_failure_propagates Sample.denied (Sample.first_run [])
              (emit (PathExists "token.json") (Sample.first_run [])) None
              (mkExn (LibraryError "AccessDeniedError") "(access_denied)"))
    as [_ HM]; [reflexivity | exact I |].
  destruct HM as [Hrun _]; [reflexivity | exact Hrun].
Defined.

(** ** Remarks on the gateway *)

(** Arguments of another type than [str], which the dispatcher can pass on
    from the model: a hashable one is rejected like any name outside the
    whitelist; an unhashable one makes the membership test itself raise,
    before the [try] block. *)
Lemma rejects_other_hashable (E : env) (AM : list string) (port : Z)
    (resource method params : pyval) (w : world) :
  (forall s, resource <> PStr s) ->
  (forall l, resource <> PList l) -> (forall d, resource <> PDict d) ->
  Gateway.calendar_api_call E AM port resource method params w
  = (Ok (error_dict "Method or resource not allowed."), w).
Proof.
  intros Hs Hl Hd.
  destruct resource; try reflexivity;
    [exfalso; eapply Hs | exfalso; eapply Hl | exfalso; eapply Hd]; reflexivity.
Qed.

Lemma unhashable_resource_raises (E : env) (AM : list string) (port : Z)
    (l : list pyval) (method params : pyval) (w : world) :
  Gateway.calendar_api_call E AM port (PList l) method params w
  = (Raise (mkExn TypeError "unhashable type: 'list'"), w).
Proof. reflexivity. Qed.

(** A failure of the consent flow that is an [Exception], seen from the
    caller of the gateway: logged, and returned as an error value. *)
Lemma consent_failure_at_gateway (E : env) (AM : list string) (port : Z)
    (r m : string) (params : pyval) (w w1 : world)
    (saved : option Credentials) (e : exn) :
  In r Gateway.ALLOWED_RESOURCES -> In m AM ->
  Gateway.load_saved E w = (Ok saved, w1) ->
  Spec.consent_needed saved ->
  run_local_server E w1 port = Raises e ->
  is_Exception e = true ->
  Gateway.calendar_api_call E AM port (PStr r) (PStr m) params w
  = (Ok (error_dict (exn_str e)),
     emit (Log ERROR ("❌ Calendar API error: " ++ exn_str e)%string)
       (emit (ConsentFlow port) w1)).
Proof.
  intros Hr Hm Hload Hneed Hflow He.
  destruct (gateway_catches E AM port r m params w Hr Hm) as (Hcaught & _).
  apply Hcaught; [|exact He].
  unfold Gateway.api_request.
  apply bind_raise. now apply consent_failure with saved.
Qed.

(** ** The dispatcher *)

Lemma unexpected_none formals d :
  Agent.unexpected formals d = None ->
  forall k v, In (k, v) d -> In k formals.
Proof.
  unfold Agent.unexpected. intros H k v Hin.
  destruct (str_in k formals) eqn:Hk; [now apply str_in_In|].
  assert (Hf : In (k, v) (filter (fun kv => negb (str_in (fst kv) formals)) d)).
  { apply filter_In. split; [exact Hin | simpl; now rewrite Hk]. }
  destruct (filter _ d) as [|[k' v'] rest]; [contradiction | discriminate].
Qed.

Lemma missing_not_nil formals d p :
  In p formals -> has_key p d = false -> Agent.missing formals d <> [].
Proof.
  intros Hin Hk Hnil.
  assert (Hf : In p (Agent.missing formals d)).
  { apply filter_In. split; [exact Hin | now rewrite Hk]. }
  rewrite Hnil in Hf. contradiction.
Qed.

(** C10.  [call_function] lets the [TypeError] of the keyword expansion
    through: a mapping without [params], a mapping with a fourth key, and in
    general every mapping that lacks a parameter or names something else
    makes [call_function("calendar_api_call", args)] raise [TypeError] before
    the gateway is entered, so no error value comes back. *)
Theorem keyword_expansion_raises (E : env) (w : world) :
  (exists msg,
      Agent.call_function E "calendar_api_call"
        (PDict [("resource", PStr "events"); ("method", PStr "list")]) w
      = (Raise (mkExn TypeError msg), w))
  /\ (exists msg,
         Agent.call_function E "calendar_api_call"
           (PDict [("resource", PStr "events"); ("method", PStr "list");
                   ("params", PDict []); ("calendar", PStr "primary")]) w
         = (Raise (mkExn TypeError msg), w))
  /\ (forall d : kwargs,
         (exists p, In p ["resource"; "method"; "params"]%string /\ has_key p d = false)
         \/ (exists k v, In (k, v) d /\ ~ In k ["resource"; "method"; "params"]%string) ->
         exists msg,
           Agent.call_function E "calendar_api_call" (PDict d) w
           = (Raise (mkExn TypeError msg), w)).
Proof.
  split; [eexists; reflexivity|]. split; [eexists; reflexivity|].
  intros d H. unfold Agent.call_function, Agent.bind_keywords, bind, of_result.
  simpl String.eqb. cbv iota.
  destruct (Agent.unexpected _ d) as [k|] eqn:Hu; [eexists; reflexivity|].
  destruct H as [(p & Hp & Hk) | (k & v & Hin & Hnot)].
  - pose proof (missing_not_nil _ d p Hp Hk) as Hm.
    destruct (Agent.missing _ d); [congruence | eexists; reflexivity].
  - exfalso. apply Hnot. eapply unexpected_none; eauto.
Qed.

Lemma keyword_expansion_raises_witness :
  exists msg,
    Agent.call_function Sample.calm "calendar_api_call"
      (PDict [("resource", PStr "events"); ("params", PDict [])]) (Sample.fresh [])
    = (Raise (mkExn TypeError msg), Sample.fresh []).
Proof.
  destruct (keyword_expansion_raises Sample.calm (Sample.fresh [])) as (_ & _ & H).
  apply H. left. exists "method"%string. split; [simpl; auto | reflexivity].
Defined.

(** ** The tool-calling loop *)

(** C4.  A turn whose first reply asks for a tool and whose second reply is
    plain text.  [chat_with_agent] returns the text of the second reply; the
    name and arguments dispatched are those of [call], the first entry of the
    tool calls; between the two invocations of the model the history grows by
    exactly the assistant message that carries the tool calls and the tool
    message that carries [call]'s identifier and the encoded result; and the
    model is invoked exactly twice, first on the history with the user's
    message, then on that history with the two messages more. *)
Theorem tool_round (E : env) (depth : nat) (user_input : string) (w w2 : world)
    (r1 r2 : response) (calls : list tool_call) (call : tool_call)
    (args result : pyval) (first : reply) (others : list reply) (text : string) :
  let asked := input_messages w ++ [UserMessage user_input] in
  let w1 := mkWorld (token_file w) (stdin w) asked (trace w) in
  let history :=
    asked ++ [AssistantToolCalls "" calls;
              ToolMessage (fn_name call) (call_id call) (json_dumps E result)] in
  let w3 := mkWorld (token_file w2) (stdin w2) history (trace w2) in
  chat_completions_create E w1 asked = Returns r1 ->
  Agent.first_tool_request (choices r1) = Some (calls, call) ->
  json_loads E (or_else (fn_arguments call) "{}") = Returns args ->
  Agent.call_function E (fn_name call) args (emit (ChatCompletion asked) w1)
  = (Ok result, w2) ->
  chat_completions_create E w3 history = Returns r2 ->
  Agent.first_tool_request (choices r2) = None ->
  choices r2 = first :: others ->
  content first = Some text ->
  Agent.chat_with_agent E (S (S depth)) user_input w
  = (Ok text, emit (ChatCompletion history) w3)
  /\ hd_error calls = Some call
  /\ chats (trace (emit (ChatCompletion history) w3))
     = chats (trace w) ++ [asked; history].
Proof.
  intros asked w1 history w3 Hr1 Htool Hargs Hcall Hr2 Hplain Hchoices Htext.
  destruct (footprint_call_function E (fn_name call) args
              (emit (ChatCompletion asked) w1)) as (Hmsgs & evs & Htrace & _ & Hchats).
  rewrite Hcall in Hmsgs, Htrace. simpl in Hmsgs, Htrace.
  split; [|split].
  - unfold Agent.chat_with_agent.
    rewrite (bind_ok _ _ w tt w1) by reflexivity.
    rewrite (bind_ok _ _ w1 r1 (emit (ChatCompletion asked) w1))
      by (unfold Agent.create, external; simpl; fold asked; fold w1; now rewrite Hr1).
    simpl Agent.process_response. rewrite Htool.
    rewrite (bind_ok _ _ _ args (emit (ChatCompletion asked) w1))
      by (unfold of_result; now rewrite Hargs).
    rewrite (bind_ok _ _ _ result w2 Hcall).
    assert (Hw3 : mkWorld (token_file w2) (stdin w2)
                    ((input_messages w2 ++ [AssistantToolCalls "" calls])
                     ++ [ToolMessage (fn_name call) (call_id call) (json_dumps E result)])
                    (trace w2) = w3).
    { unfold w3, history. rewrite Hmsgs, <- app_assoc. reflexivity. }
    rewrite (bind_ok (Agent.append_message (AssistantToolCalls "" calls)) _ w2 tt _ eq_refl).
    rewrite (bind_ok (Agent.append_message _) _ _ tt _ eq_refl).
    simpl token_file. simpl stdin. simpl input_messages. simpl trace. rewrite Hw3.
    rewrite (bind_ok _ _ w3 r2 (emit (ChatCompletion history) w3))
      by (unfold Agent.create, external; simpl; now rewrite Hr2).
    rewrite Hplain, Hchoices, Htext. reflexivity.
  - exact (first_tool_request_head _ _ _ Htool).
  - simpl trace. rewrite Htrace, !chats_app, Hchats. cbn [chats app].
    rewrite app_nil_r, <- app_assoc. reflexivity.
Qed.

Lemma tool_round_witness :
  Agent.chat_with_agent Sample.calm 2 "What is on tomorrow?" (Sample.fresh [])
  = (Ok "Nothing tomorrow.",
     mkWorld (Some "token-1") []
       [SystemMessage "policy"; UserMessage "What is on tomorrow?";
        AssistantToolCalls "" [Sample.list_call; Sample.extra_call];
        ToolMessage "calendar_api_call" "call_1" "{'items': []}"]
       [ChatCompletion [SystemMessage "policy"; UserMessage "What is on tomorrow?"];
        PathExists "token.json"; ReadToken "token.json"; BuildClient;
        Request "events" "list" (PDict [("calendarId", PStr "primary")]);
        ChatCompletion
          [SystemMessage "policy"; UserMessage "What is on tomorrow?";
           AssistantToolCalls "" [Sample.list_call; Sample.extra_call];
           ToolMessage "calendar_api_call" "call_1" "{'items': []}"]]).
Proof.
  refine (proj1 (tool_round Sample.calm 0 "What is on tomorrow?" (Sample.fresh [])
                   (mkWorld (Some "token-1") []
                      [SystemMessage "policy"; UserMessage "What is on tomorrow?"]
                      [ChatCompletion
                         [SystemMessage "policy"; UserMessage "What is on tomorrow?"];
                       PathExists "token.json"; ReadToken "token.json"; BuildClient;
                       Request "events" "list" (PDict [("calendarId", PStr "primary")])])
                   (mkResponse [mkReply "assistant" None
                                  (Some [Sample.list_call; Sample.extra_call])])
                   (mkResponse [mkReply "assistant" (Some "Nothing tomorrow.") None])
                   [Sample.list_call; Sample.extra_call] Sample.list_call
                   Sample.list_args (PDict [("items", PList [])])
                   (mkReply "assistant" (Some "Nothing tomorrow.") None) []
                   "Nothing tomorrow." _ _ _ _ _ _ _ _));
    reflexivity.
Defined.

(** ** Remarks on the credential routine, the dispatcher and the loop *)

(** X2.  A stored credential that is still valid is used as it is: the
    routine checks that the token file exists, reads it and builds the client,
    with no refresh, no consent and no write. *)
Lemma valid_token_is_reused (E : env) (port : Z) (w : world) (data : string)
    (c : Credentials) :
  token_file w = Some data ->
  from_authorized_user_file E (emit (PathExists "token.json") w) data = Returns c ->
  valid c = true ->
  let w2 := emit (ReadToken "token.json") (emit (PathExists "token.json") w) in
  Gateway.get_calendar_service E port w
  = (match build E w2 c with
     | Returns _ => Ok (mkService c)
     | Raises e => Raise e
     end,
     emit BuildClient w2).
Proof.
  intros Htf Hload Hvalid w2.
  unfold Gateway.get_calendar_service, Gateway.load_saved, Gateway.token_exists,
    Gateway.load_token, bind, external, ret.
  rewrite Htf. simpl. rewrite Htf. simpl.
  change Gateway.GOOGLE_TOKEN_FILE with "token.json"%string.
  rewrite Hload. simpl. rewrite Hvalid. fold w2.
  destruct (build E w2 c); reflexivity.
Qed.

(** X3.  An expired credential with a refresh token is refreshed once and
    written once, whole, before the client is built; the consent flow is not
    run. *)
Lemma expired_token_is_refreshed (E : env) (port : Z) (w : world) (data : string)
    (c c' : Credentials) :
  token_file w = Some data ->
  from_authorized_user_file E (emit (PathExists "token.json") w) data = Returns c ->
  valid c = false -> expired c = true -> Gateway.has_refresh_token c = true ->
  let w2 := emit (ReadToken "token.json") (emit (PathExists "token.json") w) in
  refresh E w2 c = Returns c' ->
  let w4 := emit (Log INFO "🔄 Credentials refreshed.") (emit RefreshToken w2) in
  open_write E w4 "token.json" (to_json c') = Returns tt ->
  exists w6,
    trace w6 = trace w4 ++ [WriteFile "token.json" (to_json c');
                            Log INFO "✅ Credentials saved to token.json"]
    /\ token_file w6 = Some (to_json c')
    /\ Gateway.get_calendar_service E port w
       = (match build E w6 c' with
          | Returns _ => Ok (mkService c')
          | Raises e => Raise e
          end,
          emit BuildClient w6).
Proof.
  intros Htf Hload Hvalid Hexp Htok w2 Hrefresh w4 Hwrite.
  exists (emit (Log INFO "✅ Credentials saved to token.json")
            (emit (WriteFile "token.json" (to_json c'))
               (mkWorld (Some (to_json c')) (stdin w4) (input_messages w4) (trace w4)))).
  split; [|split]; cycle 2.
  - unfold Gateway.get_calendar_service, Gateway.load_saved, Gateway.token_exists,
      Gateway.load_token, Gateway.refresh_flow, Gateway._save_credentials,
      Gateway.write_token, bind, external, ret, log.
    rewrite Htf. simpl. rewrite Htf. simpl.
    change Gateway.GOOGLE_TOKEN_FILE with "token.json"%string.
    rewrite Hload. simpl. rewrite Hvalid, Hexp, Htok. simpl. fold w2.
    rewrite Hrefresh. simpl. fold w4. rewrite Hwrite. simpl.
    match goal with
    | |- context [build E ?w6 c'] => destruct (build E w6 c'); reflexivity
    end.
  - simpl. rewrite <- app_assoc. reflexivity.
  - reflexivity.
Qed.

Lemma valid_token_is_reused_witness :
  Gateway.get_calendar_service Sample.calm 0 (Sample.fresh [])
  = (Ok (mkService Sample.good_creds),
     mkWorld (Some "token-1") [] [SystemMessage "policy"]
       [PathExists "token.json"; ReadToken "token.json"; BuildClient]).
Proof.
  exact (valid_token_is_reused Sample.calm 0 (Sample.fresh []) "token-1" Sample.good_creds
           eq_refl eq_refl eq_refl).
Defined.

Lemma expired_token_is_refreshed_witness :
  exists w6,
    trace w6 = [PathExists "token.json"; ReadToken "token.json"; RefreshToken;
                Log INFO "🔄 Credentials refreshed.";
                WriteFile "token.json" "token-2";
                Log INFO "✅ Credentials saved to token.json"]
    /\ token_file w6 = Some "token-2"%string
    /\ Gateway.get_calendar_service Sample.stale 3001 (Sample.fresh [])
       = (Ok (mkService Sample.renewed_creds), emit BuildClient w6).
Proof.
  exact (expired_token_is_refreshed Sample.stale 3001 (Sample.fresh []) "token-1"
           Sample.stale_creds Sample.renewed_creds
           eq_refl eq_refl eq_refl eq_refl eq_refl eq_refl eq_refl).
Defined.

(** A name the dispatcher does not know gets an error value, and nothing
    else happens. *)
Lemma unknown_function (E : env) (name : string) (args : pyval) (w : world) :
  name <> "calendar_api_call"%string ->
  Agent.call_function E name args w
  = (Ok (PDict [("error", PStr ("Function '" ++ name ++ "' not implemented.")%string)]), w).
Proof.
  intros Hname. unfold Agent.call_function.
  apply String.eqb_neq in Hname. rewrite Hname. reflexivity.
Qed.

(** A reply in plain words ends the turn at once: one message appended, one
    invocation of the model, and the text of the first choice, or the empty
    string when it has none. *)
Lemma plain_reply (E : env) (depth : nat) (user_input : string) (w : world)
    (r : response) (first : reply) (others : list reply) :
  let asked := input_messages w ++ [UserMessage user_input] in
  let w1 := mkWorld (token_file w) (stdin w) asked (trace w) in
  chat_completions_create E w1 asked = Returns r ->
  Agent.first_tool_request (choices r) = None ->
  choices r = first :: others ->
  Agent.chat_with_agent E (S depth) user_input w
  = (Ok (match content first with Some text => text | None => ""%string end),
     emit (ChatCompletion asked) w1).
Proof.
  intros asked w1 Hr Hplain Hchoices.
  unfold Agent.chat_with_agent.
  rewrite (bind_ok _ _ w tt w1) by reflexivity.
  rewrite (bind_ok _ _ w1 r (emit (ChatCompletion asked) w1))
    by (unfold Agent.create, external; simpl; fold asked; fold w1; now rewrite Hr).
  simpl Agent.process_response. rewrite Hplain, Hchoices. reflexivity.
Qed.

(** ** The prompts of the menu *)

Section Prompts.

Lemma input_line prompt tf line rest msgs tr :
  input prompt (mkWorld tf (line :: rest) msgs tr)
  = (Ok line, emit (Input prompt) (mkWorld tf rest msgs tr)).
Proof. reflexivity. Qed.

Lemma prompt_emails_step tf line rest msgs tr :
  Menu.prompt_emails (mkWorld tf (line :: rest) msgs tr)
  = let w1 := emit (Input emails_prompt) (mkWorld tf rest msgs tr) in
    if (strip line =? "")%string then (Ok [], w1)
    else if forallb (re_match Menu.EMAIL_REGEX) (entries line)
         then (Ok (map Menu.attendee (entries line)), w1)
         else Menu.prompt_emails
                (emit (Log ERROR "One or more emails invalid. Please retry.") w1).
Proof.
  unfold Menu.prompt_emails. cbn [stdin List.length].
  change (Menu.prompt_emails_loop (S (S (List.length rest))))
    with (line0 <- input emails_prompt ;;
          let raw := strip line0 in
          if (raw =? "")%string then ret []
          else
            let parts := map strip (split "," raw) in
            if forallb (re_match Menu.EMAIL_REGEX) parts
            then ret (map Menu.attendee parts)
            else
              log ERROR "One or more emails invalid. Please retry." ;;
              Menu.prompt_emails_loop (S (List.length rest))).
  rewrite (bind_ok _ _ _ _ _ (input_line _ _ _ _ _ _)). cbv zeta.
  destruct (strip line =? "")%string; [reflexivity|].
  unfold entries. destruct (forallb _ _); reflexivity.
Qed.

Lemma prompt_emails_eof tf msgs tr :
  Menu.prompt_emails (mkWorld tf [] msgs tr)
  = (Raise (mkExn EOFError "EOF when reading a line"),
     emit (Input emails_prompt) (mkWorld tf [] msgs tr)).
Proof. reflexivity. Qed.

(** The attendee prompt answers for every input: it is never short of budget,
    it touches nothing but the input and the log, and a list it returns is
    empty or the whole list of one line whose entries are all valid. *)
Lemma prompt_emails_sound : forall lines tf msgs tr,
  let w := mkWorld tf lines msgs tr in
  settles (Menu.prompt_emails) w
  /\ quiet (Menu.prompt_emails) w
  /\ token_file (snd (Menu.prompt_emails w)) = tf
  /\ (forall l, fst (Menu.prompt_emails w) = Ok l ->
        l = [] \/ exists line, In line lines
                   /\ forallb (re_match Menu.EMAIL_REGEX) (entries line) = true
                   /\ l = map Menu.attendee (entries line)).
Proof.
  induction lines as [|line rest IH]; intros tf msgs tr w; subst w;
    unfold settles, footprint in *.
  - rewrite prompt_emails_eof. simpl.
    repeat split; try discriminate; try lia.
    exists [Input emails_prompt]. auto.
  - rewrite prompt_emails_step. cbv zeta.
    destruct (strip line =? "")%string.
    { simpl. repeat split; try discriminate; try lia.
      + exists [Input emails_prompt]. auto.
      + intros l H. inversion H. now left. }
    destruct (forallb _ (entries line)) eqn:Hall.
    { simpl. repeat split; try discriminate; try lia.
      + exists [Input emails_prompt]. auto.
      + intros l H. inversion H. right. exists line. simpl. auto. }
    change (emit (Log ERROR "One or more emails invalid. Please retry.")
              (emit (Input emails_prompt) (mkWorld tf rest msgs tr)))
      with (mkWorld tf rest msgs
              ((tr ++ [Input emails_prompt])
               ++ [Log ERROR "One or more emails invalid. Please retry."])).
    destruct (IH tf msgs ((tr ++ [Input emails_prompt])
                          ++ [Log ERROR "One or more emails invalid. Please retry."]))
      as ((Htot & Hlen) & (Hmsg & evs & Htr & Hreq & Hch) & Htf & Hret).
    repeat split; auto; try (simpl in *; lia).
    + exists ([Input emails_prompt; Log ERROR "One or more emails invalid. Please retry."]
              ++ evs).
      rewrite Htr, requests_app, chats_app, <- Hreq, Hch. simpl.
      rewrite <- !app_assoc. simpl. auto.
    + intros l H. destruct (Hret l H) as [->|(ln & Hin & Hok & ->)]; [now left|].
      right. exists ln. simpl. auto.
Qed.

Lemma world_eta w : w = mkWorld (token_file w) (stdin w) (input_messages w) (trace w).
Proof. destruct w; reflexivity. Qed.

Lemma quiet_prompt_emails w : quiet (Menu.prompt_emails) w.
Proof. rewrite (world_eta w). apply prompt_emails_sound. Qed.

End Prompts.

Lemma fromisoformat_cases s :
  (exists d, fromisoformat s = Ok d)
  \/ (exists e, fromisoformat s = Raise e /\ is_ValueError e = true).
Proof.
  unfold fromisoformat.
  destruct (date_shaped s); [|right; eexists; split; reflexivity].
  destruct (_ || _)%bool; [right; eexists; split; reflexivity|].
  destruct (_ || _)%bool; [right; eexists; split; reflexivity|].
  destruct (_ || _)%bool; [right; eexists; split; reflexivity|].
  left. eexists. reflexivity.
Qed.

Lemma prompt_date_step prompt tf line rest msgs tr :
  Menu.prompt_date prompt (mkWorld tf (line :: rest) msgs tr)
  = let w1 := emit (Input (date_prompt prompt)) (mkWorld tf rest msgs tr) in
    if re_match Menu.DATE_REGEX (strip line) then
      match fromisoformat (strip line) with
      | Ok d => (Ok (replace_tzinfo_utc d), w1)
      | _ => Menu.prompt_date prompt
               (emit (Log ERROR "Invalid date (out of range). Try again.") w1)
      end
    else Menu.prompt_date prompt
           (emit (Log ERROR "Wrong format. Please use YYYY-MM-DD.") w1).
Proof.
  unfold Menu.prompt_date. cbn [stdin List.length].
  change (Menu.prompt_date_loop (S (S (List.length rest))) prompt)
    with (line0 <- input (date_prompt prompt) ;;
          let s := strip line0 in
          if re_match Menu.DATE_REGEX s then
            try_except
              (d <- of_result (fromisoformat s) ;; ret (replace_tzinfo_utc d))
              is_ValueError
              (fun _ =>
                 log ERROR "Invalid date (out of range). Try again." ;;
                 Menu.prompt_date_loop (S (List.length rest)) prompt)
          else
            log ERROR "Wrong format. Please use YYYY-MM-DD." ;;
            Menu.prompt_date_loop (S (List.length rest)) prompt).
  rewrite (bind_ok _ _ _ _ _ (input_line _ _ _ _ _ _)). cbv zeta.
  destruct (re_match Menu.DATE_REGEX (strip line)); [|reflexivity].
  unfold try_except, bind, of_result, ret.
  destruct (fromisoformat_cases (strip line)) as [(d & ->)|(e & -> & ->)]; reflexivity.
Qed.

(** The date prompt answers for every input. *)
Lemma settles_prompt_date prompt : forall lines tf msgs tr,
  settles (Menu.prompt_date prompt) (mkWorld tf lines msgs tr).
Proof.
  unfold settles.
  induction lines as [|line rest IH]; intros tf msgs tr.
  - split; [discriminate | apply Nat.le_refl].
  - rewrite prompt_date_step. cbv zeta.
    assert (Hloop : forall w', stdin w' = rest ->
              fst (Menu.prompt_date prompt w') <> OutOfFuel
              /\ (List.length (stdin (snd (Menu.prompt_date prompt w')))
                  <= List.length (stdin (mkWorld tf (line :: rest) msgs tr)))%nat).
    { intros w' Hst. rewrite (world_eta w'), Hst.
      destruct (IH (token_file w') (input_messages w') (trace w')) as [H1 H2].
      split; [exact H1 | simpl in *; lia]. }
    destruct (re_match _ _); [|apply Hloop; reflexivity].
    destruct (fromisoformat _); try (apply Hloop; reflexivity).
    simpl. split; [discriminate | lia].
Qed.

(** ** Attendees *)

(** C8.  The e-mail pattern rejects ["bob@@x"] and ["bob"] and accepts
    ["bob@example.org"].  A line whose comma-separated entries all match
    makes [prompt_emails] return one attendee per entry, in the order of the
    line.  A line with an entry that does not match is answered by the error
    line and the prompt again, run on the lines that follow.  And whatever
    list [prompt_emails] returns is empty or the complete list of one line
    whose entries all match: never a part of one. *)
Theorem email_prompt :
  (re_match Menu.EMAIL_REGEX "bob@@x" = false
   /\ re_match Menu.EMAIL_REGEX "bob" = false
   /\ re_match Menu.EMAIL_REGEX "bob@example.org" = true)
  /\ (forall tf line rest msgs tr,
         strip line <> ""%string ->
         forallb (re_match Menu.EMAIL_REGEX) (entries line) = true ->
         Menu.prompt_emails (mkWorld tf (line :: rest) msgs tr)
         = (Ok (map (fun e => PDict [("email", PStr e)]) (entries line)),
            emit (Input emails_prompt) (mkWorld tf rest msgs tr))
         /\ List.length (map (fun e => PDict [("email", PStr e)]) (entries line))
            = List.length (split "," (strip line)))
  /\ (forall tf line rest msgs tr,
         strip line <> ""%string ->
         forallb (re_match Menu.EMAIL_REGEX) (entries line) = false ->
         Menu.prompt_emails (mkWorld tf (line :: rest) msgs tr)
         = Menu.prompt_emails
             (emit (Log ERROR "One or more emails invalid. Please retry.")
                (emit (Input emails_prompt) (mkWorld tf rest msgs tr))))
  /\ (forall w l,
         fst (Menu.prompt_emails w) = Ok l ->
         l = [] \/ exists line, In line (stdin w)
                    /\ forallb (re_match Menu.EMAIL_REGEX) (entries line) = true
                    /\ l = map (fun e => PDict [("email", PStr e)]) (entries line)).
Proof.
  split; [repeat split; vm_compute; reflexivity|].
  split; [|split].
  - intros tf line rest msgs tr Hraw Hall.
    rewrite prompt_emails_step. cbv zeta.
    apply String.eqb_neq in Hraw. rewrite Hraw, Hall.
    split; [reflexivity|]. unfold entries. now rewrite !length_map.
  - intros tf line rest msgs tr Hraw Hbad.
    rewrite prompt_emails_step. cbv zeta.
    apply String.eqb_neq in Hraw. rewrite Hraw, Hbad. reflexivity.
  - intros w l. rewrite (world_eta w). apply prompt_emails_sound.
Qed.

Lemma email_prompt_witness :
  Menu.prompt_emails (Sample.fresh ["bob@@x, a@b.c"; " a@b.c ,bob@example.org"; "x"])
  = (Ok [PDict [("email", PStr "a@b.c")]; PDict [("email", PStr "bob@example.org")]],
     mkWorld (Some "token-1") ["x"] [SystemMessage "policy"]
       [Input emails_prompt;
        Log ERROR "One or more emails invalid. Please retry.";
        Input emails_prompt]).
Proof.
  destruct email_prompt as (_ & Hgood & Hbad & _).
  unfold Sample.fresh.
  rewrite Hbad; [|vm_compute; discriminate | vm_compute; reflexivity].
  refine (proj1 (Hgood _ " a@b.c ,bob@example.org"%string _ _ _ _ _));
    [vm_compute; discriminate | vm_compute; reflexivity].
Defined.

(** ** Malformed input *)

Lemma insert_event_rejected (E : env) tf l1 l2 l3 l4 l5 rest msgs tr e :
  fromisoformat_astimezone_utc E (strip l3 ++ "T" ++ strip l4)%string = Raises e ->
  is_Exception e = true ->
  Menu.insert_event E (mkWorld tf (l1 :: l2 :: l3 :: l4 :: l5 :: rest) msgs tr)
  = (Ok tt,
     mkWorld tf rest msgs
       (tr ++ insert_prompts ++ [Log ERROR "Invalid date/time. Aborting insert."])).
Proof.
  intros Hparse He. unfold Menu.insert_event.
  do 5 (rewrite (bind_ok (input _) _ _ _ _ (input_line _ _ _ _ _ _)); cbv zeta;
        unfold emit at 1; cbn [token_file stdin input_messages trace]).
  unfold Menu.build_times, try_except, bind, of_result, of_outcome, log, ret.
  rewrite Hparse, He. unfold emit. simpl.
  rewrite <- !app_assoc. reflexivity.
Qed.

(** C5, as the code has it.  A date that fails the pattern or names no day
    makes [prompt_date] log the error and prompt again; an attendee line with
    an invalid entry makes [prompt_emails] do the same; in both cases the run
    goes on as the prompt does on the lines that follow.  In [insert_event]
    the date and the start time are not prompted again: when they cannot be
    read, the error is caught, one line is logged and the insert ends
    normally, with nothing sent and the next line left unread. *)
Theorem malformed_input_handling (E : env) (tf : option string) (rest : list string)
    (msgs : list message) (tr : list effect) :
  (forall prompt line,
      re_match Menu.DATE_REGEX (strip line) = false ->
      Menu.prompt_date prompt (mkWorld tf (line :: rest) msgs tr)
      = Menu.prompt_date prompt
          (emit (Log ERROR "Wrong format. Please use YYYY-MM-DD.")
             (emit (Input (date_prompt prompt)) (mkWorld tf rest msgs tr))))
  /\ (forall prompt line e,
         re_match Menu.DATE_REGEX (strip line) = true ->
         fromisoformat (strip line) = Raise e ->
         Menu.prompt_date prompt (mkWorld tf (line :: rest) msgs tr)
         = Menu.prompt_date prompt
             (emit (Log ERROR "Invalid date (out of range). Try again.")
                (emit (Input (date_prompt prompt)) (mkWorld tf rest msgs tr))))
  /\ (forall line,
         strip line <> ""%string ->
         forallb (re_match Menu.EMAIL_REGEX) (entries line) = false ->
         Menu.prompt_emails (mkWorld tf (line :: rest) msgs tr)
         = Menu.prompt_emails
             (emit (Log ERROR "One or more emails invalid. Please retry.")
                (emit (Input emails_prompt) (mkWorld tf rest msgs tr))))
  /\ (forall l1 l2 l3 l4 l5 e,
         fromisoformat_astimezone_utc E (strip l3 ++ "T" ++ strip l4)%string = Raises e ->
         is_Exception e = true ->
         Menu.insert_event E (mkWorld tf (l1 :: l2 :: l3 :: l4 :: l5 :: rest) msgs tr)
         = (Ok tt,
            mkWorld tf rest msgs
              (tr ++ insert_prompts
                  ++ [Log ERROR "Invalid date/time. Aborting insert."]))).
Proof.
  split; [|split; [|split]].
  - intros prompt line Hbad. rewrite prompt_date_step. cbv zeta.
    now rewrite Hbad.
  - intros prompt line e Hshape Hrange. rewrite prompt_date_step. cbv zeta.
    now rewrite Hshape, Hrange.
  - intros line Hraw Hbad. rewrite prompt_emails_step. cbv zeta.
    apply String.eqb_neq in Hraw. now rewrite Hraw, Hbad.
  - intros l1 l2 l3 l4 l5 e. apply insert_event_rejected.
Qed.

Lemma malformed_input_handling_witness :
  Menu.prompt_date "Enter date to fetch"
    (Sample.fresh ["06/07/2025"; "2025-02-30"; "2025-07-06"])
  = (Ok (mkDatetime 2025 7 6 0 0 0 0 true),
     mkWorld (Some "token-1") [] [SystemMessage "policy"]
       [Input "Enter date to fetch (YYYY-MM-DD): ";
        Log ERROR "Wrong format. Please use YYYY-MM-DD.";
        Input "Enter date to fetch (YYYY-MM-DD): ";
        Log ERROR "Invalid date (out of range). Try again.";
        Input "Enter date to fetch (YYYY-MM-DD): "])
  /\ Menu.prompt_emails (Sample.fresh ["bob"; ""])
     = (Ok [],
        mkWorld (Some "token-1") [] [SystemMessage "policy"]
          [Input emails_prompt;
           Log ERROR "One or more emails invalid. Please retry.";
           Input emails_prompt])
  /\ Menu.insert_event Sample.calm
       (Sample.fresh ["Standup"; ""; "2025-07-06"; "25:61"; ""; "fetch"])
     = (Ok tt,
        mkWorld (Some "token-1") ["fetch"] [SystemMessage "policy"]
          (insert_prompts ++ [Log ERROR "Invalid date/time. Aborting insert."])).
Proof.
  split; [|split].
  - destruct (malformed_input_handling Sample.calm (Some "token-1")
                ["2025-02-30"; "2025-07-06"]%string [SystemMessage "policy"] [])
      as (Hformat & _).
    unfold Sample.fresh. rewrite Hformat by (vm_compute; reflexivity).
    destruct (malformed_input_handling Sample.calm (Some "token-1")
                ["2025-07-06"]%string [SystemMessage "policy"]
                [Input "Enter date to fetch (YYYY-MM-DD): ";
                 Log ERROR "Wrong format. Please use YYYY-MM-DD."])
      as (_ & Hrange & _).
    change (emit _ (emit _ _))
      with (mkWorld (Some "token-1") ["2025-02-30"; "2025-07-06"]%string
              [SystemMessage "policy"]
              [Input "Enter date to fetch (YYYY-MM-DD): ";
               Log ERROR "Wrong format. Please use YYYY-MM-DD."]).
    rewrite (Hrange _ _ (mkExn ValueError "day is out of range for month"))
      by (vm_compute; reflexivity).
    reflexivity.
  - destruct (malformed_input_handling Sample.calm (Some "token-1")
                [""]%string [SystemMessage "policy"] [])
      as (_ & _ & Hmail & _).
    unfold Sample.fresh.
    rewrite Hmail; [reflexivity | vm_compute; discriminate | vm_compute; reflexivity].
  - destruct (malformed_input_handling Sample.calm (Some "token-1")
                ["fetch"]%string [SystemMessage "policy"] [])
      as (_ & _ & _ & Hinsert).
    apply (Hinsert _ _ _ _ _ (mkExn ValueError "Invalid isoformat string"));
      reflexivity.
Defined.

(** C5, as the claim words it, fails: a malformed date, or a malformed time,
    ends the insert.  The attendee line that follows is left unread, no date
    or time is asked again, and nothing reaches the calendar. *)
Lemma malformed_date_abandons_insert :
  Menu.insert_event Sample.calm
    (Sample.fresh ["Standup"; ""; "2025-13-40"; "10:00"; ""; "bob@example.org"])
  = (Ok tt,
     mkWorld (Some "token-1") ["bob@example.org"] [SystemMessage "policy"]
       [Input "Title: "; Input "Description (optional): ";
        Input "Date (YYYY-MM-DD): "; Input "Start time (HH:MM, 24h): ";
        Input "Time zone (e.g. America/Los_Angeles): ";
        Log ERROR "Invalid date/time. Aborting insert."])
  /\ Menu.insert_event Sample.calm
       (Sample.fresh ["Standup"; ""; "2025-07-06"; "ten"; ""; "bob@example.org"])
     = (Ok tt,
        mkWorld (Some "token-1") ["bob@example.org"] [SystemMessage "policy"]
          [Input "Title: "; Input "Description (optional): ";
           Input "Date (YYYY-MM-DD): "; Input "Start time (HH:MM, 24h): ";
           Input "Time zone (e.g. America/Los_Angeles): ";
           Log ERROR "Invalid date/time. Aborting insert."]).
Proof. split; reflexivity. Qed.

(** ** Fetching a day *)

Section Fetch.

Variable E : env.

Lemma quiet_print_event ev w : quiet (Menu.print_event E ev) w.
Proof. unfold Menu.print_event. quiet_steps. Qed.

Lemma quiet_for_each (body : pyval -> M unit) :
  (forall ev w, quiet (body ev) w) ->
  forall items w, quiet (Menu.for_each items body) w.
Proof.
  intros Hbody. induction items as [|ev rest IH]; intros w; simpl.
  - apply quiet_ret.
  - apply footprint_bind_quiet; [apply Hbody | reflexivity | intros _ w1 _; apply IH].
Qed.

Lemma fetch_unfold date_dt next :
  add date_dt (timedelta_days 1) = Ok next ->
  Menu.fetch_events_for_date E date_dt
  = (result <- Menu.calendar_api_call E (PStr "events") (PStr "list")
                 (Menu.list_params (isoformat date_dt) (isoformat next)) ;;
     report_events E date_dt result).
Proof.
  intros Hadd. unfold Menu.fetch_events_for_date, report_events.
  rewrite Hadd. reflexivity.
Qed.

Lemma quiet_report_events date_dt result w : quiet (report_events E date_dt result) w.
Proof.
  unfold report_events.
  apply footprint_bind_quiet; [apply quiet_of_result | reflexivity | intros items w1 _].
  destruct (negb (truthy items)); [apply quiet_log|].
  apply footprint_bind_quiet; [apply quiet_log | reflexivity | intros _ w2 _].
  apply footprint_bind_quiet; [apply quiet_of_result | reflexivity | intros evs w3 _].
  apply quiet_for_each. apply quiet_print_event.
Qed.

(** On a day that has a next day, the fetch sends nothing or the one [list]
    request whose window runs from the midnight of the day to the next
    midnight, 86400 seconds later, in the same zone. *)
Lemma fetch_window date_dt next w :
  hour date_dt = 0%Z -> minute date_dt = 0%Z ->
  second date_dt = 0%Z -> microsecond date_dt = 0%Z ->
  add date_dt (timedelta_days 1) = Ok next ->
  footprint
    (fun sent =>
       sent = []
       \/ sent = [("events", "list",
                   Menu.list_params (isoformat date_dt) (isoformat next))]%string)
    (Menu.fetch_events_for_date E date_dt) w
  /\ toordinal next = (toordinal date_dt + 1)%Z
  /\ hour next = 0%Z /\ minute next = 0%Z /\ second next = 0%Z
  /\ microsecond next = 0%Z /\ utc next = utc date_dt.
Proof.
  intros Hh Hm Hs Hu Hadd.
  destruct (add_days_midnight _ _ _ Hh Hm Hs Hu Hadd) as (H1 & H2 & H3 & H4 & H5).
  split; [|repeat split; auto; eapply add_keeps_zone; eassumption].
  rewrite (fetch_unfold _ _ Hadd).
  apply footprint_then_quiet; [|intros; apply quiet_report_events].
  eapply footprint_weaken; [|apply footprint_gateway].
  intros l [->|(r & m & Hr & Hmeth & ->)]; [now left|].
  inversion Hr; inversion Hmeth; subst. now right.
Qed.

End Fetch.

(** What [fetch_events_for_date] does once the gateway has answered with a
    mapping that has no items to show. *)
Lemma fetch_reports_nothing (E : env) (date_dt next : datetime)
    (result : kwargs) (w w' : world) :
  add date_dt (timedelta_days 1) = Ok next ->
  Menu.calendar_api_call E (PStr "events") (PStr "list")
    (Menu.list_params (isoformat date_dt) (isoformat next)) w
  = (Ok (PDict result), w') ->
  (has_key "error" result = true /\ has_key "items" result = false)
  \/ lookup "items" result = Some (PList []) ->
  Menu.fetch_events_for_date E date_dt w
  = (Ok tt, emit (Log INFO ("No events found on " ++ date_str date_dt ++ ".")%string) w').
Proof.
  intros Hadd Hcall Hresult.
  rewrite (fetch_unfold E _ _ Hadd), (bind_ok _ _ _ _ _ Hcall).
  unfold report_events, bind, of_result, get, log. unfold has_key in Hresult.
  destruct Hresult as [[_ Hnone] | ->]; [|reflexivity].
  destruct (lookup "items" result); [discriminate | reflexivity].
Qed.

(** C9, as the code has it.  When the gateway answers the [list] call of a
    fetch with an error mapping, which has the key ["error"] and no key
    ["items"], [fetch_events_for_date] does what it does for an empty list of
    items: it logs the one line "No events found on <date>." and returns.  It
    adds nothing that tells the two apart; but when the call has failed, the
    handler of the gateway has logged its error line first, so that line
    stands before the other in what the user reads. *)
Theorem failed_list_reads_as_empty (E : env) (date_dt next : datetime) (w : world) :
  add date_dt (timedelta_days 1) = Ok next ->
  (forall result w',
      Menu.calendar_api_call E (PStr "events") (PStr "list")
        (Menu.list_params (isoformat date_dt) (isoformat next)) w
      = (Ok (PDict result), w') ->
      (has_key "error" result = true /\ has_key "items" result = false)
      \/ lookup "items" result = Some (PList []) ->
      Menu.fetch_events_for_date E date_dt w
      = (Ok tt,
         emit (Log INFO ("No events found on " ++ date_str date_dt ++ ".")%string) w'))
  /\ (forall e w1,
         Gateway.api_request E 0 (PStr "events") (PStr "list")
           (Menu.list_params (isoformat date_dt) (isoformat next)) w
         = (Raise e, w1) ->
         is_Exception e = true ->
         Menu.fetch_events_for_date E date_dt w
         = (Ok tt,
            emit (Log INFO ("No events found on " ++ date_str date_dt ++ ".")%string)
              (emit (Log ERROR ("❌ Calendar API error: " ++ exn_str e)%string) w1))).
Proof.
  intros Hadd. split.
  - intros result w' Hcall Hresult.
    exact (fetch_reports_nothing E _ _ _ _ _ Hadd Hcall Hresult).
  - intros e w1 Hfail He.
    apply (fetch_reports_nothing E _ next [("error", PStr (exn_str e))] w _ Hadd).
    + destruct (gateway_catches E Menu.ALLOWED_METHODS 0 "events" "list"
                  (Menu.list_params (isoformat date_dt) (isoformat next)) w)
        as (Hcaught & _); [simpl; auto | simpl; auto |].
      exact (Hcaught e w1 Hfail He).
    + left. split; reflexivity.
Qed.

Lemma failed_list_reads_as_empty_witness :
  Menu.fetch_events_for_date Sample.offline (mkDatetime 2025 7 6 0 0 0 0 true)
    (Sample.fresh [])
  = (Ok tt,
     mkWorld (Some "token-1") [] [SystemMessage "policy"]
       [PathExists "token.json"; ReadToken "token.json"; BuildClient;
        Request "events" "list" Sample.window;
        Log ERROR "❌ Calendar API error: Unable to find the server at www.googleapis.com";
        Log INFO "No events found on 2025-07-06."])
  /\ Menu.fetch_events_for_date Sample.calm (mkDatetime 2025 7 6 0 0 0 0 true)
       (Sample.fresh [])
     = (Ok tt,
        mkWorld (Some "token-1") [] [SystemMessage "policy"]
          [PathExists "token.json"; ReadToken "token.json"; BuildClient;
           Request "events" "list" Sample.window;
           Log INFO "No events found on 2025-07-06."]).
Proof.
  split.
  - exact (proj2 (failed_list_reads_as_empty Sample.offline
                    (mkDatetime 2025 7 6 0 0 0 0 true) (mkDatetime 2025 7 7 0 0 0 0 true)
                    (Sample.fresh []) eq_refl)
             (mkExn (LibraryError "ServerNotFoundError")
                "Unable to find the server at www.googleapis.com")
             (mkWorld (Some "token-1") [] [SystemMessage "policy"]
                [PathExists "token.json"; ReadToken "token.json"; BuildClient;
                 Request "events" "list" Sample.window])
             eq_refl eq_refl).
  - exact (proj1 (failed_list_reads_as_empty Sample.calm
                    (mkDatetime 2025 7 6 0 0 0 0 true) (mkDatetime 2025 7 7 0 0 0 0 true)
                    (Sample.fresh []) eq_refl)
             [("items", PList [])]
             (mkWorld (Some "token-1") [] [SystemMessage "policy"]
                [PathExists "token.json"; ReadToken "token.json"; BuildClient;
                 Request "events" "list" Sample.window])
             eq_refl (or_intror eq_refl)).
Defined.

(** C9, as the claim words it, fails: on the same day and from the same
    state, what the user reads after a fetch whose [list] call failed is not
    what the user reads after a fetch on an empty day. *)
Lemma failed_list_is_logged :
  logged (trace (snd (Menu.fetch_events_for_date Sample.offline
                        (mkDatetime 2025 7 6 0 0 0 0 true) (Sample.fresh []))))
  = [(ERROR, "❌ Calendar API error: Unable to find the server at www.googleapis.com");
     (INFO, "No events found on 2025-07-06.")]
  /\ logged (trace (snd (Menu.fetch_events_for_date Sample.calm
                           (mkDatetime 2025 7 6 0 0 0 0 true) (Sample.fresh []))))
     = [(INFO, "No events found on 2025-07-06.")].
Proof. split; reflexivity. Qed.

(** C6, at the last day of the calendar.  The date prompt accepts
    [9999-12-31]; [fetch_events_for_date] then raises [OverflowError] while it
    computes the end of the window, before the gateway is called; and [main]
    has no handler for it, so the [fetch] command ends the program with no
    [list] call and no message about events. *)
Theorem fetch_last_day_overflows (E : env) (tf : option string) (rest : list string)
    (msgs : list message) (tr : list effect) :
  Menu.prompt_date "Enter date to fetch" (mkWorld tf ("9999-12-31" :: rest)%string msgs tr)
  = (Ok (mkDatetime 9999 12 31 0 0 0 0 true),
     mkWorld tf rest msgs (tr ++ [Input "Enter date to fetch (YYYY-MM-DD): "]))
  /\ (forall w,
         Menu.fetch_events_for_date E (mkDatetime 9999 12 31 0 0 0 0 true) w
         = (Raise (mkExn OverflowError "date value out of range"), w))
  /\ Menu.main E (mkWorld tf ("fetch" :: "9999-12-31" :: rest)%string msgs tr)
     = (Raise (mkExn OverflowError "date value out of range"),
        mkWorld tf rest msgs
          (tr ++ [Log INFO "=== Google Calendar CLI ===";
                  Input (String "010" "Choose action [fetch/insert/exit]: ");
                  Input "Enter date to fetch (YYYY-MM-DD): "])).
Proof.
  split; [reflexivity|]. split; [reflexivity|].
  unfold Menu.main. rewrite (bind_ok (log _ _) _ _ tt _ eq_refl).
  cbv beta. unfold emit. cbn [stdin List.length token_file input_messages trace].
  change (Menu.main_loop E (S (S (S (List.length rest)))))
    with (line <- input (String "010" "Choose action [fetch/insert/exit]: ") ;;
          let cmd := lower (strip line) in
          if (cmd =? "fetch")%string then
            date_dt <- Menu.prompt_date "Enter date to fetch" ;;
            Menu.fetch_events_for_date E date_dt ;;
            Menu.main_loop E (S (S (List.length rest)))
          else if (cmd =? "insert")%string then
            Menu.insert_event E ;;
            Menu.main_loop E (S (S (List.length rest)))
          else if str_in cmd ["exit"; "quit"]%string then log INFO "👋 Goodbye."
          else
            log ERROR "Unknown command. Choose fetch, insert, or exit." ;;
            Menu.main_loop E (S (S (List.length rest)))).
  rewrite (bind_ok _ _ _ _ _ (input_line _ _ _ _ _ _)).
  cbv beta zeta.
  change (lower (strip "fetch") =? "fetch")%string with true. cbv iota.
  unfold emit. cbn [stdin token_file input_messages trace].
  rewrite (bind_ok (Menu.prompt_date _) _ _ (mkDatetime 9999 12 31 0 0 0 0 true)
             (mkWorld tf rest msgs
                (((tr ++ [Log INFO "=== Google Calendar CLI ==="])
                  ++ [Input (String "010" "Choose action [fetch/insert/exit]: ")])
                 ++ [Input "Enter date to fetch (YYYY-MM-DD): "])))
    by reflexivity.
  erewrite (bind_raise (Menu.fetch_events_for_date E (mkDatetime 9999 12 31 0 0 0 0 true)))
    by reflexivity.
  rewrite <- !app_assoc. reflexivity.
Qed.

(** ** The days the date prompt lets through *)

Lemma fromisoformat_midnight s d :
  fromisoformat s = Ok d -> calendar_midnight d /\ utc d = false.
Proof.
  unfold fromisoformat, calendar_midnight.
  destruct (date_shaped s); [|discriminate]. cbv zeta.
  set (y := int_of_digits (substring 0 4 s)).
  set (m := int_of_digits (substring 5 2 s)).
  set (dd := int_of_digits (substring 8 2 s)).
  destruct ((y <? MINYEAR) || (MAXYEAR <? y))%bool eqn:Hy; [discriminate|].
  destruct ((m <? 1) || (12 <? m))%bool eqn:Hm; [discriminate|].
  destruct ((dd <? 1) || (days_in_month y m <? dd))%bool eqn:Hd; [discriminate|].
  intros H. injection H as <-. simpl.
  apply orb_false_iff in Hy, Hm, Hd.
  destruct Hy as [Hy1 Hy2], Hm as [Hm1 Hm2], Hd as [Hd1 Hd2].
  apply Z.ltb_ge in Hy1, Hy2, Hm1, Hm2, Hd1, Hd2.
  repeat split; auto.
Qed.

Lemma days_before_year_bounds y :
  (1 <= y <= 9999)%Z ->
  (0 <= days_before_year y)%Z
  /\ (y <= 9998 -> days_before_year y + 366 <= 3651695)%Z
  /\ (y = 9999 -> days_before_year y = 3651694)%Z.
Proof.
  intros Hy. unfold days_before_year. cbv zeta.
  repeat split.
  - Z.div_mod_to_equations. lia.
  - intros Hle. Z.div_mod_to_equations. lia.
  - intros ->. reflexivity.
Qed.

Lemma is_leap_9999 : is_leap 9999 = false.
Proof. reflexivity. Qed.

(** Within a year, a day of the calendar is at most its 366th, and the 365th
    of a common year is 31 December. *)
Lemma day_of_year_bounds y m d :
  (1 <= m <= 12)%Z -> (1 <= d <= days_in_month y m)%Z ->
  (1 <= days_before_month y m + d <= 366)%Z
  /\ (is_leap y = false ->
      (days_before_month y m + d <= 365)%Z
      /\ (days_before_month y m + d = 365 -> m = 12 /\ d = 31)%Z).
Proof.
  intros Hm Hd.
  assert (Hcases : (m = 1 \/ m = 2 \/ m = 3 \/ m = 4 \/ m = 5 \/ m = 6 \/ m = 7
                    \/ m = 8 \/ m = 9 \/ m = 10 \/ m = 11 \/ m = 12)%Z) by lia.
  unfold days_before_month, days_in_month in *.
  repeat (destruct Hcases as [->|Hcases]); try subst m;
    repeat match goal with
      | |- context [DAYS_BEFORE_MONTH ?k] =>
          let v := eval vm_compute in (DAYS_BEFORE_MONTH k) in
          change (DAYS_BEFORE_MONTH k) with v
      | |- context [(?a <? ?b)%Z] =>
          let v := eval vm_compute in (a <? b)%Z in change (a <? b)%Z with v
      | H : context [(?a =? ?b)%Z] |- _ =>
          let v := eval vm_compute in (a =? b)%Z in change (a =? b)%Z with v in H
      end;
    cbn [andb orb] in *;
    destruct (is_leap y); repeat split; intros; try discriminate; lia.
Qed.

(** The days run from 1 to [MAXORDINAL], and only 9999-12-31 is the last. *)
Lemma toordinal_bounds d :
  calendar_midnight d ->
  (1 <= toordinal d <= MAXORDINAL)%Z
  /\ (toordinal d = MAXORDINAL -> year d = 9999 /\ month d = 12 /\ day d = 31)%Z.
Proof.
  intros (Hy & Hm & Hd & _). unfold MINYEAR, MAXYEAR in Hy.
  unfold toordinal, ymd2ord, MAXORDINAL.
  destruct (days_before_year_bounds (year d) Hy) as (H0 & Hlow & Htop).
  destruct (day_of_year_bounds (year d) (month d) (day d) Hm Hd) as (Hdoy & Hcommon).
  destruct (Z.eq_dec (year d) 9999) as [E9|N9].
  - specialize (Htop E9). rewrite E9 in Hcommon.
    destruct (Hcommon is_leap_9999) as (Hle & Hlast).
    rewrite E9 in *. split; [lia|]. intros Heq.
    destruct Hlast as [-> ->]; [lia|]. auto.
  - assert (Hle : (year d <= 9998)%Z) by lia. specialize (Hlow Hle).
    split; [lia|]. intros Heq. exfalso. lia.
Qed.

(** The next midnight exists for every day the prompt lets through but the
    last of the calendar, and for that one it does not. *)
Lemma next_day_exists d :
  calendar_midnight d ->
  (exists next, add d (timedelta_days 1) = Ok next)
  <-> ~ (year d = 9999 /\ month d = 12 /\ day d = 31)%Z.
Proof.
  intros Hd. destruct (toordinal_bounds d Hd) as (Hrange & Hlast).
  destruct Hd as (_ & _ & _ & Hh & Hmi & Hs & Hu).
  unfold add, to_micros, timedelta_days. rewrite Hh, Hmi, Hs, Hu.
  replace ((((toordinal d * 24 + 0) * 60 + 0) * 60 + 0) * US_PER_SECOND + 0
           + 1 * US_PER_DAY)%Z
    with ((toordinal d + 1) * US_PER_DAY)%Z by (unfold US_PER_DAY; lia).
  rewrite Z.div_mul by (unfold US_PER_DAY, US_PER_SECOND; lia).
  destruct (Z.eq_dec (toordinal d) MAXORDINAL) as [Heq|Hne].
  - rewrite Heq. replace ((0 <? MAXORDINAL + 1) && (MAXORDINAL + 1 <=? MAXORDINAL))%Z
      with false by reflexivity.
    split; [intros (next & H); discriminate | intros H; exfalso; auto].
  - assert (Hok : ((0 <? toordinal d + 1) && (toordinal d + 1 <=? MAXORDINAL))%Z = true).
    { apply andb_true_iff. split; [apply Z.ltb_lt | apply Z.leb_le]; lia. }
    rewrite Hok. destruct (ord2ymd _) as [[y m] dd].
    split; [|intros _; eexists; reflexivity].
    intros _ (Hy & Hm & Hdd). apply Hne.
    unfold toordinal. rewrite Hy, Hm, Hdd. reflexivity.
Qed.



(** ** Inserting an event *)

Lemma input_ok prompt w line w1 :
  input prompt w = (Ok line, w1) -> exists rest, stdin w = line :: rest.
Proof.
  unfold input. destruct (stdin w) as [|l rest]; [discriminate|].
  intros H. inversion H. eauto.
Qed.

Lemma build_times_ok (E : env) date_str time_str w dt_start dt_end w1 :
  try_except (t <- Menu.build_times E date_str time_str ;; ret (Some t)) is_Exception
    (fun _ => log ERROR "Invalid date/time. Aborting insert." ;; ret None) w
  = (Ok (Some (dt_start, dt_end)), w1) ->
  add dt_start (timedelta_hours 1) = Ok dt_end.
Proof.
  unfold try_except, Menu.build_times, bind, of_result, of_outcome, log, ret.
  destruct (fromisoformat_astimezone_utc E _) as [s|e].
  - destruct (add s (timedelta_hours 1)) as [e'|ex|] eqn:Hadd.
    + intros H. inversion H. subst. exact Hadd.
    + destruct (is_Exception ex); discriminate.
    + discriminate.
  - destruct (is_Exception e); discriminate.
Qed.

Lemma build_times_run (E : env) date_str time_str w dt_start dt_end w1 :
  try_except (t <- Menu.build_times E date_str time_str ;; ret (Some t)) is_Exception
    (fun _ => log ERROR "Invalid date/time. Aborting insert." ;; ret None) w
  = (Ok (Some (dt_start, dt_end)), w1) ->
  fromisoformat_astimezone_utc E (date_str ++ "T" ++ time_str)%string = Returns dt_start
  /\ add dt_start (timedelta_hours 1) = Ok dt_end
  /\ w1 = w.
Proof.
  unfold try_except, Menu.build_times, bind, of_result, of_outcome, log, ret.
  destruct (fromisoformat_astimezone_utc E _) as [s|e].
  - destruct (add s (timedelta_hours 1)) as [e'|ex|] eqn:Hadd.
    + intros H. inversion H. subst. auto.
    + destruct (is_Exception ex); discriminate.
    + discriminate.
  - destruct (is_Exception e); discriminate.
Qed.

Lemma quiet_build_times (E : env) date_str time_str w :
  quiet
    (try_except (t <- Menu.build_times E date_str time_str ;; ret (Some t)) is_Exception
       (fun _ => log ERROR "Invalid date/time. Aborting insert." ;; ret None)) w.
Proof.
  apply footprint_try; [unfold Menu.build_times | intros e w1 _]; quiet_steps.
Qed.

(** What is left of [insert_event] once its five lines are read. *)
Lemma insert_event_reads_five (E : env) tf l1 l2 l3 l4 l5 rest msgs tr :
  exists tail : M unit,
    Menu.insert_event E (mkWorld tf (l1 :: l2 :: l3 :: l4 :: l5 :: rest) msgs tr)
    = tail (mkWorld tf rest msgs (tr ++ insert_prompts))
    /\ forall w5,
         tail w5
         = (times <- try_except
                       (t <- Menu.build_times E (strip l3) (strip l4) ;; ret (Some t))
                       is_Exception
                       (fun _ => log ERROR "Invalid date/time. Aborting insert." ;;
                                 ret None) ;;
            match times with
            | None => ret tt
            | Some (dt_start, dt_end) =>
                attendees <- Menu.prompt_emails ;;
                resp <- Menu.calendar_api_call E (PStr "events") (PStr "insert")
                          (PDict [("calendarId", PStr "primary");
                                  ("body",
                                   Menu.event_body (or_else (strip l1) "No Title")
                                     (strip l2) (or_else (strip l5) "UTC")
                                     dt_start dt_end attendees)]) ;;
                id <- of_result (get resp "id" PNone) ;;
                if truthy id then
                  link <- of_result (subscript resp "htmlLink") ;;
                  log INFO ("✅ Event created: " ++ py_str E link)%string
                else log ERROR ("Failed to create event: " ++ py_str E resp)%string
            end) w5.
Proof.
  eexists. split; [|intros w5; reflexivity].
  unfold Menu.insert_event.
  do 5 (rewrite (bind_ok (input _) _ _ _ _ (input_line _ _ _ _ _ _)); cbv zeta;
        unfold emit at 1; cbn [token_file stdin input_messages trace]).
  unfold insert_prompts. rewrite <- !app_assoc. reflexivity.
Qed.



(** ** The menu never runs short of budget *)

Section MenuSettles.

Variable E : env.

Lemma settles_stdin {A} (c : M A) w r w1 :
  settles c w -> c w = (r, w1) -> (List.length (stdin w1) <= List.length (stdin w))%nat.
Proof. intros [_ H] Hc. now rewrite Hc in H. Qed.

Lemma get_settles v k d : get v k d <> OutOfFuel.
Proof. destruct v; discriminate. Qed.

Lemma subscript_settles v k : subscript v k <> OutOfFuel.
Proof. destruct v; simpl; try discriminate. destruct (lookup k d); discriminate. Qed.

Lemma iterate_settles v : iterate v <> OutOfFuel.
Proof. destruct v; discriminate. Qed.

Lemma add_settles d delta : add d delta <> OutOfFuel.
Proof.
  unfold add. destruct (_ && _)%bool; [|discriminate].
  destruct (ord2ymd _) as [[y m] dd]. discriminate.
Qed.

Lemma of_outcome_settles {A} (o : outcome A) : of_outcome o <> OutOfFuel.
Proof. destruct o; discriminate. Qed.

Lemma settles_prompt_emails w : settles Menu.prompt_emails w.
Proof. rewrite (world_eta w). apply prompt_emails_sound. Qed.

Lemma settles_prompt_date_any prompt w : settles (Menu.prompt_date prompt) w.
Proof. rewrite (world_eta w). apply settles_prompt_date. Qed.

Lemma settles_print_event ev w : settles (Menu.print_event E ev) w.
Proof.
  unfold Menu.print_event.
  repeat first
    [ apply settles_of_result; first [apply get_settles | apply subscript_settles]
    | progress settles_steps ].
Qed.

Lemma settles_for_each (body : pyval -> M unit) :
  (forall ev w, settles (body ev) w) ->
  forall items w, settles (Menu.for_each items body) w.
Proof.
  intros Hbody. induction items as [|ev rest IH]; intros w; simpl.
  - apply settles_ret.
  - apply settles_bind; [apply Hbody | intros _ w1 _; apply IH].
Qed.

Lemma settles_fetch date_dt w : settles (Menu.fetch_events_for_date E date_dt) w.
Proof.
  unfold Menu.fetch_events_for_date. cbv zeta.
  apply settles_bind; [apply settles_of_result, add_settles | intros next w1 _].
  apply settles_bind; [apply settles_gateway | intros result w2 _].
  apply settles_bind; [apply settles_of_result, get_settles | intros items w3 _].
  destruct (negb (truthy items)); [apply settles_log|].
  apply settles_bind; [apply settles_log | intros _ w4 _].
  apply settles_bind; [apply settles_of_result, iterate_settles | intros evs w5 _].
  apply settles_for_each. apply settles_print_event.
Qed.

Lemma settles_insert w : settles (Menu.insert_event E) w.
Proof.
  unfold Menu.insert_event.
  do 5 (apply settles_bind; [apply settles_input | intros ? ? _]; cbv zeta).
  apply settles_bind.
  - apply settles_try; [|intros; settles_steps].
    apply settles_bind; [|intros; apply settles_ret].
    unfold Menu.build_times.
    apply settles_bind; [apply settles_of_result, of_outcome_settles | intros s w6 _].
    apply settles_bind; [apply settles_of_result, add_settles | intros; apply settles_ret].
  - intros times w6 _. destruct times as [[dt_start dt_end]|]; [|apply settles_ret].
    apply settles_bind; [apply settles_prompt_emails | intros attendees w7 _].
    apply settles_bind; [apply settles_gateway | intros resp w8 _].
    apply settles_bind; [apply settles_of_result, get_settles | intros id w9 _].
    destruct (truthy id); [|apply settles_log].
    apply settles_bind; [apply settles_of_result, subscript_settles | intros; apply settles_log].
Qed.

(** Every round of the menu reads a line, so a budget above the number of
    lines that wait is never used up. *)
Lemma settles_main_loop : forall fuel w,
  (List.length (stdin w) < fuel)%nat -> settles (Menu.main_loop E fuel) w.
Proof.
  induction fuel as [|fuel IH]; intros w Hfuel; [lia|].
  simpl Menu.main_loop.
  apply settles_bind; [apply settles_input | intros line w1 Hin].
  assert (Hw1 : (List.length (stdin w1) < fuel)%nat).
  { revert Hin. unfold input. destruct (stdin w) as [|l rest] eqn:Hst; [discriminate|].
    intros H. inversion H. subst. simpl in *. lia. }
  cbv zeta.
  destruct (lower (strip line) =? "fetch")%string.
  { apply settles_bind; [apply settles_prompt_date_any | intros d w2 Hd].
    pose proof (settles_stdin _ _ _ _ (settles_prompt_date_any _ w1) Hd).
    apply settles_bind; [apply settles_fetch | intros u w3 Hf].
    pose proof (settles_stdin _ _ _ _ (settles_fetch d w2) Hf).
    apply IH. lia. }
  destruct (lower (strip line) =? "insert")%string.
  { apply settles_bind; [apply settles_insert | intros u w2 Hi].
    pose proof (settles_stdin _ _ _ _ (settles_insert w1) Hi).
    apply IH. lia. }
  match goal with
  | |- settles (if ?b then _ else _) _ => destruct b; [apply settles_log|]
  end.
  apply settles_bind; [apply settles_log | intros u w2 Hl].
  apply IH. inversion Hl. subst. simpl. exact Hw1.
Qed.

(** X5.  [main] ends, by a return or by an exception, on every input and
    whatever the collaborators answer: every round of the menu and of its two
    prompts reads a line, so no loop goes on longer than there are lines. *)
Lemma settles_main w : settles (Menu.main E) w.
Proof.
  unfold Menu.main.
  apply settles_bind; [apply settles_log | intros _ w1 _].
  apply settles_main_loop. lia.
Qed.

End MenuSettles.

(** ** What reaches the calendar service *)

Lemma footprint_unchanged {A} (P : list request -> Prop) (c : M A) w r :
  c w = (r, w) -> P [] -> footprint P c w.
Proof.
  intros H HP. unfold footprint. rewrite H. simpl. split; [reflexivity|].
  exists []. rewrite app_nil_r. auto.
Qed.

Lemma gateway_guarded (E : env) (AM : list string) (port : Z) resource method params w :
  footprint (guarded AM resource method params)
    (Gateway.calendar_api_call E AM port resource method params) w.
Proof.
  destruct (footprint_gateway E AM port resource method params w)
    as (Him & evs & Htr & Hat & Hch).
  split; [exact Him|]. exists evs. split; [exact Htr|]. split; [|exact Hch].
  destruct Hat as [Hnil | (r & m & -> & -> & Hl)]; [now left|].
  destruct (str_in r Gateway.ALLOWED_RESOURCES && str_in m AM) eqn:Hin.
  - apply andb_true_iff in Hin. destruct Hin as [Hr Hm].
    apply str_in_In in Hr. apply str_in_In in Hm.
    simpl in Hr. destruct Hr as [<-|[]]. right. exists m. auto.
  - exfalso. rewrite gateway_rejects in Htr.
    + simpl in Htr. rewrite <- (app_nil_r (trace w)) in Htr at 1.
      apply app_inv_head in Htr. subst evs. discriminate Hl.
    + intros [Hr Hm]. apply str_in_In in Hr. apply str_in_In in Hm.
      rewrite Hr, Hm in Hin. discriminate Hin.
Qed.

(** X6.  Whatever values the gateway is called with, and whatever the
    collaborators answer, it sends to the calendar service nothing or the one
    request it was asked for, and then the resource is "events" and the method
    is on the whitelist of the script; it never calls the language model and
    leaves the conversation history as it was. *)
Theorem gateway_sends_only_whitelisted (E : env) (resource method params : pyval)
    (w : world) :
  footprint (guarded Agent.ALLOWED_METHODS resource method params)
    (Agent.calendar_api_call E resource method params) w
  /\ footprint (guarded Menu.ALLOWED_METHODS resource method params)
       (Menu.calendar_api_call E resource method params) w.
Proof. split; apply gateway_guarded. Qed.

(** X7.  Arguments that are not strings.  A list or a mapping in the place
    of the resource, or in the place of the method once the resource is
    "events", cannot be looked up in a set: the [TypeError] is raised by the
    whitelist test itself, outside the [try], and leaves the gateway.  Any
    other value that is not a string is simply not on the whitelist. *)
Theorem gateway_non_string_arguments (E : env) (AM : list string) (port : Z)
    (resource method params : pyval) (w : world) :
  (type_name resource = "list"%string \/ type_name resource = "dict"%string ->
   Gateway.calendar_api_call E AM port resource method params w
   = (Raise (mkExn TypeError ("unhashable type: '" ++ type_name resource ++ "'")%string), w))
  /\ (type_name method = "list"%string \/ type_name method = "dict"%string ->
      Gateway.calendar_api_call E AM port (PStr "events") method params w
      = (Raise (mkExn TypeError ("unhashable type: '" ++ type_name method ++ "'")%string), w))
  /\ (In (type_name resource) ["NoneType"; "bool"; "int"]%string ->
      Gateway.calendar_api_call E AM port resource method params w
      = (Ok (error_dict "Method or resource not allowed."), w))
  /\ (In (type_name method) ["NoneType"; "bool"; "int"]%string ->
      Gateway.calendar_api_call E AM port (PStr "events") method params w
      = (Ok (error_dict "Method or resource not allowed."), w)).
Proof.
  repeat split.
  - intros [H|H]; destruct resource; try discriminate H; reflexivity.
  - intros [H|H]; destruct method; try discriminate H; reflexivity.
  - intros H; destruct resource; simpl in H;
      try reflexivity; repeat (destruct H as [H|H]; try discriminate H); destruct H.
  - intros H; destruct method; simpl in H;
      try reflexivity; repeat (destruct H as [H|H]; try discriminate H); destruct H.
Qed.

Lemma gateway_non_string_arguments_witness :
  Gateway.calendar_api_call Sample.calm Agent.ALLOWED_METHODS 3001
    (PList [PStr "events"]) (PStr "list") (PDict []) (Sample.fresh [])
  = (Raise (mkExn TypeError "unhashable type: 'list'"), Sample.fresh [])
  /\ Gateway.calendar_api_call Sample.calm Agent.ALLOWED_METHODS 3001
       (PStr "events") (PDict []) (PDict []) (Sample.fresh [])
     = (Raise (mkExn TypeError "unhashable type: 'dict'"), Sample.fresh [])
  /\ Gateway.calendar_api_call Sample.calm Agent.ALLOWED_METHODS 3001
       PNone (PStr "list") (PDict []) (Sample.fresh [])
     = (Ok (error_dict "Method or resource not allowed."), Sample.fresh [])
  /\ Gateway.calendar_api_call Sample.calm Agent.ALLOWED_METHODS 3001
       (PStr "events") (PInt 3) (PDict []) (Sample.fresh [])
     = (Ok (error_dict "Method or resource not allowed."), Sample.fresh []).
Proof.
  split; [|split; [|split]].
  - apply (gateway_non_string_arguments Sample.calm Agent.ALLOWED_METHODS 3001
             (PList [PStr "events"]) (PStr "list") (PDict []) (Sample.fresh [])).
    left. reflexivity.
  - apply (gateway_non_string_arguments Sample.calm Agent.ALLOWED_METHODS 3001
             (PList []) (PDict []) (PDict []) (Sample.fresh [])).
    right. reflexivity.
  - apply (gateway_non_string_arguments Sample.calm Agent.ALLOWED_METHODS 3001
             PNone (PStr "list") (PDict []) (Sample.fresh [])).
    simpl. auto.
  - apply (gateway_non_string_arguments Sample.calm Agent.ALLOWED_METHODS 3001
             PNone (PInt 3) (PDict []) (Sample.fresh [])).
    simpl. auto.
Defined.

(** ** The credential routine, branch by branch *)

(** X8.  When nothing usable is stored and the consent flow succeeds, the
    new credentials are written whole to the token file before the client is
    built from them.  When that write fails, its exception leaves the
    routine, the line about saved credentials is not logged and no client is
    built; the token file then holds what the failed block left of it, which,
    since [open(..., "w")] truncates, need not be what it held before. *)
Theorem consent_stores_token (E : env) (port : Z) (w w1 : world)
    (saved : option Credentials) (c : Credentials) :
  Gateway.load_saved E w = (Ok saved, w1) ->
  Spec.consent_needed saved ->
  run_local_server E w1 port = Returns c ->
  let w3 := emit (Log INFO "🔐 New credentials obtained.") (emit (ConsentFlow port) w1) in
  (open_write E w3 "token.json" (to_json c) = Returns tt ->
   exists w5,
     trace w5 = trace w3 ++ [WriteFile "token.json" (to_json c);
                             Log INFO "✅ Credentials saved to token.json"]
     /\ token_file w5 = Some (to_json c)
     /\ Gateway.get_calendar_service E port w
        = (match build E w5 c with
           | Returns _ => Ok (mkService c)
           | Raises e => Raise e
           end,
           emit BuildClient w5))
  /\ (forall e,
        open_write E w3 "token.json" (to_json c) = Raises e ->
        Gateway.get_calendar_service E port w
        = (Raise e,
           mkWorld (left_by_failed_write E w3 "token.json" (to_json c))
             (stdin w3) (input_messages w3)
             (trace w3 ++ [WriteFile "token.json" (to_json c)]))).
Proof.
  intros Hload Hneed Hflow w3.
  assert (Hsvc : Gateway.get_calendar_service E port w
                 = (creds <- Gateway.interactive_flow E port ;;
                    external (fun w => build E w creds) BuildClient ;;
                    ret (mkService creds)) w1).
  { unfold Gateway.get_calendar_service. unfold bind at 1. rewrite Hload.
    destruct saved as [c0|]; simpl in Hneed; [|reflexivity].
    destruct Hneed as [Hv Hr]. rewrite Hv, Hr. reflexivity. }
  split.
  - intros Hwrite.
    exists (emit (Log INFO "✅ Credentials saved to token.json")
              (emit (WriteFile "token.json" (to_json c))
                 (mkWorld (Some (to_json c)) (stdin w3) (input_messages w3) (trace w3)))).
    split; [|split].
    + simpl. rewrite <- app_assoc. reflexivity.
    + reflexivity.
    + rewrite Hsvc.
      unfold Gateway.interactive_flow, Gateway._save_credentials, Gateway.write_token,
        bind, external, ret, log.
      rewrite Hflow. simpl. fold w3.
      change Gateway.GOOGLE_TOKEN_FILE with "token.json"%string.
      rewrite Hwrite. simpl.
      match goal with
      | |- context [build E ?w5 c] => destruct (build E w5 c); reflexivity
      end.
  - intros e Hwrite.
    rewrite Hsvc.
    unfold Gateway.interactive_flow, Gateway._save_credentials, Gateway.write_token,
      bind, external, ret, log.
    rewrite Hflow. simpl. fold w3.
    change Gateway.GOOGLE_TOKEN_FILE with "token.json"%string.
    rewrite Hwrite. reflexivity.
Qed.

Lemma consent_stores_token_witness :
  (exists w5,
      trace w5 = [PathExists "token.json"; ConsentFlow 0;
                  Log INFO "🔐 New credentials obtained.";
                  WriteFile "token.json" "token-1";
                  Log INFO "✅ Credentials saved to token.json"]
      /\ token_file w5 = Some "token-1"%string
      /\ Gateway.get_calendar_service Sample.calm 0 (Sample.first_run [])
         = (Ok (mkService Sample.good_creds), emit BuildClient w5))
  /\ Gateway.get_calendar_service Sample.full_disk 0 (Sample.first_run [])
     = (Raise (mkExn OSError "[Errno 28] No space left on device"),
        mkWorld (Some ""%string) [] [SystemMessage "policy"]
          [PathExists "token.json"; ConsentFlow 0;
           Log INFO "🔐 New credentials obtained.";
           WriteFile "token.json" "token-1"]).
Proof.
  split.
  - exact (proj1 (consent_stores_token Sample.calm 0 (Sample.first_run [])
                    (emit (PathExists "token.json") (Sample.first_run []))
                    None Sample.good_creds eq_refl I eq_refl) eq_refl).
  - exact (proj2 (consent_stores_token Sample.full_disk 0 (Sample.first_run [])
                    (emit (PathExists "token.json") (Sample.first_run []))
                    None Sample.good_creds eq_refl I eq_refl)
             (mkExn OSError "[Errno 28] No space left on device") eq_refl).
Defined.

(** X9.  A failure of the credential routine that is an [Exception] (a
    token file that cannot be read, a refused refresh or consent, a failed
    write, a client that cannot be built) does not leave the gateway of
    either script: it is logged and returned as an error value, and no request
    has been sent. *)
Theorem credential_failure_at_gateway (E : env) (AM : list string) (port : Z)
    (r m : string) (params : pyval) (w w1 : world) (e : exn) :
  In r Gateway.ALLOWED_RESOURCES -> In m AM ->
  Gateway.get_calendar_service E port w = (Raise e, w1) ->
  is_Exception e = true ->
  Gateway.calendar_api_call E AM port (PStr r) (PStr m) params w
  = (Ok (error_dict (exn_str e)),
     emit (Log ERROR ("❌ Calendar API error: " ++ exn_str e)%string) w1)
  /\ requests (trace (emit (Log ERROR ("❌ Calendar API error: " ++ exn_str e)%string) w1))
     = requests (trace w).
Proof.
  intros Hr Hm Hsvc He. split.
  - destruct (gateway_catches E AM port r m params w Hr Hm) as (Hcaught & _).
    apply Hcaught; [|exact He].
    unfold Gateway.api_request. apply bind_raise. exact Hsvc.
  - destruct (quiet_service E port w) as (_ & evs & Htr & Hreq & _).
    rewrite Hsvc in Htr. simpl in Htr. simpl. rewrite Htr.
    rewrite !requests_app, <- Hreq. simpl. now rewrite !app_nil_r.
Qed.

Lemma credential_failure_at_gateway_witness :
  Menu.calendar_api_call Sample.denied (PStr "events") (PStr "list") (PDict [])
    (Sample.first_run [])
  = (Ok (PDict [("error", PStr "(access_denied)")]),
     mkWorld None [] [SystemMessage "policy"]
       [PathExists "token.json"; ConsentFlow 0;
        Log ERROR "❌ Calendar API error: (access_denied)"])
  /\ requests [PathExists "token.json"; ConsentFlow 0;
               Log ERROR "❌ Calendar API error: (access_denied)"] = [].
Proof.
  apply (credential_failure_at_gateway Sample.denied Menu.ALLOWED_METHODS 0
           "events" "list" (PDict []) (Sample.first_run [])
           (mkWorld None [] [SystemMessage "policy"] [PathExists "token.json"; ConsentFlow 0])
           (mkExn (LibraryError "AccessDeniedError") "(access_denied)")).
  - simpl. auto.
  - simpl. auto.
  - reflexivity.
  - reflexivity.
Defined.

(** X10.  The client the credential routine returns is built from
    credentials that were persisted, in one of three ways and no other.
    Either they are the ones read from the token file, valid, and then nothing
    but the check, the read and the build has happened and the token file is
    as it was.  Or they are the ones the refresh of the stored credentials
    returned, or the ones the consent flow returned, and then their JSON is
    what the token file now holds, written just before the build. *)
Theorem service_credentials_are_stored (E : env) (port : Z) (w w' : world) (svc : service) :
  Gateway.get_calendar_service E port w = (Ok svc, w') ->
  let w1 := emit (PathExists "token.json") w in
  let w2 := emit (ReadToken "token.json") w1 in
  let saved := [WriteFile "token.json" (to_json (credentials svc));
                Log INFO "✅ Credentials saved to token.json"; BuildClient] in
  (exists data,
      token_file w = Some data
      /\ from_authorized_user_file E w1 data = Returns (credentials svc)
      /\ valid (credentials svc) = true
      /\ token_file w' = token_file w
      /\ trace w' = trace w ++ [PathExists "token.json"; ReadToken "token.json"; BuildClient])
  \/ (exists data c,
         token_file w = Some data
         /\ from_authorized_user_file E w1 data = Returns c
         /\ valid c = false
         /\ (expired c && Gateway.has_refresh_token c) = true
         /\ refresh E w2 c = Returns (credentials svc)
         /\ token_file w' = Some (to_json (credentials svc))
         /\ trace w' = trace w ++ [PathExists "token.json"; ReadToken "token.json";
                                   RefreshToken; Log INFO "🔄 Credentials refreshed."]
                               ++ saved)
  \/ (exists stored w0,
         Gateway.load_saved E w = (Ok stored, w0)
         /\ Spec.consent_needed stored
         /\ run_local_server E w0 port = Returns (credentials svc)
         /\ token_file w' = Some (to_json (credentials svc))
         /\ trace w' = trace w0 ++ [ConsentFlow port; Log INFO "🔐 New credentials obtained."]
                                ++ saved).
Proof.
  intros Hrun w1 w2 saved.
  assert (Hconsent : forall w0,
             (creds <- Gateway.interactive_flow E port ;;
              external (fun w => build E w creds) BuildClient ;;
              ret (mkService creds)) w0 = (Ok svc, w') ->
             run_local_server E w0 port = Returns (credentials svc)
             /\ token_file w' = Some (to_json (credentials svc))
             /\ trace w' = trace w0 ++ [ConsentFlow port;
                                        Log INFO "🔐 New credentials obtained."]
                                    ++ saved).
  { intros w0.
    unfold Gateway.interactive_flow, Gateway._save_credentials, Gateway.write_token,
      bind, external, ret, log.
    destruct (run_local_server E w0 port) as [c'|e]; simpl; [|discriminate].
    destruct (open_write E _ _ (to_json c')); simpl; [|discriminate].
    destruct (build E _ c'); simpl; [|discriminate].
    intros H; inversion H; subst; simpl.
    repeat split. rewrite <- !app_assoc. reflexivity. }
  unfold Gateway.get_calendar_service in Hrun. unfold bind at 1 in Hrun.
  destruct (Gateway.load_saved E w) as [[stored| |] w0] eqn:Hload; try discriminate Hrun.
  destruct stored as [c|].
  - assert (Hc : exists data, token_file w = Some data
                   /\ from_authorized_user_file E w1 data = Returns c /\ w0 = w2).
    { revert Hload.
      unfold Gateway.load_saved, Gateway.token_exists, Gateway.load_token, bind,
        external, ret.
      destruct (token_file w) as [data|] eqn:Htf; simpl; [|discriminate].
      rewrite Htf. simpl.
      change Gateway.GOOGLE_TOKEN_FILE with "token.json"%string. fold w1. fold w2.
      destruct (from_authorized_user_file E w1 data) as [c0|e] eqn:Hread;
        simpl; [|discriminate].
      intros H. inversion H; subst. exists data. auto. }
    destruct Hc as (data & Htf & Hread & ->).
    destruct (valid c) eqn:Hvalid.
    + left. exists data. revert Hrun. unfold bind, external, ret.
      destruct (build E w2 c); simpl; [|discriminate].
      intros H; inversion H; subst; simpl.
      repeat split; auto. rewrite <- !app_assoc. reflexivity.
    + destruct (expired c && Gateway.has_refresh_token c) eqn:Hexp.
      * right. left. exists data, c. revert Hrun.
        unfold Gateway.refresh_flow, Gateway._save_credentials, Gateway.write_token,
          bind, external, ret, log.
        destruct (refresh E w2 c) as [c'|e]; simpl; [|discriminate].
        destruct (open_write E _ _ (to_json c')); simpl; [|discriminate].
        destruct (build E _ c'); simpl; [|discriminate].
        intros H; inversion H; subst; simpl.
        repeat split; auto. rewrite <- !app_assoc. reflexivity.
      * right. right. exists (Some c), w2.
        assert (Hneed : Spec.consent_needed (Some c)) by (simpl; auto).
        destruct (Hconsent w2 Hrun) as (H1 & H2 & H3).
        auto.
  - right. right. exists None, w0.
    destruct (Hconsent w0 Hrun) as (H1 & H2 & H3).
    simpl. auto.
Qed.

Lemma service_credentials_are_stored_witness :
  let w := Sample.fresh [] in
  let w' := snd (Gateway.get_calendar_service Sample.stale 3001 w) in
  let svc := mkService Sample.renewed_creds in
  let w1 := emit (PathExists "token.json") w in
  let w2 := emit (ReadToken "token.json") w1 in
  let saved := [WriteFile "token.json" (to_json (credentials svc));
                Log INFO "✅ Credentials saved to token.json"; BuildClient] in
  (exists data,
      token_file w = Some data
      /\ from_authorized_user_file Sample.stale w1 data = Returns (credentials svc)
      /\ valid (credentials svc) = true
      /\ token_file w' = token_file w
      /\ trace w' = trace w ++ [PathExists "token.json"; ReadToken "token.json"; BuildClient])
  \/ (exists data c,
         token_file w = Some data
         /\ from_authorized_user_file Sample.stale w1 data = Returns c
         /\ valid c = false
         /\ (expired c && Gateway.has_refresh_token c) = true
         /\ refresh Sample.stale w2 c = Returns (credentials svc)
         /\ token_file w' = Some (to_json (credentials svc))
         /\ trace w' = trace w ++ [PathExists "token.json"; ReadToken "token.json";
                                   RefreshToken; Log INFO "🔄 Credentials refreshed."]
                               ++ saved)
  \/ (exists stored w0,
         Gateway.load_saved Sample.stale w = (Ok stored, w0)
         /\ Spec.consent_needed stored
         /\ run_local_server Sample.stale w0 3001 = Returns (credentials svc)
         /\ token_file w' = Some (to_json (credentials svc))
         /\ trace w' = trace w0 ++ [ConsentFlow 3001; Log INFO "🔐 New credentials obtained."]
                                ++ saved).
Proof.
  exact (service_credentials_are_stored Sample.stale 3001 (Sample.fresh [])
           (snd (Gateway.get_calendar_service Sample.stale 3001 (Sample.fresh [])))
           (mkService Sample.renewed_creds) eq_refl).
Defined.

(** ** Keywords bound by name *)

Lemma no_unexpected formals (d : kwargs) :
  (forall k v, In (k, v) d -> In k formals) -> Agent.unexpected formals d = None.
Proof.
  intros Hall. unfold Agent.unexpected.
  replace (filter (fun kv => negb (str_in (fst kv) formals)) d) with (@nil (string * pyval)).
  - reflexivity.
  - symmetry. induction d as [|[k v] d IH]; [reflexivity|]. simpl.
    assert (Hk : str_in k formals = true).
    { apply str_in_In. apply (Hall k v). now left. }
    rewrite Hk. simpl. apply IH. intros k' v' Hin. apply (Hall k' v'). now right.
Qed.

(** X11.  A mapping that holds the three keys and no other is bound by name,
    whatever the order of its keys: the gateway is called with the value
    under "resource", the value under "method" and the value under "params",
    of whatever type they are. *)
Theorem keywords_bound_by_name (E : env) (d : kwargs) (vr vm vp : pyval) (w : world) :
  lookup "resource" d = Some vr ->
  lookup "method" d = Some vm ->
  lookup "params" d = Some vp ->
  (forall k v, In (k, v) d -> In k ["resource"; "method"; "params"]%string) ->
  Agent.call_function E "calendar_api_call" (PDict d) w
  = Agent.calendar_api_call E vr vm vp w.
Proof.
  intros Hr Hm Hp Hall.
  unfold Agent.call_function, Agent.bind_keywords.
  change ("calendar_api_call" =? "calendar_api_call")%string with true. cbv iota.
  rewrite (no_unexpected _ _ Hall).
  unfold Agent.missing, has_key. cbn [filter]. rewrite Hr, Hm, Hp. cbn [negb].
  unfold bind, of_result, Agent.argument. rewrite Hr, Hm, Hp. reflexivity.
Qed.

Lemma keywords_bound_by_name_witness :
  Agent.call_function Sample.calm "calendar_api_call"
    (PDict [("params", PDict []); ("method", PStr "list"); ("resource", PStr "events")])
    (Sample.fresh [])
  = Agent.calendar_api_call Sample.calm (PStr "events") (PStr "list") (PDict [])
      (Sample.fresh []).
Proof.
  apply (keywords_bound_by_name Sample.calm
           [("params", PDict []); ("method", PStr "list"); ("resource", PStr "events")]
           (PStr "events") (PStr "list") (PDict []) (Sample.fresh []));
    try reflexivity.
  intros k v H. simpl in H. simpl.
  destruct H as [H|[H|[H|[]]]]; inversion H; auto.
Defined.

(** ** The history of a turn *)

Lemma process_response_history (E : env) : forall depth w resp,
  chat_completions_create E w (input_messages w) = Returns resp ->
  let asked := emit (ChatCompletion (input_messages w)) w in
  exists added evs,
    input_messages (snd (Agent.process_response E depth resp asked))
    = input_messages w ++ added
    /\ rounds E w added
    /\ trace (snd (Agent.process_response E depth resp asked))
       = trace w ++ ChatCompletion (input_messages w) :: evs
    /\ chats evs = histories (input_messages w) added.
Proof.
  induction depth as [|depth IH]; intros w resp Hresp asked.
  - exists [], []. simpl. rewrite !app_nil_r. auto.
  - remember (Agent.process_response E (S depth) resp asked) as run eqn:Hrun.
    simpl in Hrun.
    destruct (Agent.first_tool_request (choices resp)) as [[calls call]|] eqn:Hreq.
    + unfold bind at 1 in Hrun. unfold of_result at 1 in Hrun.
      destruct (json_loads E (or_else (fn_arguments call) "{}")) as [args|e] eqn:Hargs;
        simpl of_outcome in Hrun; cbv iota beta in Hrun.
      2:{ exists [], []. subst run. simpl. rewrite !app_nil_r. auto. }
      unfold bind at 1 in Hrun.
      destruct (footprint_call_function E (fn_name call) args asked)
        as (Him & evs1 & Htr1 & _ & Hch1).
      destruct (Agent.call_function E (fn_name call) args asked) as [r w2] eqn:Hcall.
      simpl in Him, Htr1.
      destruct r as [result|e|].
      2,3: exists [], evs1; subst run; simpl; rewrite Him, Htr1, app_nil_r,
             <- app_assoc; auto.
      set (a := AssistantToolCalls "" calls) in *.
      set (t := ToolMessage (fn_name call) (call_id call) (json_dumps E result)) in *.
      set (w3 := mkWorld (token_file w2) (stdin w2) (input_messages w ++ [a; t]) (trace w2)).
      assert (Hstep : run
                      = match chat_completions_create E w3 (input_messages w3) with
                        | Returns new_resp =>
                            Agent.process_response E depth new_resp
                              (emit (ChatCompletion (input_messages w3)) w3)
                        | Raises e =>
                            (Raise e, emit (ChatCompletion (input_messages w3)) w3)
                        end).
      { rewrite Hrun.
        unfold bind, Agent.append_message, Agent.create, external. simpl.
        rewrite Him, <- app_assoc. simpl. fold w3.
        destruct (chat_completions_create E w3 (input_messages w ++ [a; t])); reflexivity. }
      clear Hrun. rewrite Hstep. clear Hstep.
      assert (Hround : forall rest, rounds E w3 rest -> rounds E w (a :: t :: rest)).
      { intros rest Hrest. cbn [rounds].
        exists resp, calls, call, args, result, w2. repeat split; auto. }
      destruct (chat_completions_create E w3 (input_messages w3)) as [new_resp|e] eqn:Hnew.
      * destruct (IH w3 new_resp Hnew) as (added & evs & Hm & Hrounds & Htr & Hch).
        exists (a :: t :: added), (evs1 ++ ChatCompletion (input_messages w3) :: evs).
        rewrite Hm, Htr. simpl input_messages. simpl trace. rewrite Htr1.
        repeat split.
        -- rewrite <- app_assoc. reflexivity.
        -- apply Hround. exact Hrounds.
        -- simpl. rewrite <- !app_assoc. reflexivity.
        -- rewrite chats_app, Hch1. simpl. rewrite Hch. reflexivity.
      * exists [a; t], (evs1 ++ [ChatCompletion (input_messages w3)]).
        simpl. rewrite Htr1. repeat split.
        -- apply (Hround []). exact I.
        -- rewrite <- !app_assoc. reflexivity.
        -- rewrite chats_app, Hch1. reflexivity.
    + subst run. destruct (choices resp); exists [], []; simpl; rewrite !app_nil_r; auto.
Qed.

(** X12.  A turn only appends to the conversation history: after the
    user's message come the messages of the rounds of tool use, in order.
    Each round is fixed by the reply of the model to the history as it then
    stands: it appends the assistant message with empty content that carries
    all the tool calls of that reply, and the tool message named and numbered
    after the first of them, with the JSON of what the dispatcher returned for
    it.  The language model is called once more than there are rounds, each
    time with the whole history as it then stands.  This holds however the
    turn ends. *)
Theorem turn_history (E : env) (depth : nat) (user_input : string) (w : world) :
  let asked := input_messages w ++ [UserMessage user_input] in
  let w1 := mkWorld (token_file w) (stdin w) asked (trace w) in
  exists added evs,
    input_messages (snd (Agent.chat_with_agent E depth user_input w)) = asked ++ added
    /\ rounds E w1 added
    /\ trace (snd (Agent.chat_with_agent E depth user_input w)) = trace w ++ evs
    /\ chats evs = asked :: histories asked added.
Proof.
  intros asked w1.
  assert (Hstep : Agent.chat_with_agent E depth user_input w
                  = match chat_completions_create E w1 asked with
                    | Returns resp =>
                        Agent.process_response E depth resp (emit (ChatCompletion asked) w1)
                    | Raises e => (Raise e, emit (ChatCompletion asked) w1)
                    end).
  { unfold Agent.chat_with_agent, bind, Agent.append_message, Agent.create, external.
    simpl. fold asked. fold w1.
    destruct (chat_completions_create E w1 asked); reflexivity. }
  rewrite Hstep.
  destruct (chat_completions_create E w1 asked) as [resp|e] eqn:Hresp.
  - destruct (process_response_history E depth w1 resp Hresp)
      as (added & evs & Hm & Hrounds & Htr & Hch).
    exists added, (ChatCompletion asked :: evs).
    simpl in Hm, Htr. change (input_messages w1) with asked in Hch.
    rewrite Hm, Htr. simpl. repeat split; auto.
    rewrite Hch. reflexivity.
  - exists [], [ChatCompletion asked]. simpl. rewrite app_nil_r. repeat split.
Qed.

(** ** Requests, composed *)

Section Only.

Context {A B : Type}.
Variable Q : request -> Prop.

Lemma only_unchanged (c : M A) w r : c w = (r, w) -> only Q c w.
Proof. intros H. exists []. rewrite H. simpl. now rewrite app_nil_r. Qed.

Lemma only_footprint (P : list request -> Prop) (c : M A) w :
  footprint P c w -> (forall l, P l -> Forall Q l) -> only Q c w.
Proof. intros (_ & evs & Htr & HP & _) HQ. exists evs. auto. Qed.

Lemma only_quiet (c : M A) w : quiet c w -> only Q c w.
Proof. intros H. apply (only_footprint _ _ _ H). intros l <-. constructor. Qed.

Lemma only_bind (c : M A) (k : A -> M B) w :
  only Q c w -> (forall a w1, c w = (Ok a, w1) -> only Q (k a) w1) ->
  only Q (bind c k) w.
Proof.
  intros (evs & Htr & HQ) Hk. unfold only, bind.
  destruct (c w) as [[a|e|] w1] eqn:Hc; simpl in Htr.
  - destruct (Hk a w1 eq_refl) as (evs2 & Htr2 & HQ2).
    exists (evs ++ evs2). rewrite Htr2, Htr, <- app_assoc, requests_app.
    split; [reflexivity|]. apply Forall_app. auto.
  - exists evs. auto.
  - exists evs. auto.
Qed.

End Only.

Lemma only_try {A} (Q : request -> Prop) (c : M A) catches h w :
  only Q c w -> (forall e w1, c w = (Raise e, w1) -> only Q (h e) w1) ->
  only Q (try_except c catches h) w.
Proof.
  intros (evs & Htr & HQ) Hh. unfold only, try_except.
  destruct (c w) as [[a|e|] w1] eqn:Hc; simpl in Htr.
  - exists evs. auto.
  - destruct (catches e).
    + destruct (Hh e w1 eq_refl) as (evs2 & Htr2 & HQ2).
      exists (evs ++ evs2). rewrite Htr2, Htr, <- app_assoc, requests_app.
      split; [reflexivity|]. apply Forall_app. auto.
    + exists evs. auto.
  - exists evs. auto.
Qed.

Lemma guarded_whitelisted AM resource method params l :
  guarded AM resource method params l -> Forall (whitelisted AM) l.
Proof.
  intros [->|(m & _ & _ & Hm & ->)]; constructor; [|constructor].
  split; [reflexivity|exact Hm].
Qed.

(** ** What the agent sends *)

Section AgentRequests.

Variable E : env.

Abbreviation allowed := (whitelisted Agent.ALLOWED_METHODS).

Lemma only_call_function name args w : only allowed (Agent.call_function E name args) w.
Proof.
  unfold Agent.call_function.
  destruct (name =? "calendar_api_call")%string.
  - apply only_bind; [apply only_quiet, quiet_of_result|]. intros d w1 _.
    eapply only_footprint; [apply gateway_guarded|]. apply guarded_whitelisted.
  - apply only_quiet, quiet_ret.
Qed.

Lemma only_append_message m w : only allowed (Agent.append_message m) w.
Proof. exists []. simpl. now rewrite app_nil_r. Qed.

Lemma only_create w : only allowed (Agent.create E) w.
Proof. exists [ChatCompletion (input_messages w)]. split; [reflexivity|constructor]. Qed.

Lemma only_process_response : forall depth resp w,
  only allowed (Agent.process_response E depth resp) w.
Proof.
  induction depth as [|depth IH]; intros resp w.
  - now apply only_unchanged with OutOfFuel.
  - simpl. destruct (Agent.first_tool_request (choices resp)) as [[calls call]|].
    + apply only_bind; [apply only_quiet, quiet_of_result|]. intros args w1 _.
      apply only_bind; [apply only_call_function|]. intros result w2 _.
      apply only_bind; [apply only_append_message|]. intros _ w3 _.
      apply only_bind; [apply only_append_message|]. intros _ w4 _.
      apply only_bind; [apply only_create|]. intros new_resp w5 _.
      apply IH.
    + destruct (choices resp); [apply only_quiet, quiet_raise | apply only_quiet, quiet_ret].
Qed.

Lemma only_chat_with_agent depth user_input w :
  only allowed (Agent.chat_with_agent E depth user_input) w.
Proof.
  unfold Agent.chat_with_agent.
  apply only_bind; [apply only_append_message|]. intros _ w1 _.
  apply only_bind; [apply only_create|]. intros resp w2 _.
  apply only_process_response.
Qed.

Lemma only_turn depth w : only allowed (Agent.turn E depth) w.
Proof.
  unfold Agent.turn. apply only_try.
  - apply only_bind; [apply only_quiet, quiet_input|]. intros line w1 _.
    destruct (str_in _ _).
    + apply only_quiet. quiet_steps.
    + apply only_bind; [apply only_quiet, quiet_log|]. intros _ w2 _.
      apply only_bind; [apply only_chat_with_agent|]. intros response w3 _.
      apply only_quiet. quiet_steps.
  - intros e w1 _. apply only_quiet. quiet_steps.
Qed.

Lemma only_session_loop depth : forall fuel w,
  only allowed (Agent.session_loop E depth fuel) w.
Proof.
  induction fuel as [|fuel IH]; intros w.
  - now apply only_unchanged with OutOfFuel.
  - simpl. apply only_bind; [apply only_turn|]. intros again w1 _.
    destruct again; [apply IH | apply only_quiet, quiet_ret].
Qed.

End AgentRequests.

(** X13.  Whatever the language model asks for and whatever the user
    types, every request that a turn of the agent, and so a whole session,
    sends to the calendar service is on the resource "events" with one of the
    methods list, insert, update and delete. *)
Theorem agent_sends_only_whitelisted (E : env) (depth : nat) (w : world) :
  (forall user_input,
      only (whitelisted ["list"; "insert"; "update"; "delete"]%string)
        (Agent.chat_with_agent E depth user_input) w)
  /\ only (whitelisted ["list"; "insert"; "update"; "delete"]%string)
       (Agent.session E depth) w.
Proof.
  split; [intros u; apply only_chat_with_agent|].
  unfold Agent.session.
  apply only_bind; [apply only_quiet, quiet_log|]. intros _ w1 _.
  apply only_bind; [apply only_quiet, quiet_log|]. intros _ w2 _.
  apply only_bind; [apply only_chat_with_agent|]. intros initial w3 _.
  apply only_bind; [apply only_quiet, quiet_log|]. intros _ w4 _.
  apply only_bind; [apply only_quiet, quiet_log|]. intros _ w5 _.
  apply only_session_loop.
Qed.

(** ** How a turn ends *)

(** X14.  When no choice of the reply is an assistant message with tool
    calls, the turn ends at once, after one call to the model: with the content
    of the first choice, with the empty string when that content is [None],
    and with an [IndexError] when the reply has no choice at all.  The user's
    message stays in the history in each case. *)
Theorem turn_without_tool_call (E : env) (depth : nat) (user_input : string) (w : world)
    (r : response) :
  let asked := input_messages w ++ [UserMessage user_input] in
  let w1 := mkWorld (token_file w) (stdin w) asked (trace w) in
  chat_completions_create E w1 asked = Returns r ->
  Agent.first_tool_request (choices r) = None ->
  Agent.chat_with_agent E (S depth) user_input w
  = (match choices r with
     | first :: _ => Ok (match content first with Some text => text | None => ""%string end)
     | [] => Raise (mkExn IndexError "list index out of range")
     end,
     emit (ChatCompletion asked) w1).
Proof.
  intros asked w1 Hr Hplain.
  destruct (choices r) as [|first others] eqn:Hchoices.
  - unfold Agent.chat_with_agent.
    rewrite (bind_ok _ _ w tt w1) by reflexivity.
    rewrite (bind_ok _ _ w1 r (emit (ChatCompletion asked) w1))
      by (unfold Agent.create, external; simpl; fold asked; fold w1; now rewrite Hr).
    simpl Agent.process_response. rewrite Hchoices. reflexivity.
  - apply plain_reply with r others; [exact Hr | now rewrite Hchoices | exact Hchoices].
Qed.

Lemma turn_without_tool_call_witness :
  Agent.chat_with_agent Sample.mute 1 "hello" (Sample.fresh [])
  = (Ok ""%string,
     mkWorld (Some "token-1") [] [SystemMessage "policy"; UserMessage "hello"]
       [ChatCompletion [SystemMessage "policy"; UserMessage "hello"]]).
Proof.
  exact (turn_without_tool_call Sample.mute 0 "hello" (Sample.fresh [])
           (mkResponse [mkReply "assistant" None None]) eq_refl eq_refl).
Defined.

(** X15.  A tool call that cannot be carried out ends the turn with an
    exception, which nothing in the loop catches: the one [json.loads] raises
    on arguments that are not JSON, or the one the dispatcher raises.  The
    history then ends with the user's message: neither the assistant message
    nor a tool message has been appended. *)
Theorem failed_tool_call_ends_turn (E : env) (depth : nat) (user_input : string)
    (w : world) (r : response) (calls : list tool_call) (call : tool_call) :
  let asked := input_messages w ++ [UserMessage user_input] in
  let w1 := mkWorld (token_file w) (stdin w) asked (trace w) in
  let w2 := emit (ChatCompletion asked) w1 in
  chat_completions_create E w1 asked = Returns r ->
  Agent.first_tool_request (choices r) = Some (calls, call) ->
  (forall e,
      json_loads E (or_else (fn_arguments call) "{}") = Raises e ->
      Agent.chat_with_agent E (S depth) user_input w = (Raise e, w2))
  /\ (forall args e w3,
         json_loads E (or_else (fn_arguments call) "{}") = Returns args ->
         Agent.call_function E (fn_name call) args w2 = (Raise e, w3) ->
         Agent.chat_with_agent E (S depth) user_input w = (Raise e, w3)
         /\ input_messages w3 = asked).
Proof.
  intros asked w1 w2 Hr Hreq.
  assert (Hstep : Agent.chat_with_agent E (S depth) user_input w
                  = Agent.process_response E (S depth) r w2).
  { unfold Agent.chat_with_agent.
    rewrite (bind_ok _ _ w tt w1) by reflexivity.
    rewrite (bind_ok _ _ w1 r w2)
      by (unfold Agent.create, external; simpl; fold asked; fold w1; now rewrite Hr).
    reflexivity. }
  rewrite Hstep. simpl Agent.process_response. rewrite Hreq. split.
  - intros e Hjson. apply bind_raise. unfold of_result. now rewrite Hjson.
  - intros args e w3 Hjson Hcall. split.
    + rewrite (bind_ok _ _ w2 args w2) by (unfold of_result; now rewrite Hjson).
      now apply bind_raise.
    + destruct (footprint_call_function E (fn_name call) args w2) as (Him & _).
      rewrite Hcall in Him. exact Him.
Qed.

Lemma failed_tool_call_ends_turn_witness :
  Agent.chat_with_agent Sample.garbled 1 "hello" (Sample.fresh [])
  = (Raise (mkExn JSONDecodeError "Expecting value: line 1 column 1 (char 0)"),
     mkWorld (Some "token-1") [] [SystemMessage "policy"; UserMessage "hello"]
       [ChatCompletion [SystemMessage "policy"; UserMessage "hello"]]).
Proof.
  exact (proj1 (failed_tool_call_ends_turn Sample.garbled 0 "hello" (Sample.fresh [])
                  (mkResponse [mkReply "assistant" None (Some [Sample.garbled_call])])
                  [Sample.garbled_call] Sample.garbled_call eq_refl eq_refl)
           (mkExn JSONDecodeError "Expecting value: line 1 column 1 (char 0)") eq_refl).
Defined.

(** ** The session *)

Lemma turn_asks (E : env) depth tf line rest msgs tr :
  str_in (lower (strip line)) ["exit"; "quit"]%string = false ->
  Agent.turn E depth (mkWorld tf (line :: rest) msgs tr)
  = try_except
      (response <- Agent.chat_with_agent E depth (strip line) ;;
       log INFO ("🤖 Assistant: " ++ response) ;;
       ret true)
      is_KeyboardInterrupt
      (fun _ =>
         log INFO "🚪 Session interrupted by user (KeyboardInterrupt)." ;;
         ret false)
      (mkWorld tf rest msgs
         (tr ++ [Input "You: "; Log INFO ("🧑 You: " ++ strip line)%string])).
Proof.
  intros Hgo. unfold Agent.turn, try_except.
  rewrite (bind_ok _ _ _ line (emit (Input "You: ") (mkWorld tf rest msgs tr)))
    by reflexivity.
  cbv zeta. rewrite Hgo.
  rewrite (bind_ok _ _ _ tt
             (mkWorld tf rest msgs
                (tr ++ [Input "You: "; Log INFO ("🧑 You: " ++ strip line)%string])))
    by (unfold log, emit; simpl; now rewrite <- app_assoc).
  reflexivity.
Qed.

(** X16.  Ctrl-C.  A [KeyboardInterrupt] that comes out of a turn of the
    loop ends the session in good order: the loop logs that the session was
    interrupted and returns.  The first turn, asked before the loop, is not
    under that handler: any exception it raises, a [KeyboardInterrupt]
    included, leaves the script. *)
Theorem interrupt_ends_session (E : env) (depth : nat) :
  (forall fuel tf line rest msgs tr e w1,
      str_in (lower (strip line)) ["exit"; "quit"]%string = false ->
      Agent.chat_with_agent E depth (strip line)
        (mkWorld tf rest msgs
           (tr ++ [Input "You: "; Log INFO ("🧑 You: " ++ strip line)%string]))
      = (Raise e, w1) ->
      is_KeyboardInterrupt e = true ->
      Agent.session_loop E depth (S fuel) (mkWorld tf (line :: rest) msgs tr)
      = (Ok tt,
         emit (Log INFO "🚪 Session interrupted by user (KeyboardInterrupt).") w1))
  /\ (forall tf lines msgs tr e w1,
         Agent.chat_with_agent E depth "What's on my calendar tomorrow?"
           (mkWorld tf lines msgs
              (tr ++ [Log INFO "👉 Starting calendar assistant session";
                      Log INFO "🗓️  Asking: What is on my calendar tomorrow?"]))
         = (Raise e, w1) ->
         Agent.session E depth (mkWorld tf lines msgs tr) = (Raise e, w1)).
Proof.
  split.
  - intros fuel tf line rest msgs tr e w1 Hgo Hchat Hint.
    simpl Agent.session_loop. unfold bind at 1. rewrite (turn_asks _ _ _ _ _ _ _ Hgo).
    unfold try_except. rewrite (bind_raise _ _ _ e w1 Hchat). rewrite Hint.
    reflexivity.
  - intros tf lines msgs tr e w1 Hchat.
    unfold Agent.session.
    rewrite (bind_ok _ _ _ tt
               (mkWorld tf lines msgs
                  (tr ++ [Log INFO "👉 Starting calendar assistant session"])))
      by reflexivity.
    rewrite (bind_ok _ _ _ tt
               (mkWorld tf lines msgs
                  (tr ++ [Log INFO "👉 Starting calendar assistant session";
                          Log INFO "🗓️  Asking: What is on my calendar tomorrow?"])))
      by (unfold log, emit; simpl; now rewrite <- app_assoc).
    now apply bind_raise.
Qed.

Lemma interrupt_ends_session_witness :
  Agent.session_loop Sample.interrupted 2 1 (Sample.fresh ["any plans?"])
  = (Ok tt,
     mkWorld (Some "token-1") [] [SystemMessage "policy"; UserMessage "any plans?"]
       [Input "You: "; Log INFO "🧑 You: any plans?";
        ChatCompletion [SystemMessage "policy"; UserMessage "any plans?"];
        PathExists "token.json"; ReadToken "token.json"; BuildClient;
        Request "events" "list" (PDict [("calendarId", PStr "primary")]);
        Log INFO "🚪 Session interrupted by user (KeyboardInterrupt)."]).
Proof.
  exact (proj1 (interrupt_ends_session Sample.interrupted 2)
           0%nat (Some "token-1"%string) "any plans?"%string [] [SystemMessage "policy"] []
           (mkExn KeyboardInterrupt "")
           (mkWorld (Some "token-1") [] [SystemMessage "policy"; UserMessage "any plans?"]
              [Input "You: "; Log INFO "🧑 You: any plans?";
               ChatCompletion [SystemMessage "policy"; UserMessage "any plans?"];
               PathExists "token.json"; ReadToken "token.json"; BuildClient;
               Request "events" "list" (PDict [("calendarId", PStr "primary")])])
           eq_refl eq_refl eq_refl).
Defined.

(** X17.  The other ways out of the loop.  A line that reads "exit" or
    "quit", in any case and with any white space around it, ends the session
    without a call to the model.  An exception of a turn that is not a
    [KeyboardInterrupt] is not handled: it leaves the loop and the script. So
    does the [EOFError] of [input] when standard input is at its end. *)
Theorem session_ends (E : env) (depth fuel : nat) (tf : option string)
    (msgs : list message) (tr : list effect) :
  (forall line rest,
      In (lower (strip line)) ["exit"; "quit"]%string ->
      Agent.session_loop E depth (S fuel) (mkWorld tf (line :: rest) msgs tr)
      = (Ok tt, mkWorld tf rest msgs (tr ++ [Input "You: "; Log INFO "👋 Exiting session."])))
  /\ (forall line rest e w1,
         str_in (lower (strip line)) ["exit"; "quit"]%string = false ->
         Agent.chat_with_agent E depth (strip line)
           (mkWorld tf rest msgs
              (tr ++ [Input "You: "; Log INFO ("🧑 You: " ++ strip line)%string]))
         = (Raise e, w1) ->
         is_KeyboardInterrupt e = false ->
         Agent.session_loop E depth (S fuel) (mkWorld tf (line :: rest) msgs tr)
         = (Raise e, w1))
  /\ Agent.session_loop E depth (S fuel) (mkWorld tf [] msgs tr)
     = (Raise (mkExn EOFError "EOF when reading a line"),
        mkWorld tf [] msgs (tr ++ [Input "You: "])).
Proof.
  split; [|split].
  - intros line rest Hexit. apply str_in_In in Hexit.
    simpl Agent.session_loop. unfold bind at 1. unfold Agent.turn, try_except.
    rewrite (bind_ok _ _ _ line (emit (Input "You: ") (mkWorld tf rest msgs tr)))
      by reflexivity.
    cbv zeta. rewrite Hexit.
    unfold bind, log, ret, emit. simpl. now rewrite <- app_assoc.
  - intros line rest e w1 Hgo Hchat Hint.
    simpl Agent.session_loop. unfold bind at 1. rewrite (turn_asks _ _ _ _ _ _ _ Hgo).
    unfold try_except. rewrite (bind_raise _ _ _ e w1 Hchat). rewrite Hint.
    reflexivity.
  - reflexivity.
Qed.

Lemma session_ends_witness :
  Agent.session_loop Sample.calm 2 1 (Sample.fresh ["  QUIT "; "hello"])
  = (Ok tt,
     mkWorld (Some "token-1") ["hello"] [SystemMessage "policy"]
       [Input "You: "; Log INFO "👋 Exiting session."]).
Proof.
  apply (proj1 (session_ends Sample.calm 2 0 (Some "token-1"%string)
                  [SystemMessage "policy"] [])).
  simpl. auto.
Defined.

(** ** The budget of the session

    The loop of the session is given one round more than there are lines to
    read.  That is enough: a round that goes on has read a line, and a turn
    reads none.  So the loop runs out of budget only when a turn does, that
    is, when the tool-calling loop is cut at [depth]. *)

Section SessionBudget.

Variable E : env.

Lemma reads_on_bind {A B} (c : M A) (k : A -> M B) w :
  reads_on c w -> (forall a w1, c w = (Ok a, w1) -> reads_on (k a) w1) ->
  reads_on (bind c k) w.
Proof.
  unfold reads_on, bind. intros Hc Hk.
  destruct (c w) as [[a|e|] w1] eqn:Hcw; simpl in *; [|exact Hc|exact Hc].
  specialize (Hk a w1 eq_refl). lia.
Qed.

Lemma reads_on_settles {A} (c : M A) w : settles c w -> reads_on c w.
Proof. intros [_ H]. exact H. Qed.

Lemma reads_on_call_function name args w : reads_on (Agent.call_function E name args) w.
Proof.
  unfold Agent.call_function. destruct (name =? "calendar_api_call")%string.
  - apply reads_on_bind; [unfold reads_on; simpl; lia|]. intros d w1 _.
    apply reads_on_settles, settles_gateway.
  - unfold reads_on. simpl. lia.
Qed.

Lemma reads_on_process_response : forall depth resp w,
  reads_on (Agent.process_response E depth resp) w.
Proof.
  induction depth as [|depth IH]; intros resp w; [unfold reads_on; simpl; lia|].
  simpl. destruct (Agent.first_tool_request (choices resp)) as [[calls call]|].
  - apply reads_on_bind; [unfold reads_on; simpl; lia|]. intros args w1 _.
    apply reads_on_bind; [apply reads_on_call_function|]. intros result w2 _.
    apply reads_on_bind; [unfold reads_on; simpl; lia|]. intros _ w3 _.
    apply reads_on_bind; [unfold reads_on; simpl; lia|]. intros _ w4 _.
    apply reads_on_bind; [unfold reads_on; simpl; lia|]. intros new_resp w5 _.
    apply IH.
  - destruct (choices resp); unfold reads_on; simpl; lia.
Qed.

Lemma reads_on_chat_with_agent depth user_input w :
  reads_on (Agent.chat_with_agent E depth user_input) w.
Proof.
  unfold Agent.chat_with_agent.
  apply reads_on_bind; [unfold reads_on; simpl; lia|]. intros _ w1 _.
  apply reads_on_bind; [unfold reads_on; simpl; lia|]. intros resp w2 _.
  apply reads_on_process_response.
Qed.

Lemma turn_reads_a_line depth w w1 :
  Agent.turn E depth w = (Ok true, w1) ->
  (List.length (stdin w1) < List.length (stdin w))%nat.
Proof.
  unfold Agent.turn, try_except. unfold bind at 1.
  destruct (stdin w) as [|line rest] eqn:Hst.
  - unfold input. rewrite Hst. simpl. discriminate.
  - unfold input at 1. rewrite Hst.
    set (w0 := emit (Input "You: ")
                 (mkWorld (token_file w) rest (input_messages w) (trace w))).
    cbv zeta. destruct (str_in _ _); [simpl; discriminate|].
    unfold bind at 1. unfold log at 1.
    pose proof (reads_on_chat_with_agent depth (strip line)
                  (emit (Log INFO ("🧑 You: " ++ strip line)%string) w0)) as Hchat.
    unfold reads_on in Hchat. unfold bind at 1.
    destruct (Agent.chat_with_agent E depth (strip line) _) as [[response|e|] w2];
      simpl in Hchat |- *.
    + intros H. injection H as <-. simpl. lia.
    + destruct (is_KeyboardInterrupt e); discriminate.
    + discriminate.
Qed.

Lemma session_loop_budget depth : forall fuel w,
  (List.length (stdin w) < fuel)%nat ->
  (forall w', fst (Agent.turn E depth w') <> OutOfFuel) ->
  fst (Agent.session_loop E depth fuel w) <> OutOfFuel.
Proof.
  induction fuel as [|fuel IH]; intros w Hfuel Hturn; [lia|].
  simpl. unfold bind.
  pose proof (Hturn w) as Hw. pose proof (turn_reads_a_line depth w) as Hline.
  destruct (Agent.turn E depth w) as [[[|]|e|] w1]; simpl in *.
  - apply IH; [|exact Hturn]. specialize (Hline w1 eq_refl). lia.
  - discriminate.
  - discriminate.
  - contradiction.
Qed.

End SessionBudget.

(** ** The day the date prompt returns *)

Lemma is_digit_val c :
  is_digit c = true ->
  (0 <= digit_val c <= 9)%Z /\ digit_char (digit_val c) = c.
Proof.
  unfold is_digit, digit_val, digit_char. intros H.
  apply andb_true_iff in H. destruct H as [Hlo Hhi].
  apply Nat.leb_le in Hlo, Hhi. split; [lia|].
  rewrite Z.mod_small by lia.
  replace (Z.to_nat (48 + (Z.of_nat (nat_of_ascii c) - 48))) with (nat_of_ascii c) by lia.
  apply ascii_nat_embedding.
Qed.

Lemma digits_snoc width q c :
  is_digit c = true ->
  digits (S width) (10 * q + digit_val c)
  = (digits width q ++ String c EmptyString)%string.
Proof.
  intros H. destruct (is_digit_val c H) as [Hr Hc].
  cbn [digits].
  replace ((10 * q + digit_val c) / 10)%Z with q
    by (apply Z.div_unique with (digit_val c); lia).
  f_equal. f_equal. unfold digit_char in *.
  replace ((10 * q + digit_val c) mod 10)%Z with (digit_val c mod 10)%Z; [exact Hc|].
  rewrite Z.add_comm, Z.mul_comm, Z.mod_add by lia. reflexivity.
Qed.

(** What [fromisoformat] reads, [str(d.date())] writes back. *)
Lemma fromisoformat_date_str s d : fromisoformat s = Ok d -> date_str d = s.
Proof.
  unfold fromisoformat.
  destruct (date_shaped s) eqn:Hshape; [|discriminate]. cbv zeta.
  destruct (_ || _)%bool; [discriminate|].
  destruct (_ || _)%bool; [discriminate|].
  destruct (_ || _)%bool; [discriminate|].
  intros H. injection H as <-. unfold date_str. cbn [year month day].
  unfold date_shaped in Hshape.
  destruct s as [|y1 [|y2 [|y3 [|y4 [|h1 [|m1 [|m2 [|h2 [|d1 [|d2 [|extra s]]]]]]]]]]];
    try discriminate Hshape.
  cbn [list_ascii_of_string forallb] in Hshape.
  rewrite !andb_true_iff in Hshape.
  destruct Hshape as [[(D1 & D2 & D3 & D4 & D5 & D6 & D7 & D8 & _) E1] E2].
  apply Ascii.eqb_eq in E1, E2. subst h1 h2.
  cbn [substring]. unfold int_of_digits, pad.
  cbn [list_ascii_of_string fold_left].
  rewrite !digits_snoc by assumption. reflexivity.
Qed.

Lemma isoformat_midnight_utc d :
  hour d = 0%Z -> minute d = 0%Z -> second d = 0%Z -> microsecond d = 0%Z ->
  isoformat (replace_tzinfo_utc d) = (date_str d ++ "T00:00:00+00:00")%string.
Proof.
  intros Hh Hm Hs Hu. unfold isoformat, date_str, replace_tzinfo_utc.
  cbn [year month day hour minute second microsecond utc].
  rewrite Hh, Hm, Hs, Hu. reflexivity.
Qed.

Lemma prompt_date_sound prompt : forall lines tf msgs tr,
  let w := mkWorld tf lines msgs tr in
  quiet (Menu.prompt_date prompt) w
  /\ (forall d, fst (Menu.prompt_date prompt w) = Ok d ->
        exists line d0, In line lines
                        /\ re_match Menu.DATE_REGEX (strip line) = true
                        /\ fromisoformat (strip line) = Ok d0
                        /\ d = replace_tzinfo_utc d0).
Proof.
  induction lines as [|line rest IH]; intros tf msgs tr w; subst w.
  - split.
    + unfold footprint. simpl. split; [reflexivity|].
      exists [Input (date_prompt prompt)]. auto.
    + simpl. discriminate.
  - unfold footprint. rewrite prompt_date_step. cbv zeta.
    change (input_messages (mkWorld tf (line :: rest) msgs tr)) with msgs.
    change (trace (mkWorld tf (line :: rest) msgs tr)) with tr.
    assert (Hagain : forall msg,
              let w2 := emit (Log ERROR msg)
                          (emit (Input (date_prompt prompt)) (mkWorld tf rest msgs tr)) in
              (input_messages (snd (Menu.prompt_date prompt w2)) = msgs
               /\ exists evs, trace (snd (Menu.prompt_date prompt w2)) = tr ++ evs
                              /\ [] = requests evs /\ chats evs = [])
              /\ (forall d, fst (Menu.prompt_date prompt w2) = Ok d ->
                    exists line' d0, In line' (line :: rest)
                        /\ re_match Menu.DATE_REGEX (strip line') = true
                        /\ fromisoformat (strip line') = Ok d0
                        /\ d = replace_tzinfo_utc d0)).
    { intros msg w2.
      destruct (IH tf msgs ((tr ++ [Input (date_prompt prompt)]) ++ [Log ERROR msg]))
        as ((Hmsg & evs & Htr & Hreq & Hch) & Hret).
      change (mkWorld tf rest msgs
                ((tr ++ [Input (date_prompt prompt)]) ++ [Log ERROR msg]))
        with w2 in Hmsg, Htr, Hret.
      simpl in Hmsg, Htr.
      split.
      - split; [exact Hmsg|].
        exists ([Input (date_prompt prompt); Log ERROR msg] ++ evs).
        split; [|split].
        + rewrite Htr, <- !app_assoc. reflexivity.
        + rewrite requests_app. exact Hreq.
        + rewrite chats_app. exact Hch.
      - intros d Hd. destruct (Hret d Hd) as (ln & d0 & Hin & H1 & H2 & H3).
        exists ln, d0. simpl. auto. }
    destruct (re_match Menu.DATE_REGEX (strip line)) eqn:Hre.
    + destruct (fromisoformat (strip line)) as [d0|e|] eqn:Hiso.
      * split.
        -- simpl. split; [reflexivity|].
           exists [Input (date_prompt prompt)]. auto.
        -- simpl. intros d H. injection H as <-. exists line, d0. simpl. auto.
      * apply (Hagain "Invalid date (out of range). Try again."%string).
      * apply (Hagain "Invalid date (out of range). Try again."%string).
    + apply (Hagain "Wrong format. Please use YYYY-MM-DD."%string).
Qed.

Lemma quiet_prompt_date prompt w : quiet (Menu.prompt_date prompt) w.
Proof. rewrite (world_eta w). apply prompt_date_sound. Qed.

(** X18.  Whatever is typed, a date that the date prompt returns is the
    midnight, in UTC, of a day of the calendar of the years 1 to 9999, and it
    is the day that was typed: one of the lines read, stripped, has the form
    dddd-dd-dd, is what [date()] of the result prints, and followed by
    T00:00:00+00:00 is its [isoformat()]. *)
Theorem date_prompt_returns_typed_day (prompt : string) (w : world) (d : datetime) :
  fst (Menu.prompt_date prompt w) = Ok d ->
  calendar_midnight d /\ utc d = true
  /\ exists line,
       In line (stdin w)
       /\ re_match Menu.DATE_REGEX (strip line) = true
       /\ date_str d = strip line
       /\ isoformat d = (strip line ++ "T00:00:00+00:00")%string.
Proof.
  rewrite (world_eta w). intros Hd.
  destruct (proj2 (prompt_date_sound prompt _ _ _ _) d Hd)
    as (line & d0 & Hin & Hre & Hiso & ->).
  destruct (fromisoformat_midnight _ _ Hiso) as [Hmid Hutc].
  pose proof (fromisoformat_date_str _ _ Hiso) as Hstr.
  destruct Hmid as (Hy & Hm & Hday & Hh & Hmi & Hs & Hu).
  split; [repeat split; simpl; tauto|]. split; [reflexivity|].
  exists line. simpl. repeat split; auto.
  rewrite (isoformat_midnight_utc d0 Hh Hmi Hs Hu). now rewrite Hstr.
Qed.

Lemma date_prompt_returns_typed_day_witness :
  calendar_midnight (mkDatetime 2024 2 29 0 0 0 0 true)
  /\ utc (mkDatetime 2024 2 29 0 0 0 0 true) = true
  /\ exists line,
       In line ["2023-02-29"; " 2024-02-29 "; "exit"]%string
       /\ re_match Menu.DATE_REGEX (strip line) = true
       /\ date_str (mkDatetime 2024 2 29 0 0 0 0 true) = strip line
       /\ isoformat (mkDatetime 2024 2 29 0 0 0 0 true)
          = (strip line ++ "T00:00:00+00:00")%string.
Proof.
  exact (date_prompt_returns_typed_day "Enter date to fetch"
           (Sample.fresh ["2023-02-29"; " 2024-02-29 "; "exit"])
           (mkDatetime 2024 2 29 0 0 0 0 true) eq_refl).
Defined.

(** ** When the input ends *)

Lemma prompt_date_raises prompt : forall lines tf msgs tr e,
  fst (Menu.prompt_date prompt (mkWorld tf lines msgs tr)) = Raise e ->
  exists w0,
    input (date_prompt prompt) w0
    = (Raise e, snd (Menu.prompt_date prompt (mkWorld tf lines msgs tr))).
Proof.
  induction lines as [|line rest IH]; intros tf msgs tr e.
  - simpl. intros H. injection H as <-. exists (mkWorld tf [] msgs tr). reflexivity.
  - rewrite prompt_date_step. cbv zeta.
    destruct (re_match Menu.DATE_REGEX (strip line)); [|apply IH].
    destruct (fromisoformat (strip line)); [discriminate|apply IH|apply IH].
Qed.

Lemma prompt_emails_raises : forall lines tf msgs tr e,
  fst (Menu.prompt_emails (mkWorld tf lines msgs tr)) = Raise e ->
  exists w0,
    input emails_prompt w0
    = (Raise e, snd (Menu.prompt_emails (mkWorld tf lines msgs tr))).
Proof.
  induction lines as [|line rest IH]; intros tf msgs tr e.
  - simpl. intros H. injection H as <-. exists (mkWorld tf [] msgs tr). reflexivity.
  - rewrite prompt_emails_step. cbv zeta.
    destruct (strip line =? "")%string; [discriminate|].
    destruct (forallb _ _); [discriminate|apply IH].
Qed.

(** X19.  The two prompts raise nothing of their own and turn no line
    down by an exception: whatever is typed, an exception leaves
    [prompt_date] or [prompt_emails] only when [input] itself has raised it,
    and the prompt then ends in the very state in which [input] did.  In
    particular the [ValueError] of [fromisoformat] never leaves
    [prompt_date]. *)
Theorem prompts_raise_only_what_input_raises (prompt : string) (w : world) (e : exn) :
  (fst (Menu.prompt_date prompt w) = Raise e ->
   exists w0,
     input (date_prompt prompt) w0 = (Raise e, snd (Menu.prompt_date prompt w)))
  /\ (fst (Menu.prompt_emails w) = Raise e ->
      exists w0,
        input emails_prompt w0 = (Raise e, snd (Menu.prompt_emails w))).
Proof.
  rewrite (world_eta w). split; [apply prompt_date_raises | apply prompt_emails_raises].
Qed.

Lemma prompts_raise_only_what_input_raises_witness :
  exists w0,
    input "Enter date to fetch (YYYY-MM-DD): " w0
    = (Raise (mkExn EOFError "EOF when reading a line"),
       mkWorld (Some "token-1") [] [SystemMessage "policy"]
         [Input "Enter date to fetch (YYYY-MM-DD): ";
          Log ERROR "Wrong format. Please use YYYY-MM-DD.";
          Input "Enter date to fetch (YYYY-MM-DD): ";
          Log ERROR "Invalid date (out of range). Try again.";
          Input "Enter date to fetch (YYYY-MM-DD): "]).
Proof.
  exact (proj1 (prompts_raise_only_what_input_raises "Enter date to fetch"
                  (Sample.fresh ["tomorrow"; "2025-02-30"])
                  (mkExn EOFError "EOF when reading a line")) eq_refl).
Defined.

(** ** The commands of the menu *)

Lemma main_loop_unknown (E : env) : forall lines fuel tf rest msgs tr,
  Forall (fun line => unknown_command line = true) lines ->
  Menu.main_loop E (List.length lines + fuel) (mkWorld tf (lines ++ rest) msgs tr)
  = Menu.main_loop E fuel
      (mkWorld tf rest msgs (tr ++ flat_map (fun _ => unknown_round) lines)).
Proof.
  induction lines as [|line lines IH]; intros fuel tf rest msgs tr Hall.
  - simpl. now rewrite app_nil_r.
  - inversion Hall as [|? ? Hline Hrest]; subst.
    cbn [List.length Nat.add app]. cbn [Menu.main_loop].
    rewrite (bind_ok _ _ _ _ _ (input_line _ _ _ _ _ _)). cbv zeta.
    unfold unknown_command, str_in in Hline. unfold str_in. cbn [existsb] in *.
    destruct (lower (strip line) =? "fetch")%string; [discriminate Hline|].
    destruct (lower (strip line) =? "insert")%string; [discriminate Hline|].
    destruct (lower (strip line) =? "exit")%string; [discriminate Hline|].
    destruct (lower (strip line) =? "quit")%string; [discriminate Hline|].
    cbn [orb].
    rewrite (bind_ok _ _ _ tt (mkWorld tf (lines ++ rest) msgs (tr ++ unknown_round)))
      by (unfold log, emit, unknown_round; simpl; now rewrite <- app_assoc).
    rewrite (IH fuel tf rest msgs (tr ++ unknown_round) Hrest).
    cbn [flat_map]. now rewrite <- app_assoc.
Qed.

(** X20.  Lines that name no command are answered one by one with the
    same error line and nothing else: no credential is read, no request is
    sent.  After them, "exit" or "quit", in any case and with any white space
    around it, ends the menu and leaves the lines that follow unread; and when
    the input ends instead, the [EOFError] of [input] leaves [main]. *)
Theorem menu_skips_unknown_commands (E : env) (lines : list string) (tf : option string)
    (msgs : list message) (tr : list effect) :
  Forall (fun line => unknown_command line = true) lines ->
  (forall line rest,
      In (lower (strip line)) ["exit"; "quit"]%string ->
      Menu.main E (mkWorld tf (lines ++ line :: rest) msgs tr)
      = (Ok tt,
         mkWorld tf rest msgs
           (tr ++ Log INFO "=== Google Calendar CLI ==="
               :: flat_map (fun _ => unknown_round) lines
               ++ [Input menu_prompt; Log INFO "👋 Goodbye."])))
  /\ Menu.main E (mkWorld tf lines msgs tr)
     = (Raise (mkExn EOFError "EOF when reading a line"),
        mkWorld tf [] msgs
          (tr ++ Log INFO "=== Google Calendar CLI ==="
              :: flat_map (fun _ => unknown_round) lines ++ [Input menu_prompt])).
Proof.
  intros Hall. split.
  - intros line rest Hexit. unfold Menu.main.
    rewrite (bind_ok _ _ _ tt
               (mkWorld tf (lines ++ line :: rest) msgs
                  (tr ++ [Log INFO "=== Google Calendar CLI ==="])))
      by reflexivity.
    cbn [stdin]. rewrite length_app. cbn [List.length].
    replace (S (List.length lines + S (List.length rest)))
      with (List.length lines + S (S (List.length rest)))%nat by lia.
    rewrite (main_loop_unknown E lines _ tf (line :: rest) msgs _ Hall).
    cbn [Menu.main_loop].
    rewrite (bind_ok _ _ _ _ _ (input_line _ _ _ _ _ _)). cbv zeta.
    apply str_in_In in Hexit.
    assert (Hf : (lower (strip line) =? "fetch")%string = false).
    { destruct (lower (strip line) =? "fetch")%string eqn:Hc; [|reflexivity].
      apply String.eqb_eq in Hc. rewrite Hc in Hexit. discriminate Hexit. }
    assert (Hi : (lower (strip line) =? "insert")%string = false).
    { destruct (lower (strip line) =? "insert")%string eqn:Hc; [|reflexivity].
      apply String.eqb_eq in Hc. rewrite Hc in Hexit. discriminate Hexit. }
    rewrite Hf, Hi, Hexit. unfold log, emit. simpl.
    rewrite <- !app_assoc. reflexivity.
  - unfold Menu.main.
    rewrite (bind_ok _ _ _ tt
               (mkWorld tf lines msgs (tr ++ [Log INFO "=== Google Calendar CLI ==="])))
      by reflexivity.
    cbn [stdin].
    replace (S (List.length lines)) with (List.length lines + 1)%nat by lia.
    rewrite <- (app_nil_r lines) at 2.
    rewrite (main_loop_unknown E lines _ tf [] msgs _ Hall).
    cbn [Menu.main_loop]. unfold bind, input, emit. simpl.
    rewrite <- !app_assoc. reflexivity.
Qed.

Lemma menu_skips_unknown_commands_witness :
  Menu.main Sample.calm (Sample.fresh ["help"; ""; " Quit"; "fetch"])
  = (Ok tt,
     mkWorld (Some "token-1") ["fetch"] [SystemMessage "policy"]
       [Log INFO "=== Google Calendar CLI ===";
        Input menu_prompt; Log ERROR "Unknown command. Choose fetch, insert, or exit.";
        Input menu_prompt; Log ERROR "Unknown command. Choose fetch, insert, or exit.";
        Input menu_prompt; Log INFO "👋 Goodbye."]).
Proof.
  refine (proj1 (menu_skips_unknown_commands Sample.calm ["help"; ""]%string
                   (Some "token-1"%string) [SystemMessage "policy"] [] _)
            " Quit"%string ["fetch"%string] _).
  - repeat constructor.
  - simpl. auto.
Defined.

(** ** The events of a day, printed *)

Lemma print_event_printed (E : env) ev line w :
  printed E ev = Some line ->
  Menu.print_event E ev w = (Ok tt, emit (Log INFO line) w).
Proof.
  unfold printed. destruct ev as [| | | | |e]; try discriminate.
  destruct (lookup "start" e) as [[| | | | |start]|] eqn:Hstart; try discriminate.
  intros H. injection H as <-.
  unfold Menu.print_event, bind, of_result, subscript, get, log, shown_start.
  rewrite Hstart.
  destruct (lookup "dateTime" start); reflexivity.
Qed.

Lemma for_each_printed (E : env) : forall good lines tail w,
  map (printed E) good = map Some lines ->
  Menu.for_each (good ++ tail) (Menu.print_event E) w
  = Menu.for_each tail (Menu.print_event E)
      (mkWorld (token_file w) (stdin w) (input_messages w)
         (trace w ++ map (Log INFO) lines)).
Proof.
  induction good as [|ev good IH]; intros lines tail w Hmap.
  - destruct lines; [|discriminate Hmap]. simpl. rewrite app_nil_r.
    now rewrite <- world_eta.
  - destruct lines as [|line lines]; [discriminate Hmap|].
    simpl in Hmap. injection Hmap as Hline Hrest.
    cbn [app Menu.for_each].
    rewrite (bind_ok _ _ _ _ _ (print_event_printed E ev line w Hline)).
    rewrite (IH lines tail _ Hrest). unfold emit. simpl.
    now rewrite <- app_assoc.
Qed.

Lemma fetch_with_items (E : env) (date_dt next : datetime) (result : kwargs)
    (evs : list pyval) (w w' : world) :
  add date_dt (timedelta_days 1) = Ok next ->
  Menu.calendar_api_call E (PStr "events") (PStr "list")
    (Menu.list_params (isoformat date_dt) (isoformat next)) w
  = (Ok (PDict result), w') ->
  lookup "items" result = Some (PList evs) ->
  evs <> [] ->
  Menu.fetch_events_for_date E date_dt w
  = Menu.for_each evs (Menu.print_event E)
      (emit (Log INFO ("Events on " ++ date_str date_dt ++ ":")%string) w').
Proof.
  intros Hadd Hcall Hitems Hsome.
  rewrite (fetch_unfold E _ _ Hadd), (bind_ok _ _ _ _ _ Hcall).
  unfold report_events, bind, of_result, get, log, iterate. rewrite Hitems.
  destruct evs; [contradiction|]. reflexivity.
Qed.

(** X21.  When the answer to the list request has events under "items",
    and each of them has a mapping under "start", [fetch_events_for_date]
    logs the line "Events on <date>:" and then one line for each event, in the
    order of the answer: its "dateTime", else its "date", then its "summary"
    or "(no title)". *)
Theorem fetch_prints_events (E : env) (date_dt next : datetime) (result : kwargs)
    (evs : list pyval) (lines : list string) (w w' : world) :
  add date_dt (timedelta_days 1) = Ok next ->
  Menu.calendar_api_call E (PStr "events") (PStr "list")
    (Menu.list_params (isoformat date_dt) (isoformat next)) w
  = (Ok (PDict result), w') ->
  lookup "items" result = Some (PList evs) ->
  evs <> [] ->
  map (printed E) evs = map Some lines ->
  Menu.fetch_events_for_date E date_dt w
  = (Ok tt,
     mkWorld (token_file w') (stdin w') (input_messages w')
       (trace w' ++ Log INFO ("Events on " ++ date_str date_dt ++ ":")%string
                 :: map (Log INFO) lines)).
Proof.
  intros Hadd Hcall Hitems Hsome Hlines.
  rewrite (fetch_with_items E _ _ _ _ _ _ Hadd Hcall Hitems Hsome).
  rewrite <- (app_nil_r evs).
  rewrite (for_each_printed E evs lines [] _ Hlines).
  simpl. rewrite <- app_assoc. reflexivity.
Qed.

Lemma fetch_prints_events_witness :
  Menu.fetch_events_for_date Sample.busy (mkDatetime 2025 7 6 0 0 0 0 true) (Sample.fresh [])
  = (Ok tt,
     mkWorld (Some "token-1") [] [SystemMessage "policy"]
       [PathExists "token.json"; ReadToken "token.json"; BuildClient;
        Request "events" "list" Sample.window;
        Log INFO "Events on 2025-07-06:";
        Log INFO " • 2025-07-06T09:00:00+02:00 — Standup";
        Log INFO " • 2025-07-06 — (no title)"]).
Proof.
  apply (fetch_prints_events Sample.busy (mkDatetime 2025 7 6 0 0 0 0 true)
           (mkDatetime 2025 7 7 0 0 0 0 true)
           [("items", PList [Sample.standup; Sample.holiday])] [Sample.standup; Sample.holiday]
           [" • 2025-07-06T09:00:00+02:00 — Standup"; " • 2025-07-06 — (no title)"]%string
           (Sample.fresh [])
           (mkWorld (Some "token-1") [] [SystemMessage "policy"]
              [PathExists "token.json"; ReadToken "token.json"; BuildClient;
               Request "events" "list" Sample.window]));
    try reflexivity.
  discriminate.
Defined.

(** X22.  An event without "start" stops the listing: the lines of the
    events before it are logged, then [ev["start"]] raises a [KeyError] that
    neither [fetch_events_for_date] nor [main] handles, and the events after
    it are not shown. *)
Theorem event_without_start_raises (E : env) (date_dt next : datetime) (result : kwargs)
    (good rest : list pyval) (bad : kwargs) (lines : list string) (w w' : world) :
  add date_dt (timedelta_days 1) = Ok next ->
  Menu.calendar_api_call E (PStr "events") (PStr "list")
    (Menu.list_params (isoformat date_dt) (isoformat next)) w
  = (Ok (PDict result), w') ->
  lookup "items" result = Some (PList (good ++ PDict bad :: rest)) ->
  map (printed E) good = map Some lines ->
  lookup "start" bad = None ->
  Menu.fetch_events_for_date E date_dt w
  = (Raise (mkExn KeyError "'start'"),
     mkWorld (token_file w') (stdin w') (input_messages w')
       (trace w' ++ Log INFO ("Events on " ++ date_str date_dt ++ ":")%string
                 :: map (Log INFO) lines)).
Proof.
  intros Hadd Hcall Hitems Hlines Hbad.
  rewrite (fetch_with_items E _ _ _ _ _ _ Hadd Hcall Hitems)
    by (destruct good; discriminate).
  rewrite (for_each_printed E good lines _ _ Hlines).
  cbn [Menu.for_each]. unfold Menu.print_event.
  rewrite (bind_raise _ _ _ (mkExn KeyError "'start'") _)
    by (apply bind_raise; unfold of_result, subscript; rewrite Hbad; reflexivity).
  simpl. rewrite <- app_assoc. reflexivity.
Qed.

Lemma event_without_start_raises_witness :
  Menu.fetch_events_for_date Sample.broken (mkDatetime 2025 7 6 0 0 0 0 true) (Sample.fresh [])
  = (Raise (mkExn KeyError "'start'"),
     mkWorld (Some "token-1") [] [SystemMessage "policy"]
       [PathExists "token.json"; ReadToken "token.json"; BuildClient;
        Request "events" "list" Sample.window;
        Log INFO "Events on 2025-07-06:";
        Log INFO " • 2025-07-06T09:00:00+02:00 — Standup"]).
Proof.
  apply (event_without_start_raises Sample.broken (mkDatetime 2025 7 6 0 0 0 0 true)
           (mkDatetime 2025 7 7 0 0 0 0 true)
           [("items", PList [Sample.standup; Sample.ghost; Sample.holiday])] [Sample.standup] [Sample.holiday]
           [("summary", PStr "Ghost")]
           [" • 2025-07-06T09:00:00+02:00 — Standup"]%string
           (Sample.fresh [])
           (mkWorld (Some "token-1") [] [SystemMessage "policy"]
              [PathExists "token.json"; ReadToken "token.json"; BuildClient;
               Request "events" "list" Sample.window]));
    reflexivity.
Defined.

(** ** The outcome of an insertion, reported *)

(** X23.  Once the event is built and the gateway has answered with a
    mapping, [insert_event] reports it in one of three ways.  An answer with a
    truthy "id" and an "htmlLink" is logged as created, with the link.  An
    answer without a truthy "id", which is what the gateway returns for every
    failure it caught, is logged as an error with the whole answer, and
    [insert_event] returns normally.  An answer with a truthy "id" and no
    "htmlLink" makes [resp['htmlLink']] raise a [KeyError]. *)
Theorem insert_reports_outcome (E : env) (tf : option string)
    (l1 l2 l3 l4 l5 : string) (rest : list string) (msgs : list message)
    (tr : list effect) (dt_start dt_end : datetime) (attendees : list pyval)
    (resp : kwargs) (w6 w7 : world) :
  fromisoformat_astimezone_utc E (strip l3 ++ "T" ++ strip l4)%string = Returns dt_start ->
  add dt_start (timedelta_hours 1) = Ok dt_end ->
  Menu.prompt_emails (mkWorld tf rest msgs (tr ++ insert_prompts)) = (Ok attendees, w6) ->
  Menu.calendar_api_call E (PStr "events") (PStr "insert")
    (PDict [("calendarId", PStr "primary");
            ("body", Menu.event_body (or_else (strip l1) "No Title") (strip l2)
                       (or_else (strip l5) "UTC") dt_start dt_end attendees)]) w6
  = (Ok (PDict resp), w7) ->
  let run := Menu.insert_event E (mkWorld tf (l1 :: l2 :: l3 :: l4 :: l5 :: rest) msgs tr) in
  (forall id link,
      lookup "id" resp = Some id -> truthy id = true ->
      lookup "htmlLink" resp = Some link ->
      run = (Ok tt, emit (Log INFO ("✅ Event created: " ++ py_str E link)%string) w7))
  /\ ((forall id, lookup "id" resp = Some id -> truthy id = false) ->
      run = (Ok tt,
             emit (Log ERROR ("Failed to create event: " ++ py_str E (PDict resp))%string) w7))
  /\ (forall id,
         lookup "id" resp = Some id -> truthy id = true ->
         lookup "htmlLink" resp = None ->
         run = (Raise (mkExn KeyError "'htmlLink'"), w7)).
Proof.
  intros Hparse Hadd Hmails Hcall run.
  assert (Hrun : run = (id <- of_result (get (PDict resp) "id" PNone) ;;
                        if truthy id then
                          link <- of_result (subscript (PDict resp) "htmlLink") ;;
                          log INFO ("✅ Event created: " ++ py_str E link)%string
                        else log ERROR ("Failed to create event: "
                                        ++ py_str E (PDict resp))%string) w7).
  { unfold run, Menu.insert_event.
    do 5 (rewrite (bind_ok (input _) _ _ _ _ (input_line _ _ _ _ _ _)); cbv zeta;
          unfold emit at 1; cbn [token_file stdin input_messages trace]).
    rewrite (bind_ok _ _ _ (Some (dt_start, dt_end))
               (mkWorld tf rest msgs (tr ++ insert_prompts))).
    2:{ unfold Menu.build_times, try_except, bind, of_result, of_outcome, ret.
        rewrite Hparse, Hadd. unfold insert_prompts. rewrite <- !app_assoc. reflexivity. }
    rewrite (bind_ok _ _ _ _ _ Hmails). rewrite (bind_ok _ _ _ _ _ Hcall).
    reflexivity. }
  rewrite Hrun. unfold bind, of_result, get, subscript, log.
  split; [|split].
  - intros id link Hid Htruthy Hlink. rewrite Hid, Htruthy, Hlink. reflexivity.
  - intros Hfalsy. destruct (lookup "id" resp) as [id|]; [|reflexivity].
    rewrite (Hfalsy id eq_refl). reflexivity.
  - intros id Hid Htruthy Hlink. rewrite Hid, Htruthy, Hlink. reflexivity.
Qed.

Lemma insert_reports_outcome_witness :
  Menu.insert_event Sample.offline
    (Sample.fresh ["Standup"; ""; "2025-07-06"; "09:30"; ""; ""])
  = (Ok tt,
     mkWorld (Some "token-1") [] [SystemMessage "policy"]
       (insert_prompts
        ++ [Input emails_prompt;
            PathExists "token.json"; ReadToken "token.json"; BuildClient;
            Request "events" "insert"
              (PDict [("calendarId", PStr "primary");
                      ("body",
                       Menu.event_body "Standup" "" "UTC"
                         (mkDatetime 2025 7 6 9 30 0 0 true)
                         (mkDatetime 2025 7 6 10 30 0 0 true) [])]);
            Log ERROR "❌ Calendar API error: Unable to find the server at www.googleapis.com";
            Log ERROR "Failed to create event: <value>"])).
Proof.
  apply (proj1 (proj2 (insert_reports_outcome Sample.offline (Some "token-1"%string)
                         "Standup" "" "2025-07-06" "09:30" "" [""%string]
                         [SystemMessage "policy"] []
                         (mkDatetime 2025 7 6 9 30 0 0 true)
                         (mkDatetime 2025 7 6 10 30 0 0 true) []
                         [("error", PStr "Unable to find the server at www.googleapis.com")]
                         (mkWorld (Some "token-1") [] [SystemMessage "policy"]
                            (insert_prompts ++ [Input emails_prompt]))
                         (mkWorld (Some "token-1") [] [SystemMessage "policy"]
                            (insert_prompts
                             ++ [Input emails_prompt;
                                 PathExists "token.json"; ReadToken "token.json"; BuildClient;
                                 Request "events" "insert"
                                   (PDict [("calendarId", PStr "primary");
                                           ("body",
                                            Menu.event_body "Standup" "" "UTC"
                                              (mkDatetime 2025 7 6 9 30 0 0 true)
                                              (mkDatetime 2025 7 6 10 30 0 0 true) [])]);
                                 Log ERROR "❌ Calendar API error: Unable to find the server at www.googleapis.com"]))
                         eq_refl eq_refl eq_refl eq_refl))).
  intros id H. discriminate H.
Defined.

(** ** What the menu sends *)

Lemma footprint_bind_all {A B} (Q : request -> Prop) (c : M A) (k : A -> M B) w :
  footprint (Forall Q) c w ->
  (forall a w1, c w = (Ok a, w1) -> footprint (Forall Q) (k a) w1) ->
  footprint (Forall Q) (bind c k) w.
Proof.
  intros (Hm & evs & Htr & HQ & Hch) Hk. unfold footprint, bind.
  destruct (c w) as [[a|e|] w1] eqn:Hc; simpl in Hm, Htr.
  - destruct (Hk a w1 eq_refl) as (Hm2 & evs2 & Htr2 & HQ2 & Hch2).
    split; [congruence|]. exists (evs ++ evs2).
    rewrite Htr2, Htr, <- app_assoc, requests_app, chats_app, Hch, Hch2.
    repeat split. apply Forall_app. auto.
  - simpl. split; [exact Hm|]. exists evs. auto.
  - simpl. split; [exact Hm|]. exists evs. auto.
Qed.

Lemma prompt_date_midnight prompt w d :
  fst (Menu.prompt_date prompt w) = Ok d -> calendar_midnight d /\ utc d = true.
Proof.
  rewrite (world_eta w). intros Hd.
  destruct (proj2 (prompt_date_sound prompt _ _ _ _) d Hd)
    as (line & d0 & _ & _ & Hiso & ->).
  destruct (fromisoformat_midnight _ _ Hiso) as [Hmid _].
  split; [exact Hmid | reflexivity].
Qed.

Lemma prompt_emails_validated w attendees :
  fst (Menu.prompt_emails w) = Ok attendees -> validated_attendees attendees.
Proof.
  rewrite (world_eta w). intros H.
  destruct (prompt_emails_sound (stdin w) (token_file w) (input_messages w) (trace w))
    as (_ & _ & _ & Hret).
  destruct (Hret attendees H) as [->|(line & _ & Hok & ->)].
  - exists []. split; [reflexivity|constructor].
  - exists (entries line). split; [reflexivity|].
    apply Forall_forall. intros e He.
    apply email_pattern_sound. rewrite forallb_forall in Hok. now apply Hok.
Qed.

Section MenuRequests.

Variable E : env.

Lemma fetch_sends_day_listing date_dt w :
  calendar_midnight date_dt -> utc date_dt = true ->
  footprint (Forall (menu_request E)) (Menu.fetch_events_for_date E date_dt) w.
Proof.
  intros Hmid Hutc.
  destruct (add date_dt (timedelta_days 1)) as [next|e|] eqn:Hadd.
  - pose proof Hmid as (Hy & Hm & Hd & Hh & Hmi & Hs & Hu).
    destruct (fetch_window E date_dt next w Hh Hmi Hs Hu Hadd) as [Hfp _].
    eapply footprint_weaken; [|exact Hfp].
    intros l [->| ->]; constructor; [|constructor].
    left. exists date_dt, next.
    split; [exact Hmid|]. split; [exact Hutc|]. split; [exact Hadd|reflexivity].
  - eapply footprint_weaken with (P := eq []); [intros l <-; constructor|].
    unfold Menu.fetch_events_for_date. rewrite Hadd.
    unfold footprint, bind, of_result. simpl. split; [reflexivity|].
    exists []. rewrite app_nil_r. auto.
  - exfalso. now apply (add_settles date_dt (timedelta_days 1)).
Qed.

Lemma insert_sends_hour_insertion w :
  footprint (Forall (menu_request E)) (Menu.insert_event E) w.
Proof.
  unfold Menu.insert_event.
  apply footprint_bind_quiet; [apply quiet_input | constructor | intros l1 w1 _].
  cbv zeta.
  apply footprint_bind_quiet; [apply quiet_input | constructor | intros l2 w2 _].
  apply footprint_bind_quiet; [apply quiet_input | constructor | intros l3 w3 _].
  apply footprint_bind_quiet; [apply quiet_input | constructor | intros l4 w4 _].
  apply footprint_bind_quiet; [apply quiet_input | constructor | intros l5 w5 _].
  apply footprint_bind_quiet; [apply quiet_build_times | constructor | intros times w6 Htimes].
  destruct times as [[dt_start dt_end]|];
    [|eapply footprint_weaken; [|apply quiet_ret]; intros l <-; constructor].
  apply build_times_run in Htimes. destruct Htimes as (Hparse & Hadd & ->).
  apply footprint_bind_quiet;
    [apply quiet_prompt_emails | constructor | intros attendees w7 Hmails].
  assert (Hval : validated_attendees attendees).
  { apply (prompt_emails_validated w5). now rewrite Hmails. }
  apply footprint_then_quiet.
  - eapply footprint_weaken; [|apply footprint_gateway].
    intros l [->|(r & m & Hr & Hm & ->)]; constructor; [|constructor].
    inversion Hr; inversion Hm; subst. right.
    exists (strip l3 ++ "T" ++ strip l4)%string,
      (or_else (strip l1) "No Title"), (strip l2), (or_else (strip l5) "UTC"),
      dt_start, dt_end, attendees.
    repeat split; auto.
    rewrite (to_micros_add _ _ _ Hadd). unfold timedelta_hours, US_PER_SECOND. lia.
  - intros resp w8 _. quiet_steps.
Qed.

Lemma main_loop_sends : forall fuel w,
  footprint (Forall (menu_request E)) (Menu.main_loop E fuel) w.
Proof.
  induction fuel as [|fuel IH]; intros w.
  - unfold footprint. simpl. split; [reflexivity|]. exists []. rewrite app_nil_r. auto.
  - cbn [Menu.main_loop].
    apply footprint_bind_quiet; [apply quiet_input | constructor | intros line w1 _].
    cbv zeta.
    destruct (lower (strip line) =? "fetch")%string.
    { apply footprint_bind_quiet;
        [apply quiet_prompt_date | constructor | intros date_dt w2 Hdate].
      destruct (prompt_date_midnight "Enter date to fetch" w1 date_dt) as [Hmid Hutc];
        [now rewrite Hdate|].
      apply footprint_bind_all; [now apply fetch_sends_day_listing|].
      intros _ w3 _. apply IH. }
    destruct (lower (strip line) =? "insert")%string.
    { apply footprint_bind_all; [apply insert_sends_hour_insertion|].
      intros _ w2 _. apply IH. }
    destruct (str_in _ _).
    { eapply footprint_weaken; [|apply quiet_log]. intros l <-. constructor. }
    apply footprint_bind_quiet; [apply quiet_log | constructor | intros _ w2 _].
    apply IH.
Qed.

End MenuRequests.


(** ** The scenarios of the specification *)

(** [fetch], then 2025-07-06, on an empty calendar. *)
Example fetch_scenario :
  Menu.main Sample.calm (Sample.fresh ["fetch"; "2025-07-06"; "exit"])
  = (Ok tt,
     mkWorld (Some "token-1") [] [SystemMessage "policy"]
       [Log INFO "=== Google Calendar CLI ===";
        Input (String "010" "Choose action [fetch/insert/exit]: ");
        Input "Enter date to fetch (YYYY-MM-DD): ";
        PathExists "token.json"; ReadToken "token.json"; BuildClient;
        Request "events" "list" Sample.window;
        Log INFO "No events found on 2025-07-06.";
        Input (String "010" "Choose action [fetch/insert/exit]: ");
        Log INFO "👋 Goodbye."]).
Proof. reflexivity. Qed.

Example strip_split :
  strip "  a@b.c , x " = "a@b.c , x"%string
  /\ split "," "a,,b" = ["a"; ""; "b"]%string
  /\ split "," "" = [""]%string
  /\ lower "FeTch" = "fetch"%string.
Proof. repeat split. Qed.

Example calendar_samples :
  ord2ymd (ymd2ord 2024 2 29) = (2024, 2, 29)%Z
  /\ ord2ymd (ymd2ord 2100 3 1) = (2100, 3, 1)%Z
  /\ ymd2ord 1 1 1 = 1%Z
  /\ ymd2ord 9999 12 31 = MAXORDINAL
  /\ isoformat (mkDatetime 2025 7 6 9 5 0 0 true) = "2025-07-06T09:05:00+00:00"%string
  /\ isoformat (mkDatetime 2025 7 6 9 5 0 250 false) = "2025-07-06T09:05:00.000250"%string.
Proof. repeat split. Qed.
